(** * metalshader: a shallow embedding of [old/metalshader.c]

    The program is a single C file: a registry of compiled shader programs
    found on disk, a keyboard poll that steps through the registry, and a
    render loop that rebuilds the Vulkan pipeline on demand, draws one frame,
    waits for it and copies it row by row into the scanout buffer.

    The embedding keeps the program's variables as they are (C [int] and
    [uint32_t] as [Z] with the wrap-around written out, [float] as IEEE
    binary32, C strings as [string]) and threads the state of the process
    explicitly.  Calls into Vulkan, DRM/GBM, the file system and the clock are
    recorded in a trace; what they answer is an input of each loop pass. *)

From Stdlib Require Import ZArith List Bool Lia String Ascii.
From Stdlib Require Import Floats.SpecFloat.
Import ListNotations.
Open Scope string_scope.
Open Scope Z_scope.

(* ================================================================== *)
(** * Machine arithmetic *)

Module CInt.

(** Two's complement value of [x] on [w] bits. *)
Definition wrap_s (w x : Z) : Z := (x + 2 ^ (w - 1)) mod 2 ^ w - 2 ^ (w - 1).

(** Unsigned value of [x] on [w] bits. *)
Definition wrap_u (w x : Z) : Z := x mod 2 ^ w.

Definition INT_MIN : Z := - 2 ^ 31.

(** [int] addition and subtraction (32 bits). *)
Definition int_add (a b : Z) : Z := wrap_s 32 (a + b).
Definition int_sub (a b : Z) : Z := wrap_s 32 (a - b).

(** [a % b] on [int]: truncating remainder; no value when the divisor is
    zero or the quotient overflows. *)
Definition int_rem (a b : Z) : option Z :=
  if (b =? 0) || ((a =? INT_MIN) && (b =? -1)) then None
  else Some (Z.rem a b).

(** [uint32_t] and [uint64_t] multiplication. *)
Definition u32_mul (a b : Z) : Z := wrap_u 32 (a * b).
Definition u64_mul (a b : Z) : Z := wrap_u 64 (a * b).

(** [long] subtraction (64 bits, as [time_t] and [tv_nsec] are). *)
Definition long_sub (a b : Z) : Z := wrap_s 64 (a - b).

End CInt.
Import CInt.

(* ================================================================== *)
(** * Single precision floating point

    [float] is IEEE 754 binary32: 24 bits of precision, exponents below 128,
    every operation rounded to nearest even. *)

Module F32.

Definition float : Type := spec_float.

Definition prec : Z := 24.
Definition emax : Z := 128.

(** Conversion of an integer to [float]. *)
Definition of_Z (z : Z) : float := binary_normalize prec emax z 0 false.

Definition add : float -> float -> float := SFadd prec emax.
Definition div : float -> float -> float := SFdiv prec emax.
Definition ltb : float -> float -> bool := SFltb.

Definition zero : float := S754_zero false.
Definition one : float := of_Z 1.

(** The literal [1e9f]. *)
Definition lit_1e9f : float := of_Z 1000000000.

End F32.

(* ================================================================== *)
(** * C strings *)

Module CStr.

(** [strrchr s c]: position of the last occurrence of [c] in [s]. *)
Fixpoint strrchr (s : string) (c : ascii) : option nat :=
  match s with
  | EmptyString => None
  | String a rest =>
      match strrchr rest c with
      | Some i => Some (S i)
      | None => if Ascii.eqb a c then Some O else None
      end
  end.

(** The tail of [s] from position [i], as [s + i] is in C. *)
Fixpoint tail_from (i : nat) (s : string) : string :=
  match i, s with
  | O, _ => s
  | S i', String _ rest => tail_from i' rest
  | S _, EmptyString => EmptyString
  end.

(** [strncpy(dst, s, n); dst[n] = 0] for [n] at most the length of [s]. *)
Definition strncpy (s : string) (n : nat) : string := substring 0 n s.

(** [snprintf(buf, size, ...)]: the formatted text cut to [size - 1]
    characters. *)
Definition snprintf (size : nat) (text : string) : string :=
  substring 0 (size - 1) text.

(** [strstr(hay, needle) != NULL]. *)
Definition strstr (hay needle : string) : bool :=
  match index 0 needle hay with
  | Some _ => true
  | None => false
  end.

(** Decimal text of a loop counter between 0 and 9, as [%d] prints it. *)
Definition digit (i : nat) : string :=
  String (ascii_of_nat (48 + i)) EmptyString.

Definition newline : string := String (ascii_of_nat 10) EmptyString.

(** [fgets(buf, size, f)] on a file holding [content]: nothing at end of
    file, otherwise at most [size - 1] characters, stopping after the
    first newline. *)
Fixpoint take_line (n : nat) (s : string) : string :=
  match n, s with
  | O, _ => EmptyString
  | _, EmptyString => EmptyString
  | S n', String a rest =>
      if Ascii.eqb a (ascii_of_nat 10) then String a EmptyString
      else String a (take_line n' rest)
  end.

Definition fgets (size : nat) (content : string) : option string :=
  match content with
  | EmptyString => None
  | _ => Some (take_line (size - 1) content)
  end.

End CStr.
Import CStr.

(* ================================================================== *)
(** * Data of the program *)

Definition MAX_SHADERS : Z := 256.

(** [ShaderToyUBO]. *)
Record ShaderToyUBO := mkUBO {
  iResolution : F32.float * F32.float * F32.float;
  iTime : F32.float;
  iMouse : F32.float * F32.float * F32.float * F32.float
}.

(** [ShaderInfo]: [name] is [char[256]], the two paths are [char[512]]. *)
Record ShaderInfo := mkShaderInfo {
  name : string;
  vert_path : string;
  frag_path : string
}.

(** [struct timespec]. *)
Record timespec := mkTimespec { tv_sec : Z; tv_nsec : Z }.

(** [struct input_event] without its time stamp. *)
Record input_event := mkEvent { ev_type : Z; ev_code : Z; ev_value : Z }.

(** [struct dirent]: the two fields the scan reads. *)
Record dirent := mkDirent { d_type : Z; d_name : string }.

(** Constants of [<linux/input-event-codes.h>] and [<dirent.h>]. *)
Definition EV_KEY : Z := 1.
Definition KEY_ESC : Z := 1.
Definition KEY_Q : Z := 16.
Definition KEY_F : Z := 33.
Definition KEY_LEFT : Z := 105.
Definition KEY_RIGHT : Z := 106.
Definition DT_REG : Z := 8.

(** What the file system answers: [opendir]/[readdir] on a directory,
    [stat] on a path, [fopen(p, "r")] with the file's bytes, and whether
    [fopen(p, "w")] succeeds. *)
Record FileSystem := mkFS {
  fs_opendir : string -> option (list dirent);
  fs_stat : string -> bool;
  fs_read : string -> option string;
  fs_write : string -> bool
}.

(* ================================================================== *)
(** * Program registry: [scan_shaders], [scan_all_shaders],
      [find_shader_by_name], [get_basename]

    The live part of the array [shaders] is a list; [shader_count] is its
    length.  Entry [shaders[shader_count]] is scratch space that the scan
    fills for each candidate and keeps only when it increments the count. *)

Module Registry.

Definition shader_count (reg : list ShaderInfo) : Z := Z.of_nat (List.length reg).

(** The candidate that the body of the loop builds from an entry of
    [shader_dir], when the entry passes the tests on its name. *)
Definition candidate (shader_dir : string) (entry : dirent) : option ShaderInfo :=
  if negb (d_type entry =? DT_REG) then None
  else
    match strrchr (d_name entry) "." with
    | None => None
    | Some pos =>
        let ext := tail_from pos (d_name entry) in
        if negb (String.eqb ext ".frag") then None
        else
          let base_len := pos in
          if (256 <=? Z.of_nat base_len) then None
          else
            let nm := strncpy (d_name entry) base_len in
            Some {| name := nm;
                    vert_path := snprintf 512 (shader_dir ++ "/" ++ nm ++ ".vert.spv");
                    frag_path := snprintf 512 (shader_dir ++ "/" ++ nm ++ ".frag.spv") |}
    end.

(** The [while] loop of [scan_shaders] over the entries that [readdir]
    returns. *)
Fixpoint scan_entries (fs : FileSystem) (shader_dir : string)
         (entries : list dirent) (reg : list ShaderInfo) : list ShaderInfo :=
  match entries with
  | [] => reg
  | entry :: rest =>
      if negb (shader_count reg <? MAX_SHADERS) then reg
      else
        match candidate shader_dir entry with
        | None => scan_entries fs shader_dir rest reg
        | Some info =>
            if fs_stat fs (vert_path info) && fs_stat fs (frag_path info)
            then scan_entries fs shader_dir rest (reg ++ [info])%list
            else scan_entries fs shader_dir rest reg
        end
  end.

Definition scan_shaders (fs : FileSystem) (shader_dir : string)
           (reg : list ShaderInfo) : list ShaderInfo :=
  match fs_opendir fs shader_dir with
  | None => reg
  | Some entries => scan_entries fs shader_dir entries reg
  end.

Definition search_dirs : list string :=
  [ "."; "./shaders"; "/root/metalshade/shaders" ].

(** [scan_all_shaders]: the count is reset, then every search directory
    is scanned in order. *)
Definition scan_all_shaders (fs : FileSystem) : list ShaderInfo :=
  fold_left (fun reg dir => scan_shaders fs dir reg) search_dirs [].

(** [find_shader_by_name]: first index whose name is [nm], or -1. *)
Fixpoint find_from (reg : list ShaderInfo) (nm : string) (i : Z) : Z :=
  match reg with
  | [] => -1
  | sh :: rest => if String.eqb (name sh) nm then i else find_from rest nm (i + 1)
  end.

Definition find_shader_by_name (reg : list ShaderInfo) (nm : string) : Z :=
  find_from reg nm 0.

(** [get_basename]: what follows the last slash. *)
Definition get_basename (path : string) : string :=
  match strrchr path "/" with
  | Some i => tail_from (S i) path
  | None => path
  end.

(** [shaders[i]]: an index outside the live part has no defined entry. *)
Definition shader_at (reg : list ShaderInfo) (i : Z) : option ShaderInfo :=
  if i <? 0 then None else nth_error reg (Z.to_nat i).

End Registry.
Import Registry.

(* ================================================================== *)
(** * Vulkan, GBM and process interface *)

Definition handle : Type := Z.
Definition VK_NULL_HANDLE : handle := 0.

Definition VkResult : Type := Z.
Definition VK_SUCCESS : VkResult := 0.

Inductive VkShaderStageFlagBits :=
| VK_SHADER_STAGE_VERTEX_BIT
| VK_SHADER_STAGE_FRAGMENT_BIT.

Inductive VkPrimitiveTopology :=
| VK_PRIMITIVE_TOPOLOGY_POINT_LIST
| VK_PRIMITIVE_TOPOLOGY_LINE_LIST
| VK_PRIMITIVE_TOPOLOGY_LINE_STRIP
| VK_PRIMITIVE_TOPOLOGY_TRIANGLE_LIST
| VK_PRIMITIVE_TOPOLOGY_TRIANGLE_STRIP
| VK_PRIMITIVE_TOPOLOGY_TRIANGLE_FAN.

Inductive VkPolygonMode :=
| VK_POLYGON_MODE_FILL
| VK_POLYGON_MODE_LINE
| VK_POLYGON_MODE_POINT.

Inductive VkCullMode :=
| VK_CULL_MODE_NONE
| VK_CULL_MODE_FRONT_BIT
| VK_CULL_MODE_BACK_BIT.

Record VkPipelineShaderStageCreateInfo := mkStage {
  stage : VkShaderStageFlagBits;
  module : handle;
  pName : string
}.

Record VkViewport := mkViewport {
  vp_x : F32.float; vp_y : F32.float;
  vp_width : F32.float; vp_height : F32.float;
  vp_minDepth : F32.float; vp_maxDepth : F32.float
}.

Record VkRect2D := mkRect {
  offset_x : Z; offset_y : Z;
  extent_width : Z; extent_height : Z
}.

Record VkPipelineColorBlendAttachmentState := mkBlendAttachment {
  blendEnable : bool;
  colorWriteMask : Z
}.

(** [VkGraphicsPipelineCreateInfo] with the states it points to written in
    place.  A member that the initializer leaves out is zero: a count of 0,
    [VK_FALSE], or a null pointer ([None]). *)
Record VkGraphicsPipelineCreateInfo := mkPipelineInfo {
  stageCount : Z;
  pStages : list VkPipelineShaderStageCreateInfo;
  vertexBindingDescriptionCount : Z;
  vertexAttributeDescriptionCount : Z;
  topology : VkPrimitiveTopology;
  primitiveRestartEnable : bool;
  viewportCount : Z;
  pViewports : list VkViewport;
  scissorCount : Z;
  pScissors : list VkRect2D;
  polygonMode : VkPolygonMode;
  cullMode : VkCullMode;
  lineWidth : F32.float;
  rasterizationSamples : Z;
  pDepthStencilState : option unit;
  logicOpEnable : bool;
  attachmentCount : Z;
  pAttachments : list VkPipelineColorBlendAttachmentState;
  pDynamicState : option unit;
  layout : handle;
  renderPass : handle
}.

(** The five calls wrapped in [VK_CHECK] inside the loop. *)
Inductive VkCall :=
| CallCreateVertexModule
| CallCreateFragmentModule
| CallCreateGraphicsPipelines
| CallQueueSubmit
| CallWaitForFences.

(** Lines written to standard output. *)
Inductive Message :=
| MsgPreviousShader (nm : string)
| MsgNextShader (nm : string)
| MsgToggling
| MsgCantOpen (port : string)
| MsgNoDisplayPort
| MsgExiting
| MsgFailedToLoad (nm : string)
| MsgLoadedShader (nm : string)
| MsgVkErr (r : VkResult) (site : VkCall)
| MsgFps (t : F32.float) (frames : Z) (nm : string)
| MsgFound (count : Z)
| MsgListed (i : Z) (nm : string)
| MsgNoCompiledShaders
| MsgSearched
| MsgCompileHint
| MsgShaderNotFound (nm : string)
| MsgAvailable (nm : string)
| MsgStartingWith (nm : string).

(** Calls that leave the process, in program order. *)
Inductive Event :=
| EvDestroyPipeline (h : handle)
| EvDestroyShaderModule (h : handle)
| EvCreateShaderModule (codeSize : Z) (pCode : string) (r : VkResult)
| EvCreateGraphicsPipelines (info : VkGraphicsPipelineCreateInfo) (r : VkResult)
| EvBeginCommandBuffer
| EvCmdBeginRenderPass (width height : Z)
| EvCmdBindPipeline (h : handle)
| EvCmdBindDescriptorSets
| EvCmdDraw (vertexCount instanceCount firstVertex firstInstance : Z)
| EvCmdEndRenderPass
| EvEndCommandBuffer
| EvQueueSubmit (r : VkResult)
| EvWaitForFences (r : VkResult)
| EvResetFences
| EvGbmMap (mapped : bool)
| EvGbmUnmap
| EvDirtyFB
| EvSleep (seconds : Z)
| EvPortWrite (port : string) (text : string)
| EvPrintf (m : Message).

(** Mapped memory: the byte at each offset from the mapping's base.  The
    sizes of the mappings are not part of the model. *)
Definition mem : Type := Z -> Byte.byte.

(** [memcpy(dst + doff, src + soff, n)] between two distinct mappings. *)
Definition memcpy (dst : mem) (doff : Z) (src : mem) (soff n : Z) : mem :=
  fun a => if (doff <=? a) && (a <? doff + n) then src (soff + (a - doff)) else dst a.

(** What startup leaves fixed for the whole loop: the registry, the keyboard
    descriptor, the display size [W] x [H] of the chosen mode, the row pitch
    of the render surface, and the handles created once. *)
Record Env := mkEnv {
  shaders : list ShaderInfo;
  kbd_fd : Z;
  W : Z;
  H : Z;
  rowPitch : Z;
  pipelineLayout : handle;
  the_renderPass : handle
}.

(** The state that the loop reads and writes. *)
Record State := mkState {
  (* file-scope variables *)
  current_shader : Z;
  reload_requested : Z;
  (* locals of [main] *)
  pipeline : handle;
  vm : handle;
  fm : handle;
  start : timespec;
  frames : Z;
  (* [static char port_path[64]] of [find_display_port]; empty: not cached *)
  port_path : string;
  (* mapped memory: uniform block ([None]: never written), render surface,
     scanout buffer *)
  uboMem : option ShaderToyUBO;
  rtMem : mem;
  gbmMem : mem;
  (* the device: objects alive, next handle it hands out *)
  live : list handle;
  next_handle : positive;
  (* events waiting in the kernel for [kbd_fd] *)
  kbd_queue : list input_event;
  (* calls made so far *)
  trace : list Event;
  (* specification only, no variable of the program: the index whose
     binaries the objects in [pipeline], [vm], [fm] were built from; written
     where the program prints "Loaded shader" *)
  built_for : Z
}.

(** What the outside answers during one pass of the loop. *)
Record FrameInput := mkInput {
  (* key events that reach the kernel queue before this pass polls *)
  arrivals : list input_event;
  (* the files as this pass finds them *)
  fs : FileSystem;
  (* results of the two [vkCreateShaderModule], of
     [vkCreateGraphicsPipelines], [vkQueueSubmit] and [vkWaitForFences] *)
  r_vm : VkResult;
  r_fm : VkResult;
  r_pipe : VkResult;
  r_submit : VkResult;
  r_wait : VkResult;
  (* [clock_gettime] into [start] at the end of the reload block, and into
     [now] after it *)
  clock_reload : timespec;
  clock_frame : timespec;
  (* the render surface once the fence has signalled *)
  gpu_output : mem;
  (* [gbm_bo_map]: [None] for NULL, otherwise the stride it reports *)
  gbm_map : option Z
}.

(** How a piece of the loop body ends. *)
Inductive Flow :=
| Next (s : State)              (* control reaches the following statement *)
| Again (s : State)             (* [continue] *)
| Exited (code : Z) (s : State) (* [exit(code)] *)
| Undefined (s : State).        (* no defined behaviour in C *)

Definition state_of (f : Flow) : State :=
  match f with
  | Next s | Again s | Exited _ s | Undefined s => s
  end.

(* ------------------------------------------------------------------ *)
(** ** Field updates *)

Definition set_current_shader (v : Z) (s : State) : State :=
  mkState v (reload_requested s) (pipeline s) (vm s) (fm s) (start s) (frames s)
    (port_path s) (uboMem s) (rtMem s) (gbmMem s) (live s) (next_handle s)
    (kbd_queue s) (trace s) (built_for s).
Definition set_reload_requested (v : Z) (s : State) : State :=
  mkState (current_shader s) v (pipeline s) (vm s) (fm s) (start s) (frames s)
    (port_path s) (uboMem s) (rtMem s) (gbmMem s) (live s) (next_handle s)
    (kbd_queue s) (trace s) (built_for s).
Definition set_pipeline (v : handle) (s : State) : State :=
  mkState (current_shader s) (reload_requested s) v (vm s) (fm s) (start s) (frames s)
    (port_path s) (uboMem s) (rtMem s) (gbmMem s) (live s) (next_handle s)
    (kbd_queue s) (trace s) (built_for s).
Definition set_vm (v : handle) (s : State) : State :=
  mkState (current_shader s) (reload_requested s) (pipeline s) v (fm s) (start s) (frames s)
    (port_path s) (uboMem s) (rtMem s) (gbmMem s) (live s) (next_handle s)
    (kbd_queue s) (trace s) (built_for s).
Definition set_fm (v : handle) (s : State) : State :=
  mkState (current_shader s) (reload_requested s) (pipeline s) (vm s) v (start s) (frames s)
    (port_path s) (uboMem s) (rtMem s) (gbmMem s) (live s) (next_handle s)
    (kbd_queue s) (trace s) (built_for s).
Definition set_start (v : timespec) (s : State) : State :=
  mkState (current_shader s) (reload_requested s) (pipeline s) (vm s) (fm s) v (frames s)
    (port_path s) (uboMem s) (rtMem s) (gbmMem s) (live s) (next_handle s)
    (kbd_queue s) (trace s) (built_for s).
Definition set_frames (v : Z) (s : State) : State :=
  mkState (current_shader s) (reload_requested s) (pipeline s) (vm s) (fm s) (start s) v
    (port_path s) (uboMem s) (rtMem s) (gbmMem s) (live s) (next_handle s)
    (kbd_queue s) (trace s) (built_for s).
Definition set_port_path (v : string) (s : State) : State :=
  mkState (current_shader s) (reload_requested s) (pipeline s) (vm s) (fm s) (start s) (frames s)
    v (uboMem s) (rtMem s) (gbmMem s) (live s) (next_handle s)
    (kbd_queue s) (trace s) (built_for s).
Definition set_uboMem (v : option ShaderToyUBO) (s : State) : State :=
  mkState (current_shader s) (reload_requested s) (pipeline s) (vm s) (fm s) (start s) (frames s)
    (port_path s) v (rtMem s) (gbmMem s) (live s) (next_handle s)
    (kbd_queue s) (trace s) (built_for s).
Definition set_rtMem (v : mem) (s : State) : State :=
  mkState (current_shader s) (reload_requested s) (pipeline s) (vm s) (fm s) (start s) (frames s)
    (port_path s) (uboMem s) v (gbmMem s) (live s) (next_handle s)
    (kbd_queue s) (trace s) (built_for s).
Definition set_gbmMem (v : mem) (s : State) : State :=
  mkState (current_shader s) (reload_requested s) (pipeline s) (vm s) (fm s) (start s) (frames s)
    (port_path s) (uboMem s) (rtMem s) v (live s) (next_handle s)
    (kbd_queue s) (trace s) (built_for s).
Definition set_live (v : list handle) (s : State) : State :=
  mkState (current_shader s) (reload_requested s) (pipeline s) (vm s) (fm s) (start s) (frames s)
    (port_path s) (uboMem s) (rtMem s) (gbmMem s) v (next_handle s)
    (kbd_queue s) (trace s) (built_for s).
Definition set_next_handle (v : positive) (s : State) : State :=
  mkState (current_shader s) (reload_requested s) (pipeline s) (vm s) (fm s) (start s) (frames s)
    (port_path s) (uboMem s) (rtMem s) (gbmMem s) (live s) v
    (kbd_queue s) (trace s) (built_for s).
Definition set_kbd_queue (v : list input_event) (s : State) : State :=
  mkState (current_shader s) (reload_requested s) (pipeline s) (vm s) (fm s) (start s) (frames s)
    (port_path s) (uboMem s) (rtMem s) (gbmMem s) (live s) (next_handle s)
    v (trace s) (built_for s).
Definition set_trace (v : list Event) (s : State) : State :=
  mkState (current_shader s) (reload_requested s) (pipeline s) (vm s) (fm s) (start s) (frames s)
    (port_path s) (uboMem s) (rtMem s) (gbmMem s) (live s) (next_handle s)
    (kbd_queue s) v (built_for s).
Definition set_built_for (v : Z) (s : State) : State :=
  mkState (current_shader s) (reload_requested s) (pipeline s) (vm s) (fm s) (start s) (frames s)
    (port_path s) (uboMem s) (rtMem s) (gbmMem s) (live s) (next_handle s)
    (kbd_queue s) (trace s) v.

(** Record a call. *)
Definition emit (e : Event) (s : State) : State :=
  set_trace (trace s ++ [e])%list s.

Definition printf (m : Message) (s : State) : State := emit (EvPrintf m) s.

(* ================================================================== *)
(** * Input router: [find_display_port] and [check_keyboard] *)

(** The [for] loop of [find_display_port], from port [i], [n] ports left. *)
Fixpoint find_port_loop (fsys : FileSystem) (n i : nat) : option string :=
  match n with
  | O => None
  | S n' =>
      let name_path :=
        snprintf 128 ("/sys/class/virtio-ports/vport" ++ digit i ++ "p1/name") in
      match fs_read fsys name_path with
      | Some content =>
          match fgets 64 content with
          | Some nm =>
              if strstr nm "org.qemu.display"
              then Some (snprintf 64 ("/dev/vport" ++ digit i ++ "p1"))
              else find_port_loop fsys n' (S i)
          | None => find_port_loop fsys n' (S i)
          end
      | None => find_port_loop fsys n' (S i)
      end
  end.

Definition find_display_port (fsys : FileSystem) (s : State) : option string * State :=
  if negb (String.eqb (port_path s) "") then (Some (port_path s), s)
  else
    match find_port_loop fsys 10 0 with
    | Some p => (Some p, set_port_path p s)
    | None => (None, s)
    end.

(** The body of the [while] loop of [check_keyboard] for one event. *)
Definition on_event (env : Env) (fsys : FileSystem) (ev : input_event) (s : State) : Flow :=
  if negb (ev_type ev =? EV_KEY) || negb (ev_value ev =? 1) then Next s
  else if ev_code ev =? KEY_LEFT then
    match int_rem (int_add (int_sub (current_shader s) 1) (shader_count (shaders env)))
                  (shader_count (shaders env)) with
    | None => Undefined s
    | Some i =>
        let s := set_reload_requested 1 (set_current_shader i s) in
        match shader_at (shaders env) (current_shader s) with
        | Some sh => Next (printf (MsgPreviousShader (name sh)) s)
        | None => Undefined s
        end
    end
  else if ev_code ev =? KEY_RIGHT then
    match int_rem (int_add (current_shader s) 1) (shader_count (shaders env)) with
    | None => Undefined s
    | Some i =>
        let s := set_reload_requested 1 (set_current_shader i s) in
        match shader_at (shaders env) (current_shader s) with
        | Some sh => Next (printf (MsgNextShader (name sh)) s)
        | None => Undefined s
        end
    end
  else if ev_code ev =? KEY_F then
    let s := printf MsgToggling s in
    match find_display_port fsys s with
    | (Some port, s) =>
        if fs_write fsys port
        then Next (emit (EvPortWrite port ("FULLSCREEN" ++ newline)) s)
        else Next (printf (MsgCantOpen port) s)
    | (None, s) => Next (printf MsgNoDisplayPort s)
    end
  else if (ev_code ev =? KEY_ESC) || (ev_code ev =? KEY_Q) then
    Exited 0 (printf MsgExiting s)
  else Next s.

(** The [while] loop: each successful [read] takes the event at the head of
    the queue; the loop ends when the queue is empty. *)
Fixpoint drain (env : Env) (fsys : FileSystem) (q : list input_event) (s : State) : Flow :=
  match q with
  | [] => Next s
  | ev :: q' =>
      match on_event env fsys ev (set_kbd_queue q' s) with
      | Next s' => drain env fsys q' s'
      | other => other
      end
  end.

Definition check_keyboard (env : Env) (fsys : FileSystem) (s : State) : Flow :=
  if kbd_fd env <? 0 then Next s
  else drain env fsys (kbd_queue s) s.

(* ================================================================== *)
(** * Pipeline manager: the reload block of the main loop *)

Definition destroy_pipeline (s : State) : State :=
  if pipeline s =? VK_NULL_HANDLE then s
  else emit (EvDestroyPipeline (pipeline s))
            (set_live (remove Z.eq_dec (pipeline s) (live s)) s).

Definition destroy_vm (s : State) : State :=
  if vm s =? VK_NULL_HANDLE then s
  else emit (EvDestroyShaderModule (vm s))
            (set_live (remove Z.eq_dec (vm s) (live s)) s).

Definition destroy_fm (s : State) : State :=
  if fm s =? VK_NULL_HANDLE then s
  else emit (EvDestroyShaderModule (fm s))
            (set_live (remove Z.eq_dec (fm s) (live s)) s).

(** "Clean up old shaders/pipeline". *)
Definition destroy_old (s : State) : State :=
  destroy_fm (destroy_vm (destroy_pipeline s)).

(** [load_spv]: the bytes of the file, or [NULL] when it cannot be opened.
    [malloc] is taken to succeed. *)
Definition load_spv (fsys : FileSystem) (p : string) : option string :=
  fs_read fsys p.

(** A successful [vkCreate...]: the device hands out a fresh, non-null
    handle and the object is alive. *)
Definition new_object (s : State) : handle * State :=
  (Zpos (next_handle s),
   set_next_handle (Pos.succ (next_handle s))
     (set_live (Zpos (next_handle s) :: live s) s)).

(** [VK_CHECK(x)] with [r] the result of [x]. *)
Definition vk_check (r : VkResult) (site : VkCall) (s : State) (k : State -> Flow) : Flow :=
  if r =? VK_SUCCESS then k s
  else Exited 1 (printf (MsgVkErr r site) s).

(** The argument of [vkCreateGraphicsPipelines]. *)
Definition pipeline_create_info (env : Env) (vmod fmod : handle) : VkGraphicsPipelineCreateInfo :=
  {| stageCount := 2;
     pStages := [ mkStage VK_SHADER_STAGE_VERTEX_BIT vmod "main";
                  mkStage VK_SHADER_STAGE_FRAGMENT_BIT fmod "main" ];
     vertexBindingDescriptionCount := 0;
     vertexAttributeDescriptionCount := 0;
     topology := VK_PRIMITIVE_TOPOLOGY_TRIANGLE_LIST;
     primitiveRestartEnable := false;
     viewportCount := 1;
     pViewports := [ mkViewport F32.zero F32.zero (F32.of_Z (W env)) (F32.of_Z (H env))
                                F32.zero F32.one ];
     scissorCount := 1;
     pScissors := [ mkRect 0 0 (W env) (H env) ];
     polygonMode := VK_POLYGON_MODE_FILL;
     cullMode := VK_CULL_MODE_NONE;
     lineWidth := F32.one;
     rasterizationSamples := 1;
     pDepthStencilState := None;
     logicOpEnable := false;
     attachmentCount := 1;
     pAttachments := [ mkBlendAttachment false 15 ];
     pDynamicState := None;
     layout := pipelineLayout env;
     renderPass := the_renderPass env |}.

Definition needs_reload (s : State) : bool :=
  negb (reload_requested s =? 0) || (pipeline s =? VK_NULL_HANDLE).

(** The block under [if (reload_requested || pipeline == VK_NULL_HANDLE)]. *)
Definition reload (env : Env) (inp : FrameInput) (s : State) : Flow :=
  let s := destroy_old s in
  match shader_at (shaders env) (current_shader s) with
  | None => Undefined s
  | Some sh =>
      match load_spv (fs inp) (vert_path sh), load_spv (fs inp) (frag_path sh) with
      | Some vc, Some fc =>
          let s := emit (EvCreateShaderModule (Z.of_nat (String.length vc)) vc (r_vm inp)) s in
          vk_check (r_vm inp) CallCreateVertexModule s (fun s =>
          let '(h, s) := new_object s in
          let s := set_vm h s in
          let s := emit (EvCreateShaderModule (Z.of_nat (String.length fc)) fc (r_fm inp)) s in
          vk_check (r_fm inp) CallCreateFragmentModule s (fun s =>
          let '(h, s) := new_object s in
          let s := set_fm h s in
          let s := emit (EvCreateGraphicsPipelines
                           (pipeline_create_info env (vm s) (fm s)) (r_pipe inp)) s in
          vk_check (r_pipe inp) CallCreateGraphicsPipelines s (fun s =>
          let '(h, s) := new_object s in
          let s := set_pipeline h s in
          let s := printf (MsgLoadedShader (name sh)) s in
          let s := set_built_for (current_shader s) s in
          let s := set_reload_requested 0 s in
          let s := set_start (clock_reload inp) s in
          let s := set_frames 0 s in
          Next s)))
      | _, _ =>
          let s := printf (MsgFailedToLoad (name sh)) s in
          let s := emit (EvSleep 1) s in
          Again s
      end
  end.

(* ================================================================== *)
(** * Frame driver and surface bridge *)

(** [(now.tv_sec - start.tv_sec) + (now.tv_nsec - start.tv_nsec) / 1e9f]:
    both differences are [long]; the second is converted to [float] and
    divided, the first is converted to [float] and added.  Each operation
    rounds to [float], as it does where [FLT_EVAL_METHOD] is 0 (x86-64,
    AArch64). *)
Definition elapsed (t0 now : timespec) : F32.float :=
  F32.add (F32.of_Z (long_sub (tv_sec now) (tv_sec t0)))
          (F32.div (F32.of_Z (long_sub (tv_nsec now) (tv_nsec t0))) F32.lit_1e9f).

Definition make_ubo (env : Env) (t : F32.float) : ShaderToyUBO :=
  {| iResolution := (F32.of_Z (W env), F32.of_Z (H env), F32.one);
     iTime := t;
     iMouse := (F32.zero, F32.zero, F32.zero, F32.zero) |}.

(** "Record": the seven calls on the command buffer. *)
Definition record_commands (env : Env) (s : State) : State :=
  let s := emit EvBeginCommandBuffer s in
  let s := emit (EvCmdBeginRenderPass (W env) (H env)) s in
  let s := emit (EvCmdBindPipeline (pipeline s)) s in
  let s := emit EvCmdBindDescriptorSets s in
  let s := emit (EvCmdDraw 6 1 0 0) s in
  let s := emit EvCmdEndRenderPass s in
  emit EvEndCommandBuffer s.

(** The [for] loop of the copy: [rows] rows left, row [y] next.  [y] and
    [gbmStride] are [uint32_t], [rowPitch] is a 64-bit [VkDeviceSize], and
    [W * 4] is computed on 32 bits. *)
Fixpoint copy_rows (rows : nat) (y : Z) (width gbmStride pitch : Z) (gbm rt : mem) : mem :=
  match rows with
  | O => gbm
  | S rows' =>
      copy_rows rows' (y + 1) width gbmStride pitch
        (memcpy gbm (u32_mul y gbmStride) rt (u64_mul y pitch) (u32_mul width 4)) rt
  end.

Definition copy_frame (env : Env) (gbmStride : Z) (gbm rt : mem) : mem :=
  copy_rows (Z.to_nat (H env)) 0 (W env) gbmStride (rowPitch env) gbm rt.

(** "Copy to GBM" and [drmModeDirtyFB]. *)
Definition present (env : Env) (inp : FrameInput) (s : State) : State :=
  let s :=
    match gbm_map inp with
    | Some gbmStride =>
        let s := emit (EvGbmMap true) s in
        let s := set_gbmMem (copy_frame env gbmStride (gbmMem s) (rtMem s)) s in
        emit EvGbmUnmap s
    | None => emit (EvGbmMap false) s
    end in
  emit EvDirtyFB s.

(** The loop body after the reload block. *)
Definition frame (env : Env) (inp : FrameInput) (s : State) : Flow :=
  let t := elapsed (start s) (clock_frame inp) in
  match check_keyboard env (fs inp) s with
  | Next s =>
      let s := set_uboMem (Some (make_ubo env t)) s in
      let s := record_commands env s in
      let s := emit (EvQueueSubmit (r_submit inp)) s in
      vk_check (r_submit inp) CallQueueSubmit s (fun s =>
      let s := emit (EvWaitForFences (r_wait inp)) s in
      vk_check (r_wait inp) CallWaitForFences s (fun s =>
      let s := set_rtMem (gpu_output inp) s in
      let s := emit EvResetFences s in
      let s := present env inp s in
      let s := set_frames (int_add (frames s) 1) s in
      if Z.rem (frames s) 60 =? 0 then
        match shader_at (shaders env) (current_shader s) with
        | Some sh => Next (printf (MsgFps t (frames s) (name sh)) s)
        | None => Undefined s
        end
      else Next s))
  | other => other
  end.

(** One pass of [while(1)].  The events that reached the kernel since the
    last pass join the queue first. *)
Definition arrive (inp : FrameInput) (s : State) : State :=
  set_kbd_queue (kbd_queue s ++ arrivals inp)%list s.

Definition iteration (env : Env) (inp : FrameInput) (s : State) : Flow :=
  let s := arrive inp s in
  if needs_reload s then
    match reload env inp s with
    | Next s' => frame env inp s'
    | other => other
    end
  else frame env inp s.

(** The loop, for as many passes as there are inputs. *)
Fixpoint main_loop (env : Env) (inputs : list FrameInput) (s : State) : Flow :=
  match inputs with
  | [] => Next s
  | inp :: rest =>
      match iteration env inp s with
      | Next s' | Again s' => main_loop env rest s'
      | other => other
      end
  end.

(* ================================================================== *)
(** * Startup: the choice of the first program *)

Inductive Startup :=
| StartReturn (code : Z) (out : list Message)
| StartSelected (reg : list ShaderInfo) (current : Z) (out : list Message).

Fixpoint listing (reg : list ShaderInfo) (i : Z) : list Message :=
  match reg with
  | [] => []
  | sh :: rest => MsgListed i (name sh) :: listing rest (i + 1)
  end.

(** [main] up to "Starting with shader". *)
Definition main_select (argv : list string) (fsys : FileSystem) : Startup :=
  let shader_arg := match argv with _ :: a :: _ => a | _ => "example" end in
  let shader_name := get_basename shader_arg in
  let reg := scan_all_shaders fsys in
  let out := (MsgFound (shader_count reg) :: listing reg 0)%list in
  if shader_count reg =? 0 then
    StartReturn 1 (out ++ [MsgNoCompiledShaders; MsgSearched; MsgCompileHint])%list
  else
    let cur := find_shader_by_name reg shader_name in
    if cur <? 0 then
      StartReturn 1 (out ++ MsgShaderNotFound shader_name :: map (fun sh => MsgAvailable (name sh)) reg)%list
    else
      match shader_at reg cur with
      | Some sh => StartSelected reg cur (out ++ [MsgStartingWith (name sh)])%list
      | None => StartSelected reg cur out
      end.

(** The state in which the loop is entered: no pipeline, no modules, the
    flag clear, the clock read once. *)
Definition initial_state (cur : Z) (clock0 : timespec) (rt gbm : mem)
           (objects : list handle) (fresh : positive) : State :=
  {| current_shader := cur; reload_requested := 0;
     pipeline := VK_NULL_HANDLE; vm := VK_NULL_HANDLE; fm := VK_NULL_HANDLE;
     start := clock0; frames := 0; port_path := "";
     uboMem := None; rtMem := rt; gbmMem := gbm;
     live := objects; next_handle := fresh;
     kbd_queue := []; trace := []; built_for := cur |}.

(* ================================================================== *)
(** * Vocabulary of the statements *)

(** A key-press event: key type, value 1. *)
Definition press (code : Z) : input_event := mkEvent EV_KEY code 1.

(** The events for which [check_keyboard] has a [case]: key presses of the
    previous, next, display-toggle and exit keys. *)
Definition acts (ev : input_event) : bool :=
  (ev_type ev =? EV_KEY) && (ev_value ev =? 1) &&
  ((ev_code ev =? KEY_LEFT) || (ev_code ev =? KEY_RIGHT) || (ev_code ev =? KEY_F) ||
   (ev_code ev =? KEY_ESC) || (ev_code ev =? KEY_Q)).

(** A press of one of the two exit keys. *)
Definition is_exit_press (ev : input_event) : bool :=
  (ev_type ev =? EV_KEY) && (ev_value ev =? 1) &&
  ((ev_code ev =? KEY_ESC) || (ev_code ev =? KEY_Q)).

(** The registry is non-empty and fits the array; the index is inside it.
    [main] enters the loop only in such a state. *)
Definition registry_ok (env : Env) : Prop :=
  0 < shader_count (shaders env) <= MAX_SHADERS.

Definition index_ok (env : Env) (s : State) : Prop :=
  0 <= current_shader s < shader_count (shaders env).

(** The trace of [s'] is the trace of [s] followed by calls that all
    satisfy [P]. *)
Definition grows (P : Event -> Prop) (s s' : State) : Prop :=
  exists evs, trace s' = (trace s ++ evs)%list /\ Forall P evs.

(** Calls that the input poll makes: output and the write to the host
    port. *)
Definition poll_call (e : Event) : Prop :=
  match e with
  | EvPrintf _ | EvPortWrite _ _ => True
  | _ => False
  end.

(** What the input poll never touches. *)
Definition poll_keeps (s s' : State) : Prop :=
  pipeline s' = pipeline s /\ vm s' = vm s /\ fm s' = fm s /\
  start s' = start s /\ frames s' = frames s /\
  uboMem s' = uboMem s /\ rtMem s' = rtMem s /\ gbmMem s' = gbmMem s /\
  live s' = live s /\ next_handle s' = next_handle s /\
  built_for s' = built_for s.

(** The index and the flag are as they were, or the flag is set. *)
Definition index_change_flagged (s s' : State) : Prop :=
  (current_shader s' = current_shader s /\ reload_requested s' = reload_requested s) \/
  reload_requested s' = 1.

(** The destroy calls of "Clean up old shaders/pipeline" in state [s]. *)
Definition destroy_events (s : State) : list Event :=
  ((if pipeline s =? VK_NULL_HANDLE then [] else [EvDestroyPipeline (pipeline s)]) ++
   (if vm s =? VK_NULL_HANDLE then [] else [EvDestroyShaderModule (vm s)]) ++
   (if fm s =? VK_NULL_HANDLE then [] else [EvDestroyShaderModule (fm s)]))%list.

(** Calls that the reload block can make when entered in state [s]. *)
Definition reload_call (env : Env) (s : State) (e : Event) : Prop :=
  match e with
  | EvDestroyPipeline h => h = pipeline s /\ h <> VK_NULL_HANDLE
  | EvDestroyShaderModule h => (h = vm s \/ h = fm s) /\ h <> VK_NULL_HANDLE
  | EvCreateShaderModule _ _ _ => True
  | EvCreateGraphicsPipelines info _ =>
      exists vmod fmod, info = pipeline_create_info env vmod fmod
  | EvPrintf _ => True
  | EvSleep n => n = 1
  | _ => False
  end.

(** Calls that the rest of the loop body can make when the pipeline bound
    is [p]. *)
Definition frame_call (env : Env) (p : handle) (e : Event) : Prop :=
  match e with
  | EvPrintf _ | EvPortWrite _ _ => True
  | EvBeginCommandBuffer | EvCmdBindDescriptorSets | EvCmdEndRenderPass
  | EvEndCommandBuffer | EvQueueSubmit _ | EvWaitForFences _ | EvResetFences
  | EvGbmMap _ | EvGbmUnmap | EvDirtyFB => True
  | EvCmdBeginRenderPass w h => w = W env /\ h = H env
  | EvCmdBindPipeline h => h = p
  | EvCmdDraw a b c d => a = 6 /\ b = 1 /\ c = 0 /\ d = 0
  | _ => False
  end.

(** Recording on the command buffer and submission to the device queue. *)
Definition device_work (e : Event) : Prop :=
  match e with
  | EvBeginCommandBuffer | EvCmdBeginRenderPass _ _ | EvCmdBindPipeline _
  | EvCmdBindDescriptorSets | EvCmdDraw _ _ _ _ | EvCmdEndRenderPass
  | EvEndCommandBuffer | EvQueueSubmit _ | EvWaitForFences _ | EvResetFences => True
  | _ => False
  end.

(** What the reload block never touches. *)
Definition reload_keeps (s s' : State) : Prop :=
  current_shader s' = current_shader s /\ port_path s' = port_path s /\
  uboMem s' = uboMem s /\ rtMem s' = rtMem s /\ gbmMem s' = gbmMem s /\
  kbd_queue s' = kbd_queue s.

(** The calls of "Copy to GBM" and the dirty-rectangle call. *)
Definition presents (e : Event) : Prop :=
  match e with
  | EvGbmMap _ | EvGbmUnmap | EvDirtyFB => True
  | _ => False
  end.

(** What the loop body after the reload block never touches. *)
Definition frame_keeps (s s' : State) : Prop :=
  pipeline s' = pipeline s /\ vm s' = vm s /\ fm s' = fm s /\
  start s' = start s /\ live s' = live s /\ next_handle s' = next_handle s /\
  built_for s' = built_for s.

(** The pipeline, when there is one and no reload is pending, was built
    for the current index. *)
Definition pipeline_matches_index (s : State) : Prop :=
  pipeline s <> VK_NULL_HANDLE -> reload_requested s = 0 ->
  built_for s = current_shader s.

(** The construction parameters with the two stage modules blanked. *)
Definition erase_modules (info : VkGraphicsPipelineCreateInfo) : VkGraphicsPipelineCreateInfo :=
  {| stageCount := stageCount info;
     pStages := map (fun st => mkStage (stage st) VK_NULL_HANDLE (pName st)) (pStages info);
     vertexBindingDescriptionCount := vertexBindingDescriptionCount info;
     vertexAttributeDescriptionCount := vertexAttributeDescriptionCount info;
     topology := topology info;
     primitiveRestartEnable := primitiveRestartEnable info;
     viewportCount := viewportCount info;
     pViewports := pViewports info;
     scissorCount := scissorCount info;
     pScissors := pScissors info;
     polygonMode := polygonMode info;
     cullMode := cullMode info;
     lineWidth := lineWidth info;
     rasterizationSamples := rasterizationSamples info;
     pDepthStencilState := pDepthStencilState info;
     logicOpEnable := logicOpEnable info;
     attachmentCount := attachmentCount info;
     pAttachments := pAttachments info;
     pDynamicState := pDynamicState info;
     layout := layout info;
     renderPass := renderPass info |}.

(** The one shape that the specification asks for, at display size
    [w] x [h]: no vertex input, triangle list, one viewport and one scissor
    over the whole display, no depth/stencil state, one colour attachment
    that is not blended; the members it does not name (fill mode, no
    culling, line width 1, one sample, all four colour channels written)
    have the values of the program's initializer. *)
Definition fixed_shape (w h : Z) (lay rp : handle) : VkGraphicsPipelineCreateInfo :=
  {| stageCount := 2;
     pStages := [ mkStage VK_SHADER_STAGE_VERTEX_BIT VK_NULL_HANDLE "main";
                  mkStage VK_SHADER_STAGE_FRAGMENT_BIT VK_NULL_HANDLE "main" ];
     vertexBindingDescriptionCount := 0;
     vertexAttributeDescriptionCount := 0;
     topology := VK_PRIMITIVE_TOPOLOGY_TRIANGLE_LIST;
     primitiveRestartEnable := false;
     viewportCount := 1;
     pViewports := [ mkViewport F32.zero F32.zero (F32.of_Z w) (F32.of_Z h)
                                F32.zero F32.one ];
     scissorCount := 1;
     pScissors := [ mkRect 0 0 w h ];
     polygonMode := VK_POLYGON_MODE_FILL;
     cullMode := VK_CULL_MODE_NONE;
     lineWidth := F32.one;
     rasterizationSamples := 1;
     pDepthStencilState := None;
     logicOpEnable := false;
     attachmentCount := 1;
     pAttachments := [ mkBlendAttachment false 15 ];
     pDynamicState := None;
     layout := lay;
     renderPass := rp |}.

(** A call has the fixed shape: a pipeline is created with the fixed
    parameters, a draw is of 6 vertices and 1 instance, a render pass covers
    the whole display. *)
Definition shape_ok (env : Env) (e : Event) : Prop :=
  match e with
  | EvCreateGraphicsPipelines info _ =>
      erase_modules info =
      fixed_shape (W env) (H env) (pipelineLayout env) (the_renderPass env)
  | EvCmdDraw a b c d => a = 6 /\ b = 1 /\ c = 0 /\ d = 0
  | EvCmdBeginRenderPass w h => w = W env /\ h = H env
  | _ => True
  end.

(** The integer that a [float] holds, when it holds one. *)
Definition float_to_Z (f : F32.float) : option Z :=
  match f with
  | S754_zero _ => Some 0
  | S754_finite sg m e =>
      let v := if 0 <=? e then Some (Zpos m * 2 ^ e)
               else if (Zpos m) mod 2 ^ (- e) =? 0 then Some (Zpos m / 2 ^ (- e))
               else None in
      match v with
      | Some z => Some (if sg then - z else z)
      | None => None
      end
  | _ => None
  end.

(** Calls that one pass of the loop can make when entered in state [s]:
    those of the reload block, then those of the rest of the body with
    pipeline [p] bound. *)
Definition pass_call (env : Env) (s : State) (p : handle) (e : Event) : Prop :=
  reload_call env s e \/ frame_call env p e.

(** [of_Z] is exact on the [k] integers from [z] on. *)
Fixpoint exact_from (k : nat) (z : Z) : bool :=
  match k with
  | O => true
  | S k' =>
      match float_to_Z (F32.of_Z z) with
      | Some v => v =? z
      | None => false
      end && exact_from k' (z + 1)
  end.

(** A program description that [scan_shaders] accepts in directory [dir]:
    the directory lists a regular file named [name ++ ".frag"], the name
    fits its buffer, the two paths are the directory's, and [stat] succeeds
    on both. *)
Definition accepted_in (fsys : FileSystem) (dir : string) (info : ShaderInfo) : Prop :=
  exists entries entry,
    fs_opendir fsys dir = Some entries /\ In entry entries /\
    d_type entry = DT_REG /\
    d_name entry = (name info ++ ".frag")%string /\
    Z.of_nat (String.length (name info)) < 256 /\
    vert_path info = snprintf 512 (dir ++ "/" ++ name info ++ ".vert.spv") /\
    frag_path info = snprintf 512 (dir ++ "/" ++ name info ++ ".frag.spv") /\
    fs_stat fsys (vert_path info) = true /\
    fs_stat fsys (frag_path info) = true.

(* ================================================================== *)
(** * Concrete runs

    The registry ["a"; "b"] of the specification's end-to-end example, on a
    display of 4 x 2 pixels whose scanout stride (32) and render-surface
    pitch (64) both differ from the minimum of 16 bytes. *)

Definition demo_shader (nm : string) : ShaderInfo :=
  {| name := nm;
     vert_path := "./" ++ nm ++ ".vert.spv";
     frag_path := "./" ++ nm ++ ".frag.spv" |}.

Definition demo_env : Env :=
  {| shaders := [demo_shader "a"; demo_shader "b"];
     kbd_fd := 3; W := 4; H := 2; rowPitch := 64;
     pipelineLayout := 100; the_renderPass := 101 |}.

Definition blank : mem := fun _ => Byte.x00.

(** A file system with no file at all, and one in which the current
    directory holds the sources and binaries of "a" and "b". *)
Definition no_files : FileSystem :=
  mkFS (fun _ => None) (fun _ => false) (fun _ => None) (fun _ => false).

Definition demo_paths : list string :=
  [ "./a.vert.spv"; "./a.frag.spv"; "./b.vert.spv"; "./b.frag.spv" ].

Definition demo_fs : FileSystem :=
  mkFS (fun d => if (d =? ".")%string
                 then Some [ mkDirent DT_REG "a.frag"; mkDirent DT_REG "a.vert.spv";
                             mkDirent DT_REG "a.frag.spv"; mkDirent DT_REG "b.frag";
                             mkDirent DT_REG "b.vert.spv"; mkDirent DT_REG "b.frag.spv" ]
                 else None)
       (fun p => existsb (String.eqb p) demo_paths)
       (fun p => if existsb (String.eqb p) demo_paths then Some "spirv" else None)
       (fun _ => false).

(** One pass's input: the file system, the keys that arrived, the clock
    reading of the frame, the answer of [gbm_bo_map]; every Vulkan call
    succeeds. *)
Definition demo_input (fsys : FileSystem) (keys : list input_event)
           (now : timespec) (map : option Z) : FrameInput :=
  {| arrivals := keys; fs := fsys;
     r_vm := VK_SUCCESS; r_fm := VK_SUCCESS; r_pipe := VK_SUCCESS;
     r_submit := VK_SUCCESS; r_wait := VK_SUCCESS;
     clock_reload := mkTimespec 100 31; clock_frame := now;
     gpu_output := blank; gbm_map := map |}.

(** The state in which [main] enters the loop with "a" selected. *)
Definition demo_start : State :=
  initial_state 0 (mkTimespec 90 0) blank blank [100; 101] 1000.

(** C1: "a" is loaded and drawn while the next key arrives; then the
    binaries of "b" are gone. *)
Definition cx1_first : FrameInput :=
  demo_input demo_fs [press KEY_RIGHT] (mkTimespec 100 500) (Some 32).
Definition cx1_active : State := state_of (iteration demo_env cx1_first demo_start).
Definition cx1_missing : FrameInput :=
  demo_input no_files [] (mkTimespec 101 0) (Some 32).

(** C3: "a" is loaded at clock reading (100 s, 31 ns) and no key is
    pressed afterwards.  Two frames 16 ms apart, a little over 83 hours
    later; and, straight after the load, two frames whose clock readings
    are 1 ns apart on either side of a full second. *)
Definition cx3_in1 : FrameInput := demo_input demo_fs [] (mkTimespec 100 500) (Some 32).
Definition cx3_s1 : State := state_of (iteration demo_env cx3_in1 demo_start).
Definition cx3_in2 : FrameInput :=
  demo_input demo_fs [] (mkTimespec 300100 110000031) (Some 32).
Definition cx3_in3 : FrameInput :=
  demo_input demo_fs [] (mkTimespec 300100 126000031) (Some 32).
Definition cx3_s2 : State := state_of (iteration demo_env cx3_in2 cx3_s1).
Definition cx3_s3 : State := state_of (iteration demo_env cx3_in3 cx3_s2).
Definition cx3_in4 : FrameInput := demo_input demo_fs [] (mkTimespec 100 999999999) (Some 32).
Definition cx3_in5 : FrameInput := demo_input demo_fs [] (mkTimespec 101 0) (Some 32).
Definition cx3_s4 : State := state_of (iteration demo_env cx3_in4 cx3_s1).
Definition cx3_s5 : State := state_of (iteration demo_env cx3_in5 cx3_s4).

(** The elapsed time that a state's uniform block holds. *)
Definition time_of (s : State) : F32.float :=
  match uboMem s with
  | Some ubo => iTime ubo
  | None => S754_nan
  end.

(** C5: a display one pixel wide and three rows high whose scanout stride
    is 2^31 bytes; the render surface holds 1 in its first row and 2
    elsewhere. *)
Definition cx5_env : Env :=
  {| shaders := [demo_shader "a"]; kbd_fd := 3; W := 1; H := 3; rowPitch := 4;
     pipelineLayout := 100; the_renderPass := 101 |}.
Definition cx5_stride : Z := 2 ^ 31.
Definition cx5_rt : mem := fun a => if a <? 4 then Byte.x01 else Byte.x02.

(** C6: the current directory holds both binaries of "a" and nothing
    else. *)
Definition cx6_fs : FileSystem :=
  mkFS (fun d => if (d =? ".")%string
                 then Some [ mkDirent DT_REG "a.vert.spv"; mkDirent DT_REG "a.frag.spv" ]
                 else None)
       (fun p => (p =? "./a.vert.spv")%string || (p =? "./a.frag.spv")%string)
       (fun _ => None)
       (fun _ => false).

(** C9: an ESC press waits in the queue. *)
Definition demo_exit_queued : State := set_kbd_queue [press KEY_ESC] demo_start.

(* ================================================================== *)
(** * The rest of the file: setup helpers

    [find_mem], [generate_texture] with the upload loop of [main],
    [open_keyboard], and the choice of connector and mode at the start of
    [main]. *)

Definition UINT32_MAX : Z := 2 ^ 32 - 1.

(** [1 << i] as the operand of [bits & ...]: an [int] shift, converted to
    [uint32_t].  [1 << 31] does not fit an [int]; it is taken as the sign
    bit, as compilers do. *)
Definition bit_mask (i : Z) : Z := wrap_u 32 (wrap_s 32 (Z.shiftl 1 i)).

(** The loop of [find_mem] from index [i] over the memory types that are
    left; each is given by its [propertyFlags].  A shift by 32 or more has
    no defined value. *)
Fixpoint find_mem_from (types : list Z) (i bits flags : Z) : option Z :=
  match types with
  | [] => Some UINT32_MAX
  | propertyFlags :: rest =>
      if 32 <=? i then None
      else if negb (Z.land bits (bit_mask i) =? 0)
              && (Z.land propertyFlags flags =? flags)
      then Some i
      else find_mem_from rest (i + 1) bits flags
  end.

(** [find_mem(p, bits, flags)], with [types] the first [memoryTypeCount]
    entries of [p->memoryTypes]. *)
Definition find_mem (types : list Z) (bits flags : Z) : option Z :=
  find_mem_from types 0 bits flags.

(** [int] multiplication. *)
Definition int_mul (a b : Z) : Z := wrap_s 32 (a * b).

(** [data[i] = b]. *)
Definition store (data : mem) (i : Z) (b : Byte.byte) : mem :=
  fun a => if a =? i then b else data a.

(** [((x/32) + (y/32)) % 2]. *)
Definition checker (x y : Z) : Z :=
  Z.rem (int_add (Z.quot x 32) (Z.quot y 32)) 2.

(** The body of the inner loop of [generate_texture]: the four stores for
    the pixel at ([x], [y]).  200, 180, 160 are [0xc8], [0xb4], [0xa0];
    50, 60, 80 are [0x32], [0x3c], [0x50]. *)
Definition put_texel (x y : Z) (data : mem) : mem :=
  let idx := int_mul (int_add (int_mul y 256) x) 4 in
  let c := negb (checker x y =? 0) in
  let data := store data (int_add idx 0) (if c then Byte.xc8 else Byte.x32) in
  let data := store data (int_add idx 1) (if c then Byte.xb4 else Byte.x3c) in
  let data := store data (int_add idx 2) (if c then Byte.xa0 else Byte.x50) in
  store data (int_add idx 3) Byte.xff.

(** The inner loop, [n] pixels from column [x] on; the outer loop, [n] rows
    from row [y] on. *)
Fixpoint texture_row (n : nat) (x y : Z) (data : mem) : mem :=
  match n with
  | O => data
  | S n' => texture_row n' (x + 1) y (put_texel x y data)
  end.

Fixpoint texture_rows (n : nat) (y : Z) (data : mem) : mem :=
  match n with
  | O => data
  | S n' => texture_rows n' (y + 1) (texture_row 256 0 y data)
  end.

Definition generate_texture (data : mem) : mem := texture_rows 256 0 data.

(** The upload loop of [main]:
    [memcpy(texPtr + y * rowPitch, texData + y * 256 * 4, 256 * 4)] for the
    rows from [y] on; [y] is an [int], [rowPitch] a 64-bit [VkDeviceSize]. *)
Fixpoint upload_rows (n : nat) (y : Z) (pitch : Z) (tex data : mem) : mem :=
  match n with
  | O => tex
  | S n' =>
      upload_rows n' (y + 1) pitch
        (memcpy tex (u64_mul y pitch) data (int_mul (int_mul y 256) 4) (int_mul 256 4))
        data
  end.

Definition upload_texture (pitch : Z) (tex data : mem) : mem :=
  upload_rows 256 0 pitch tex data.

(** The colour that the program gives channel [c] of the pixel at
    ([x], [y]): light in a tile whose two tile coordinates have an odd sum,
    dark otherwise, always opaque. *)
Definition texel (x y c : Z) : Byte.byte :=
  let light := Z.odd (x / 32 + y / 32) in
  if c =? 0 then (if light then Byte.xc8 else Byte.x32)
  else if c =? 1 then (if light then Byte.xb4 else Byte.x3c)
  else if c =? 2 then (if light then Byte.xa0 else Byte.x50)
  else Byte.xff.

(** What [open] and [ioctl(EVIOCGNAME)] answer: the descriptor for a path
    (negative: the open failed) and the name of the device behind a
    descriptor (empty when the call fails, as the buffer starts zeroed). *)
Record InputDevices := mkInputDevices {
  dev_open : string -> Z;
  dev_name : Z -> string
}.

(** The loop of [open_keyboard] from device [i], [n] devices left: the
    descriptor it returns (-1: none) and the descriptors it has closed, in
    order.  The line it prints for the device it returns is left out. *)
Fixpoint open_keyboard_from (devs : InputDevices) (n i : nat) : Z * list Z :=
  match n with
  | O => (-1, [])
  | S n' =>
      let path := snprintf 64 ("/dev/input/event" ++ digit i) in
      let fd := dev_open devs path in
      if 0 <=? fd then
        let nm := dev_name devs fd in
        if strstr nm "keyboard" || strstr nm "Keyboard" then (fd, [])
        else
          let '(r, closed) := open_keyboard_from devs n' (S i) in
          (r, fd :: closed)
      else open_keyboard_from devs n' (S i)
  end.

Definition open_keyboard (devs : InputDevices) : Z * list Z :=
  open_keyboard_from devs 10 0.

(** [drmModeModeInfo], [drmModeConnector], [drmModeRes]: the members that
    [main] reads.  [got_connectors] holds what [drmModeGetConnector]
    returns for each of the [count_connectors] ids, in order; [None] is a
    null pointer. *)
Record drmModeModeInfo := mkMode { hdisplay : Z; vdisplay : Z }.

Record drmModeConnector := mkConnector {
  connector_id : Z;
  encoder_id : Z;
  connection : Z;
  modes : list drmModeModeInfo
}.

Definition DRM_MODE_CONNECTED : Z := 1.

(** The connector loop of [main]: the first connector that exists and is
    connected, or a null pointer. *)
Fixpoint pick_connector (got_connectors : list (option drmModeConnector))
  : option drmModeConnector :=
  match got_connectors with
  | [] => None
  | Some conn :: rest =>
      if connection conn =? DRM_MODE_CONNECTED then Some conn
      else pick_connector rest
  | None :: rest => pick_connector rest
  end.

(** [mode = &conn->modes[0]; W = mode->hdisplay, H = mode->vdisplay]:
    nothing defined when [conn] is null or has no mode.  The two fields are
    [uint16_t]. *)
Definition display_size (got_connectors : list (option drmModeConnector))
  : option (Z * Z) :=
  match pick_connector got_connectors with
  | None => None
  | Some conn =>
      match modes conn with
      | [] => None
      | mode :: _ => Some (wrap_u 16 (hdisplay mode), wrap_u 16 (vdisplay mode))
      end
  end.

(** Memory type [j] suits a request, [types] being the types from index
    [i] on: its bit is set in [bits] and its flags include [flags]. *)
Definition suits (types : list Z) (i bits flags j : Z) : Prop :=
  i <= j /\
  exists t, nth_error types (Z.to_nat (j - i)) = Some t /\
            Z.testbit bits j = true /\ Z.land t flags = flags.

(** The virtio port [k] announces itself as the display control port: the
    first line of its name file, cut to the 63 characters that fit the
    buffer, contains "org.qemu.display". *)
Definition advertises (fsys : FileSystem) (k : nat) : Prop :=
  exists content line,
    fs_read fsys ("/sys/class/virtio-ports/vport" ++ digit k ++ "p1/name") = Some content /\
    fgets 64 content = Some line /\
    strstr line "org.qemu.display" = true.

(** A press of the key [code]. *)
Definition is_press (code : Z) (ev : input_event) : bool :=
  (ev_type ev =? EV_KEY) && (ev_value ev =? 1) && (ev_code ev =? code).

(** Presses of the next key minus presses of the previous key. *)
Fixpoint net_steps (q : list input_event) : Z :=
  match q with
  | [] => 0
  | ev :: q' =>
      (if is_press KEY_RIGHT ev then 1 else if is_press KEY_LEFT ev then -1 else 0)
      + net_steps q'
  end.

Definition is_step_press (ev : input_event) : bool :=
  is_press KEY_LEFT ev || is_press KEY_RIGHT ev.

(** The calls of one drawn frame, in program order: the seven recording
    calls with pipeline [p] bound, submission, the fence wait and reset,
    the scanout mapping (with its unmapping when it succeeds) and the
    dirty-rectangle call. *)
Definition frame_events (env : Env) (p : handle) (inp : FrameInput) : list Event :=
  ([ EvBeginCommandBuffer; EvCmdBeginRenderPass (W env) (H env); EvCmdBindPipeline p;
     EvCmdBindDescriptorSets; EvCmdDraw 6 1 0 0; EvCmdEndRenderPass; EvEndCommandBuffer;
     EvQueueSubmit (r_submit inp); EvWaitForFences (r_wait inp); EvResetFences ] ++
   match gbm_map inp with
   | Some _ => [ EvGbmMap true; EvGbmUnmap ]
   | None => [ EvGbmMap false ]
   end ++ [ EvDirtyFB ])%list.

(** The statistics line of a pass that ends in state [s'] with elapsed
    time [t]: printed when the frame count is a multiple of 60. *)
Definition fps_line (env : Env) (t : F32.float) (s' : State) : list Event :=
  if Z.rem (frames s') 60 =? 0 then
    match shader_at (shaders env) (current_shader s') with
    | Some sh => [ EvPrintf (MsgFps t (frames s') (name sh)) ]
    | None => []
    end
  else [].

(** The path of input device [i]; whether it opens and calls itself a
    keyboard; the descriptors that opening the devices below [k] yields. *)
Definition event_path (i : nat) : string := "/dev/input/event" ++ digit i.

Definition is_keyboard (devs : InputDevices) (i : nat) : bool :=
  let fd := dev_open devs (event_path i) in
  (0 <=? fd) &&
  (strstr (dev_name devs fd) "keyboard" || strstr (dev_name devs fd) "Keyboard").

Definition opened_from (devs : InputDevices) (i n : nat) : list Z :=
  filter (fun fd => 0 <=? fd) (map (fun j => dev_open devs (event_path j)) (seq i n)).

(** The device objects, [base] being those created once at startup: the
    pipeline and the two shader modules are either all alive, distinct and
    the only objects beside [base], or none of them is alive and the next
    pass rebuilds.  Handles of [base] are older than the next handle and
    differ from the three. *)
Definition objects_ok (base : list handle) (s : State) : Prop :=
  (forall h, In h base ->
     h < Zpos (next_handle s) /\ h <> pipeline s /\ h <> vm s /\ h <> fm s) /\
  pipeline s < Zpos (next_handle s) /\ vm s < Zpos (next_handle s) /\
  fm s < Zpos (next_handle s) /\
  ((live s = base /\ needs_reload s = true) \/
   (live s = pipeline s :: fm s :: vm s :: base /\
    pipeline s <> VK_NULL_HANDLE /\ vm s <> VK_NULL_HANDLE /\ fm s <> VK_NULL_HANDLE /\
    pipeline s <> vm s /\ pipeline s <> fm s /\ vm s <> fm s)).

(* ================================================================== *)
(** * Concrete runs of the setup helpers *)

(** Three memory types: device-local (1); host-visible and coherent (6);
    all three properties (7). *)
Definition demo_mem_types : list Z := [1; 6; 7].

(** Port 0 is the guest agent, port 2 the display control port. *)
Definition demo_ports_fs : FileSystem :=
  mkFS (fun _ => None) (fun _ => false)
       (fun p => if (p =? "/sys/class/virtio-ports/vport0p1/name")%string
                 then Some ("org.qemu.guest_agent.0" ++ newline)%string
                 else if (p =? "/sys/class/virtio-ports/vport2p1/name")%string
                 then Some ("org.qemu.display" ++ newline)%string
                 else None)
       (fun _ => true).

(** A queue with presses of the next, display and previous keys, a
    release and a press of a key without a handler. *)
Definition demo_queue : list input_event :=
  [ press KEY_RIGHT; press KEY_F; press KEY_LEFT; press KEY_RIGHT;
    mkEvent EV_KEY KEY_RIGHT 0; mkEvent EV_KEY 30 1 ].

(** The example machine without a keyboard. *)
Definition nokbd_env : Env :=
  {| shaders := [demo_shader "a"; demo_shader "b"];
     kbd_fd := -1; W := 4; H := 2; rowPitch := 64;
     pipelineLayout := 100; the_renderPass := 101 |}.

(** event0 is a power button, event1 cannot be opened, event2 is the
    keyboard. *)
Definition demo_devs : InputDevices :=
  mkInputDevices
    (fun p => if (p =? "/dev/input/event0")%string then 4
              else if (p =? "/dev/input/event2")%string then 5 else -1)
    (fun fd => if fd =? 4 then "Power Button"
               else if fd =? 5 then "QEMU Virtio Keyboard" else "").

(** A null connector, a disconnected one and a connected one with two
    modes. *)
Definition demo_connectors : list (option drmModeConnector) :=
  [ None;
    Some (mkConnector 31 0 2 []);
    Some (mkConnector 33 32 DRM_MODE_CONNECTED [mkMode 1920 1080; mkMode 1280 720]) ].

(* ================================================================== *)
(** * Machine arithmetic in range *)

Lemma wrap_s_small (x : Z) : - 2 ^ 31 <= x < 2 ^ 31 -> wrap_s 32 x = x.
Proof.
  intros Hx. unfold wrap_s.
  change (2 ^ (32 - 1)) with 2147483648 in *.
  change (2 ^ 32) with 4294967296.
  change (2 ^ 31) with 2147483648 in Hx.
  rewrite Z.mod_small; lia.
Qed.

Lemma wrap_u32_small (x : Z) : 0 <= x < 2 ^ 32 -> wrap_u 32 x = x.
Proof. intros Hx. unfold wrap_u. apply Z.mod_small; exact Hx. Qed.

Lemma wrap_u64_small (x : Z) : 0 <= x < 2 ^ 64 -> wrap_u 64 x = x.
Proof. intros Hx. unfold wrap_u. apply Z.mod_small; exact Hx. Qed.

Lemma int_rem_pos (a n : Z) :
  0 <= a -> 0 < n -> int_rem a n = Some (a mod n).
Proof.
  intros Ha Hn. unfold int_rem.
  replace (n =? 0) with false by (symmetry; apply Z.eqb_neq; lia).
  replace (n =? -1) with false by (symmetry; apply Z.eqb_neq; lia).
  rewrite andb_false_r. simpl.
  rewrite Z.rem_mod_nonneg by lia. reflexivity.
Qed.

(** The two index computations of [check_keyboard], for an index inside a
    registry of at most [MAX_SHADERS] entries. *)
Lemma step_left_value (i n : Z) :
  0 < n <= MAX_SHADERS -> 0 <= i < n ->
  int_rem (int_add (int_sub i 1) n) n = Some (Z.rem (i - 1 + n) n).
Proof.
  unfold MAX_SHADERS. intros Hn Hi. unfold int_add, int_sub.
  rewrite (wrap_s_small (i - 1)) by (change (2 ^ 31) with 2147483648; lia).
  rewrite wrap_s_small by (change (2 ^ 31) with 2147483648; lia).
  rewrite int_rem_pos by lia.
  rewrite Z.rem_mod_nonneg by lia. reflexivity.
Qed.

Lemma step_right_value (i n : Z) :
  0 < n <= MAX_SHADERS -> 0 <= i < n ->
  int_rem (int_add i 1) n = Some (Z.rem (i + 1) n).
Proof.
  unfold MAX_SHADERS. intros Hn Hi. unfold int_add.
  rewrite wrap_s_small by (change (2 ^ 31) with 2147483648; lia).
  rewrite int_rem_pos by lia.
  rewrite Z.rem_mod_nonneg by lia. reflexivity.
Qed.

Lemma shader_at_in_range (reg : list ShaderInfo) (i : Z) :
  0 <= i < shader_count reg -> exists sh, shader_at reg i = Some sh.
Proof.
  unfold shader_count, shader_at. intros Hi.
  replace (i <? 0) with false by (symmetry; apply Z.ltb_ge; lia).
  destruct (nth_error reg (Z.to_nat i)) as [sh|] eqn:E.
  - exists sh. reflexivity.
  - apply nth_error_None in E. lia.
Qed.

Lemma shader_at_some_range (reg : list ShaderInfo) (i : Z) (sh : ShaderInfo) :
  shader_at reg i = Some sh -> 0 <= i < shader_count reg.
Proof.
  unfold shader_count, shader_at.
  destruct (i <? 0) eqn:E; [discriminate|].
  apply Z.ltb_ge in E. intros Hn.
  assert (Hlt : (Z.to_nat i < List.length reg)%nat)
    by (apply nth_error_Some; congruence).
  lia.
Qed.

(* ================================================================== *)
(** * Stepping through the registry *)

Section Stepping.

Variable env : Env.
Variable fsys : FileSystem.

Lemma on_event_left (s : State) :
  0 < shader_count (shaders env) <= MAX_SHADERS ->
  0 <= current_shader s < shader_count (shaders env) ->
  exists sh,
    shader_at (shaders env)
      (Z.rem (current_shader s - 1 + shader_count (shaders env))
             (shader_count (shaders env))) = Some sh /\
    on_event env fsys (press KEY_LEFT) s =
      Next (printf (MsgPreviousShader (name sh))
             (set_reload_requested 1
                (set_current_shader
                   (Z.rem (current_shader s - 1 + shader_count (shaders env))
                          (shader_count (shaders env))) s))).
Proof.
  intros Hn Hi.
  set (n := shader_count (shaders env)) in *.
  assert (Hr : 0 <= Z.rem (current_shader s - 1 + n) n < n).
  { rewrite Z.rem_mod_nonneg by lia. apply Z.mod_pos_bound. lia. }
  destruct (shader_at_in_range (shaders env) _ Hr) as [sh Hsh].
  exists sh. split; [exact Hsh|].
  unfold on_event, press. cbn [ev_type ev_code ev_value].
  change (negb (EV_KEY =? EV_KEY) || negb (1 =? 1)) with false.
  change (KEY_LEFT =? KEY_LEFT) with true. cbv iota.
  fold n. rewrite step_left_value by assumption.
  cbn [current_shader set_reload_requested set_current_shader].
  rewrite Hsh. reflexivity.
Qed.

Lemma on_event_right (s : State) :
  0 < shader_count (shaders env) <= MAX_SHADERS ->
  0 <= current_shader s < shader_count (shaders env) ->
  exists sh,
    shader_at (shaders env)
      (Z.rem (current_shader s + 1) (shader_count (shaders env))) = Some sh /\
    on_event env fsys (press KEY_RIGHT) s =
      Next (printf (MsgNextShader (name sh))
             (set_reload_requested 1
                (set_current_shader
                   (Z.rem (current_shader s + 1) (shader_count (shaders env))) s))).
Proof.
  intros Hn Hi.
  set (n := shader_count (shaders env)) in *.
  assert (Hr : 0 <= Z.rem (current_shader s + 1) n < n).
  { rewrite Z.rem_mod_nonneg by lia. apply Z.mod_pos_bound. lia. }
  destruct (shader_at_in_range (shaders env) _ Hr) as [sh Hsh].
  exists sh. split; [exact Hsh|].
  unfold on_event, press. cbn [ev_type ev_code ev_value].
  change (negb (EV_KEY =? EV_KEY) || negb (1 =? 1)) with false.
  change (KEY_LEFT =? KEY_LEFT) with true.
  change (KEY_RIGHT =? KEY_LEFT) with false.
  change (KEY_RIGHT =? KEY_RIGHT) with true. cbv iota.
  fold n. rewrite step_right_value by assumption.
  cbn [current_shader set_reload_requested set_current_shader].
  rewrite Hsh. reflexivity.
Qed.
(* ================================================================== *)
(** * Claim C2: stepping is cyclic *)

Lemma drain_right (k : nat) :
  registry_ok env ->
  forall s, index_ok env s ->
  exists s',
    drain env fsys (repeat (press KEY_RIGHT) k) s = Next s' /\
    current_shader s' =
      (current_shader s + Z.of_nat k) mod shader_count (shaders env).
Proof.
  intros Hreg. unfold registry_ok in Hreg.
  induction k as [|k IH]; intros s Hi; unfold index_ok in *.
  - exists s. split; [reflexivity|].
    rewrite Z.add_0_r, Z.mod_small; lia.
  - cbn [repeat drain].
    destruct (on_event_right (set_kbd_queue (repeat (press KEY_RIGHT) k) s) Hreg Hi)
      as [sh [_ Hev]].
    rewrite Hev.
    match goal with |- context [drain _ _ _ ?t] => set (s1 := t) end.
    assert (H1 : current_shader s1 =
                 (current_shader s + 1) mod shader_count (shaders env)).
    { subst s1. cbn. apply Z.rem_mod_nonneg; lia. }
    destruct (IH s1) as [s' [Hd Hc]].
    { rewrite H1. apply Z.mod_pos_bound. lia. }
    exists s'. split; [exact Hd|].
    rewrite Hc, H1, Zplus_mod_idemp_l. f_equal. lia.
Qed.

Lemma drain_left (k : nat) :
  registry_ok env ->
  forall s, index_ok env s ->
  exists s',
    drain env fsys (repeat (press KEY_LEFT) k) s = Next s' /\
    current_shader s' =
      (current_shader s - Z.of_nat k) mod shader_count (shaders env).
Proof.
  intros Hreg. unfold registry_ok in Hreg.
  induction k as [|k IH]; intros s Hi; unfold index_ok in *.
  - exists s. split; [reflexivity|].
    rewrite Z.sub_0_r, Z.mod_small; lia.
  - cbn [repeat drain].
    destruct (on_event_left (set_kbd_queue (repeat (press KEY_LEFT) k) s) Hreg Hi)
      as [sh [_ Hev]].
    rewrite Hev.
    match goal with |- context [drain _ _ _ ?t] => set (s1 := t) end.
    assert (H1 : current_shader s1 =
                 (current_shader s - 1) mod shader_count (shaders env)).
    { subst s1. cbn. rewrite Z.rem_mod_nonneg by lia.
      rewrite <- (Z_mod_plus_full (current_shader s - 1) 1 (shader_count (shaders env))).
      f_equal. lia. }
    destruct (IH s1) as [s' [Hd Hc]].
    { rewrite H1. apply Z.mod_pos_bound. lia. }
    exists s'. split; [exact Hd|].
    rewrite Hc, H1, Zminus_mod_idemp_l. f_equal. lia.
Qed.

(** C2.  In a registry of N programs (N at least 1 and at most the 256
    entries of the array) and at an index i inside it, a press of the
    previous key sets the index to (i - 1 + N) % N, a press of the next key
    sets it to (i + 1) % N, and both set the reload flag; N presses of the
    next key in one poll, or N presses of the previous key, bring the index
    back to i. *)
Theorem C2_index_stepping (s : State) :
  registry_ok env -> index_ok env s ->
  let N := shader_count (shaders env) in
  let i := current_shader s in
  (exists s', on_event env fsys (press KEY_LEFT) s = Next s' /\
              current_shader s' = Z.rem (i - 1 + N) N /\ reload_requested s' = 1) /\
  (exists s', on_event env fsys (press KEY_RIGHT) s = Next s' /\
              current_shader s' = Z.rem (i + 1) N /\ reload_requested s' = 1) /\
  (exists s', drain env fsys (repeat (press KEY_RIGHT) (Z.to_nat N)) s = Next s' /\
              current_shader s' = i) /\
  (exists s', drain env fsys (repeat (press KEY_LEFT) (Z.to_nat N)) s = Next s' /\
              current_shader s' = i).
Proof.
  intros Hreg Hi N i.
  assert (HN : 0 < N <= MAX_SHADERS) by exact Hreg.
  assert (Hi' : 0 <= i < N) by exact Hi.
  repeat split.
  - destruct (on_event_left s Hreg Hi) as [sh [_ Hev]].
    eexists. split; [exact Hev|]. split; reflexivity.
  - destruct (on_event_right s Hreg Hi) as [sh [_ Hev]].
    eexists. split; [exact Hev|]. split; reflexivity.
  - destruct (drain_right (Z.to_nat N) Hreg s Hi) as [s' [Hd Hc]].
    exists s'. split; [exact Hd|].
    rewrite Hc, Z2Nat.id by lia. fold N i.
    rewrite <- (Z.mul_1_l N) at 1. rewrite Z_mod_plus_full.
    apply Z.mod_small. exact Hi'.
  - destruct (drain_left (Z.to_nat N) Hreg s Hi) as [s' [Hd Hc]].
    exists s'. split; [exact Hd|].
    rewrite Hc, Z2Nat.id by lia. fold N i.
    replace (i - N) with (i + (-1) * N) by lia. rewrite Z_mod_plus_full.
    apply Z.mod_small. exact Hi'.
Qed.

End Stepping.

(* ================================================================== *)
(** * The input poll, event by event *)

Lemma grows_refl (P : Event -> Prop) (s : State) : grows P s s.
Proof. exists []. rewrite app_nil_r. split; [reflexivity|constructor]. Qed.

Lemma grows_trans (P : Event -> Prop) (s1 s2 s3 : State) :
  grows P s1 s2 -> grows P s2 s3 -> grows P s1 s3.
Proof.
  intros [e1 [H1 F1]] [e2 [H2 F2]]. exists (e1 ++ e2)%list. split.
  - rewrite H2, H1, app_assoc. reflexivity.
  - apply Forall_app. split; assumption.
Qed.

Lemma grows_same (P : Event -> Prop) (s s1 s2 : State) :
  trace s2 = trace s1 -> grows P s s1 -> grows P s s2.
Proof. intros Ht [evs [H F]]. exists evs. rewrite Ht. split; assumption. Qed.

Lemma grows_emit (P : Event -> Prop) (s s1 : State) (e : Event) :
  P e -> grows P s s1 -> grows P s (emit e s1).
Proof.
  intros He [evs [H F]]. exists (evs ++ [e])%list. split.
  - cbn. rewrite H, app_assoc. reflexivity.
  - apply Forall_app. split; [assumption|]. constructor; [assumption|constructor].
Qed.

Lemma grows_weaken (P Q : Event -> Prop) (s s' : State) :
  (forall e, P e -> Q e) -> grows P s s' -> grows Q s s'.
Proof.
  intros HPQ [evs [H F]]. exists evs. split; [exact H|].
  eapply Forall_impl; eassumption.
Qed.

(** Peel the updates off the state on the right of a [grows] goal. *)
Ltac grows_step :=
  match goal with
  | |- grows _ ?s ?s => apply grows_refl
  | |- grows _ _ (emit _ _) =>
      apply grows_emit; [cbv beta; cbn; try solve [intuition (try congruence)]|]
  | |- grows _ _ (printf _ _) =>
      apply grows_emit; [cbv beta; cbn; try solve [intuition (try congruence)]|]
  | |- grows ?P ?s (?f ?v ?s1) => apply (grows_same P s s1 (f v s1) eq_refl)
  | H : grows ?P ?s ?s1 |- grows ?P ?s ?s1 => exact H
  end.

Lemma in_emit_here (e : Event) (s : State) : In e (trace (emit e s)).
Proof. cbn. apply in_or_app. right. left. reflexivity. Qed.

Lemma in_emit_there (x e : Event) (s : State) :
  In x (trace s) -> In x (trace (emit e s)).
Proof. intros Hx. cbn. apply in_or_app. left. exact Hx. Qed.

Lemma in_same (x : Event) (s1 s2 : State) :
  trace s2 = trace s1 -> In x (trace s1) -> In x (trace s2).
Proof. intros ->. tauto. Qed.

(** Find a call in the trace of a state built by updates. *)
Ltac trace_in :=
  repeat match goal with
         | |- In ?e (trace (emit ?e _)) => apply in_emit_here
         | |- In _ (trace (emit _ _)) => apply in_emit_there
         | |- In _ (trace (printf _ _)) => apply in_emit_there
         | |- In ?x (trace (?f ?v ?s1)) => apply (in_same x s1 (f v s1) eq_refl)
         end.

Lemma find_display_port_fields (fsys : FileSystem) (s : State) :
  let s' := snd (find_display_port fsys s) in
  current_shader s' = current_shader s /\
  reload_requested s' = reload_requested s /\
  kbd_queue s' = kbd_queue s /\
  trace s' = trace s /\
  poll_keeps s s'.
Proof.
  unfold find_display_port, poll_keeps.
  destruct (negb (port_path s =? "")%string); [cbn; repeat split|].
  destruct (find_port_loop fsys 10 0); cbn; repeat split.
Qed.

Section InputPoll.

Variable env : Env.
Variable fsys : FileSystem.

(** An event without a [case] changes nothing. *)
Lemma on_event_inert (ev : input_event) (s : State) :
  acts ev = false -> on_event env fsys ev s = Next s.
Proof.
  unfold acts, on_event. intros Hacts.
  destruct (ev_type ev =? EV_KEY); cbn in *; [|reflexivity].
  destruct (ev_value ev =? 1); cbn in *; [|reflexivity].
  destruct (ev_code ev =? KEY_LEFT); cbn in *; [discriminate|].
  destruct (ev_code ev =? KEY_RIGHT); cbn in *; [discriminate|].
  destruct (ev_code ev =? KEY_F); cbn in *; [discriminate|].
  destruct (ev_code ev =? KEY_ESC); cbn in *; [discriminate|].
  destruct (ev_code ev =? KEY_Q); cbn in *; [discriminate|].
  reflexivity.
Qed.

(** An exit press ends the process with status 0. *)
Lemma on_event_exit (ev : input_event) (s : State) :
  is_exit_press ev = true ->
  on_event env fsys ev s = Exited 0 (printf MsgExiting s).
Proof.
  unfold is_exit_press, on_event. intros Hx.
  destruct (ev_type ev =? EV_KEY); cbn in *; [|discriminate].
  destruct (ev_value ev =? 1); cbn in *; [|discriminate].
  destruct (ev_code ev =? KEY_ESC) eqn:E1.
  - apply Z.eqb_eq in E1. rewrite E1. reflexivity.
  - destruct (ev_code ev =? KEY_Q) eqn:E2; cbn in *; [|discriminate].
    apply Z.eqb_eq in E2. rewrite E2. reflexivity.
Qed.

(** Only an exit press ends the process, and only with status 0. *)
Lemma on_event_exited (ev : input_event)
      (s s' : State) (code : Z) :
  on_event env fsys ev s = Exited code s' ->
  is_exit_press ev = true /\ code = 0 /\ s' = printf MsgExiting s.
Proof.
  unfold is_exit_press, on_event.
  destruct (ev_type ev =? EV_KEY); cbn; [|discriminate].
  destruct (ev_value ev =? 1); cbn; [|discriminate].
  destruct (ev_code ev =? KEY_LEFT).
  { destruct (int_rem _ _); [|discriminate].
    destruct (shader_at _ _); discriminate. }
  destruct (ev_code ev =? KEY_RIGHT).
  { destruct (int_rem _ _); [|discriminate].
    destruct (shader_at _ _); discriminate. }
  destruct (ev_code ev =? KEY_F).
  { destruct (find_display_port _ _) as [[port|] s1];
      [destruct (fs_write fsys port)|]; discriminate. }
  destruct ((ev_code ev =? KEY_ESC) || (ev_code ev =? KEY_Q)); [|discriminate].
  intros Hx. injection Hx as <- <-. repeat split.
Qed.

Lemma on_event_not_again (ev : input_event)
      (s s' : State) :
  on_event env fsys ev s <> Again s'.
Proof.
  unfold on_event.
  destruct (negb (ev_type ev =? EV_KEY) || negb (ev_value ev =? 1)); [discriminate|].
  destruct (ev_code ev =? KEY_LEFT).
  { destruct (int_rem _ _); [|discriminate].
    destruct (shader_at _ _); discriminate. }
  destruct (ev_code ev =? KEY_RIGHT).
  { destruct (int_rem _ _); [|discriminate].
    destruct (shader_at _ _); discriminate. }
  destruct (ev_code ev =? KEY_F).
  { destruct (find_display_port _ _) as [[port|] s1];
      [destruct (fs_write fsys port)|]; discriminate. }
  destruct ((ev_code ev =? KEY_ESC) || (ev_code ev =? KEY_Q)); discriminate.
Qed.

(** What a handled event leaves alone, and how it moves the index. *)
Lemma on_event_next (ev : input_event) (s s' : State) :
  on_event env fsys ev s = Next s' ->
  kbd_queue s' = kbd_queue s /\
  poll_keeps s s' /\
  grows poll_call s s' /\
  index_change_flagged s s' /\
  (index_ok env s -> index_ok env s').
Proof.
  unfold on_event.
  destruct (negb (ev_type ev =? EV_KEY) || negb (ev_value ev =? 1)).
  { intros Hx; injection Hx as <-.
    split; [reflexivity|]. split; [repeat split|]. split; [apply grows_refl|].
    split; [left; split; reflexivity|tauto]. }
  destruct (ev_code ev =? KEY_LEFT).
  { destruct (int_rem _ _) as [i|]; [|discriminate].
    destruct (shader_at _ _) as [sh|] eqn:Hsh; [|discriminate].
    intros Hx; injection Hx as <-. cbn in Hsh.
    split; [reflexivity|]. split; [repeat split|]. split; [repeat grows_step|].
    split; [right; reflexivity|].
    intros _. unfold index_ok. cbn. eapply shader_at_some_range; eassumption. }
  destruct (ev_code ev =? KEY_RIGHT).
  { destruct (int_rem _ _) as [i|]; [|discriminate].
    destruct (shader_at _ _) as [sh|] eqn:Hsh; [|discriminate].
    intros Hx; injection Hx as <-. cbn in Hsh.
    split; [reflexivity|]. split; [repeat split|]. split; [repeat grows_step|].
    split; [right; reflexivity|].
    intros _. unfold index_ok. cbn. eapply shader_at_some_range; eassumption. }
  destruct (ev_code ev =? KEY_F).
  { pose proof (find_display_port_fields fsys (printf MsgToggling s)) as Hf.
    destruct (find_display_port _ _) as [[port|] s1]; cbn in Hf;
      destruct Hf as (Hc & Hr & Hq & Ht & Hk);
      assert (Hg : grows poll_call s s1)
        by (apply (grows_same _ s (printf MsgToggling s) s1 Ht); repeat grows_step);
      [destruct (fs_write fsys port)|];
      intros Hx; injection Hx as <-;
      (split; [exact Hq|]; split; [exact Hk|]; split; [repeat grows_step|];
       split; [left; split; assumption|];
       unfold index_ok; cbn; rewrite Hc; tauto). }
  destruct ((ev_code ev =? KEY_ESC) || (ev_code ev =? KEY_Q)); [discriminate|].
  intros Hx; injection Hx as <-.
  split; [reflexivity|]. split; [repeat split|]. split; [apply grows_refl|].
  split; [left; split; reflexivity|tauto].
Qed.

(** In a proper registry the handler has defined behaviour. *)
Lemma on_event_defined (ev : input_event) (s s' : State) :
  registry_ok env -> index_ok env s ->
  on_event env fsys ev s <> Undefined s'.
Proof.
  intros Hreg Hi. unfold on_event.
  destruct (negb (ev_type ev =? EV_KEY) || negb (ev_value ev =? 1)) eqn:E0; [discriminate|].
  destruct (ev_code ev =? KEY_LEFT) eqn:E1.
  { destruct (on_event_left env fsys s Hreg Hi) as [sh [Hsh _]].
    rewrite step_left_value by assumption. cbn. rewrite Hsh. discriminate. }
  destruct (ev_code ev =? KEY_RIGHT) eqn:E2.
  { destruct (on_event_right env fsys s Hreg Hi) as [sh [Hsh _]].
    rewrite step_right_value by assumption. cbn. rewrite Hsh. discriminate. }
  destruct (ev_code ev =? KEY_F).
  { destruct (find_display_port _ _) as [[port|] s1];
      [destruct (fs_write fsys port)|]; discriminate. }
  destruct ((ev_code ev =? KEY_ESC) || (ev_code ev =? KEY_Q)); discriminate.
Qed.
(* ================================================================== *)
(** * The input poll as a whole *)

Lemma poll_keeps_refl (s : State) : poll_keeps s s.
Proof. unfold poll_keeps. repeat split. Qed.

Lemma poll_keeps_trans (s1 s2 s3 : State) :
  poll_keeps s1 s2 -> poll_keeps s2 s3 -> poll_keeps s1 s3.
Proof.
  unfold poll_keeps.
  intros (A1 & A2 & A3 & A4 & A5 & A6 & A7 & A8 & A9 & A10 & A11)
         (B1 & B2 & B3 & B4 & B5 & B6 & B7 & B8 & B9 & B10 & B11).
  repeat split; congruence.
Qed.

Lemma index_change_flagged_trans (s1 s2 s3 : State) :
  index_change_flagged s1 s2 -> index_change_flagged s2 s3 ->
  index_change_flagged s1 s3.
Proof.
  unfold index_change_flagged.
  intros [[A1 A2]|A] [[B1 B2]|B]; try (right; congruence).
  left. split; congruence.
Qed.

(** The loop of [check_keyboard] over a queue [q]: it ends with the queue
    empty unless an exit press is met, and then the process ends with
    status 0. *)
Lemma drain_outcome (q : list input_event) :
  registry_ok env ->
  forall s, index_ok env s ->
  match drain env fsys q s with
  | Next s' =>
      existsb is_exit_press q = false /\
      kbd_queue s' = match q with [] => kbd_queue s | _ => [] end /\
      poll_keeps s s' /\ grows poll_call s s' /\
      index_change_flagged s s' /\ index_ok env s'
  | Exited code s' =>
      existsb is_exit_press q = true /\ code = 0 /\
      poll_keeps s s' /\ grows poll_call s s' /\ index_change_flagged s s'
  | Again _ | Undefined _ => False
  end.
Proof.
  intros Hreg. induction q as [|ev q IH]; intros s Hi.
  - cbn. split; [reflexivity|]. split; [reflexivity|].
    split; [apply poll_keeps_refl|]. split; [apply grows_refl|].
    split; [left; split; reflexivity|exact Hi].
  - cbn [drain existsb].
    assert (Hi0 : index_ok env (set_kbd_queue q s)) by exact Hi.
    destruct (on_event env fsys ev (set_kbd_queue q s)) as [s1|s1|code s1|s1] eqn:E.
    + destruct (on_event_next ev _ _ E) as (Hq & Hk & Hg & Hf & Hix).
      assert (Hne : is_exit_press ev = false).
      { destruct (is_exit_press ev) eqn:Ex; [|reflexivity].
        rewrite (on_event_exit ev _ Ex) in E. discriminate. }
      rewrite Hne. cbn [orb].
      specialize (IH s1 (Hix Hi0)).
      destruct (drain env fsys q s1) as [s2|s2|c2 s2|s2]; try exact IH.
      * destruct IH as (I1 & I2 & I3 & I4 & I5 & I6).
        split; [exact I1|]. split.
        { rewrite I2. destruct q; [rewrite Hq; reflexivity|reflexivity]. }
        split; [eapply poll_keeps_trans; [exact Hk|exact I3]|].
        split; [eapply grows_trans; [exact Hg|exact I4]|].
        split; [eapply index_change_flagged_trans; [exact Hf|exact I5]|exact I6].
      * destruct IH as (I1 & I2 & I3 & I4 & I5).
        split; [exact I1|]. split; [exact I2|].
        split; [eapply poll_keeps_trans; [exact Hk|exact I3]|].
        split; [eapply grows_trans; [exact Hg|exact I4]|].
        eapply index_change_flagged_trans; [exact Hf|exact I5].
    + exfalso. eapply on_event_not_again; exact E.
    + destruct (on_event_exited ev _ _ _ E) as (Hx & -> & ->).
      rewrite Hx. cbn [orb].
      split; [reflexivity|]. split; [reflexivity|].
      split; [repeat split|]. split; [repeat grows_step|].
      left; split; reflexivity.
    + exfalso. eapply on_event_defined; [exact Hreg|exact Hi0|exact E].
Qed.

(** C7.  With a keyboard open and the index inside a proper registry, one
    call of the poll either returns with the queue of waiting events empty,
    or ends the process with status 0 at an exit press; an event that is
    not a key press (other type, or value other than 1), and a key press
    whose code is not previous, next, display-toggle or exit, is taken from
    the queue and leaves the whole state as it was. *)
Theorem C7_poll_drains_and_filters :
  registry_ok env -> 0 <= kbd_fd env ->
  (forall s, index_ok env s ->
     (exists s', check_keyboard env fsys s = Next s' /\ kbd_queue s' = [] /\
                 existsb is_exit_press (kbd_queue s) = false) \/
     (exists s', check_keyboard env fsys s = Exited 0 s' /\
                 existsb is_exit_press (kbd_queue s) = true)) /\
  (forall ev s,
     ev_type ev <> EV_KEY \/ ev_value ev <> 1 \/
     (ev_code ev <> KEY_LEFT /\ ev_code ev <> KEY_RIGHT /\ ev_code ev <> KEY_F /\
      ev_code ev <> KEY_ESC /\ ev_code ev <> KEY_Q) ->
     on_event env fsys ev s = Next s /\
     forall q, drain env fsys (ev :: q) s = drain env fsys q (set_kbd_queue q s)).
Proof.
  intros Hreg Hfd. split.
  - intros s Hi. unfold check_keyboard.
    replace (kbd_fd env <? 0) with false by (symmetry; apply Z.ltb_ge; exact Hfd).
    pose proof (drain_outcome (kbd_queue s) Hreg s Hi) as Hd.
    destruct (drain env fsys (kbd_queue s) s) as [s'|s'|code s'|s']; try contradiction.
    + left. exists s'. destruct Hd as (H1 & H2 & _).
      split; [reflexivity|]. split; [|exact H1].
      rewrite H2. destruct (kbd_queue s); reflexivity.
    + right. exists s'. destruct Hd as (H1 & -> & _).
      split; [reflexivity|exact H1].
  - intros ev s Hev.
    assert (Ha : acts ev = false).
    { unfold acts.
      destruct Hev as [H|[H|(H1 & H2 & H3 & H4 & H5)]].
      - apply Z.eqb_neq in H. rewrite H. reflexivity.
      - apply Z.eqb_neq in H. rewrite H. rewrite andb_false_r. reflexivity.
      - apply Z.eqb_neq in H1, H2, H3, H4, H5.
        rewrite H1, H2, H3, H4, H5. apply andb_false_r. }
    split; [apply on_event_inert; exact Ha|].
    intros q. cbn [drain]. rewrite on_event_inert by exact Ha. reflexivity.
Qed.

End InputPoll.

(* ================================================================== *)
(** * The reload block *)

Arguments elapsed : simpl never.
Arguments copy_frame : simpl never.
Arguments make_ubo : simpl never.
Arguments pipeline_create_info : simpl never.
Arguments int_add : simpl never.
Arguments find_port_loop : simpl never.

Lemma remove_incl (x : Z) (l : list Z) : incl (remove Z.eq_dec x l) l.
Proof. intros y Hy. apply in_remove in Hy. tauto. Qed.

(** "Clean up old shaders/pipeline": which calls it makes and what it
    leaves alone. *)
Lemma destroy_old_spec (s : State) :
  let s' := destroy_old s in
  trace s' = (trace s ++ destroy_events s)%list /\
  incl (live s') (live s) /\
  (pipeline s <> VK_NULL_HANDLE -> ~ In (pipeline s) (live s')) /\
  current_shader s' = current_shader s /\
  reload_requested s' = reload_requested s /\
  pipeline s' = pipeline s /\ vm s' = vm s /\ fm s' = fm s /\
  start s' = start s /\ frames s' = frames s /\ port_path s' = port_path s /\
  uboMem s' = uboMem s /\ rtMem s' = rtMem s /\ gbmMem s' = gbmMem s /\
  next_handle s' = next_handle s /\ kbd_queue s' = kbd_queue s /\
  built_for s' = built_for s.
Proof.
  unfold destroy_old, destroy_fm, destroy_vm, destroy_pipeline, destroy_events.
  destruct (pipeline s =? VK_NULL_HANDLE) eqn:Ep; cbn;
    destruct (vm s =? VK_NULL_HANDLE) eqn:Ev; cbn;
    destruct (fm s =? VK_NULL_HANDLE) eqn:Ef; cbn;
    rewrite ?app_nil_r, <- ?app_assoc; cbn;
    (split; [reflexivity|]);
    (split; [repeat (first [apply incl_refl | eapply incl_tran; [apply remove_incl|]])|]);
    (split; [|repeat split]);
    intros Hne Hin;
    try (apply Z.eqb_eq in Ep; contradiction);
    repeat (match goal with
            | H : In _ (remove Z.eq_dec ?x ?l) |- _ =>
                apply in_remove in H; destruct H
            end); congruence.
Qed.

Lemma destroy_events_reload_call (env : Env) (s : State) :
  Forall (reload_call env s) (destroy_events s).
Proof.
  unfold destroy_events.
  destruct (pipeline s =? VK_NULL_HANDLE) eqn:Ep;
    destruct (vm s =? VK_NULL_HANDLE) eqn:Ev;
    destruct (fm s =? VK_NULL_HANDLE) eqn:Ef; cbn;
    repeat constructor;
    try (apply Z.eqb_neq; assumption); tauto.
Qed.

Lemma grows_destroy_old (env : Env) (s : State) :
  grows (reload_call env s) s (destroy_old s).
Proof.
  destruct (destroy_old_spec s) as (Ht & _).
  exists (destroy_events s). split; [exact Ht|apply destroy_events_reload_call].
Qed.

(** The reload block, outcome by outcome. *)
Lemma reload_outcome (env : Env) (inp : FrameInput) (s : State) :
  index_ok env s ->
  exists sh,
    shader_at (shaders env) (current_shader s) = Some sh /\
    match reload env inp s with
    | Next s' =>
        load_spv (fs inp) (vert_path sh) <> None /\
        load_spv (fs inp) (frag_path sh) <> None /\
        r_vm inp = VK_SUCCESS /\ r_fm inp = VK_SUCCESS /\ r_pipe inp = VK_SUCCESS /\
        reload_requested s' = 0 /\ built_for s' = current_shader s /\
        pipeline s' <> VK_NULL_HANDLE /\ In (pipeline s') (live s') /\
        start s' = clock_reload inp /\ frames s' = 0 /\
        reload_keeps s s' /\ grows (reload_call env s) s s'
    | Again s' =>
        (load_spv (fs inp) (vert_path sh) = None \/
         load_spv (fs inp) (frag_path sh) = None) /\
        s' = emit (EvSleep 1) (printf (MsgFailedToLoad (name sh)) (destroy_old s))
    | Exited code s' =>
        code = 1 /\
        (r_vm inp <> VK_SUCCESS \/ r_fm inp <> VK_SUCCESS \/ r_pipe inp <> VK_SUCCESS) /\
        start s' = start s /\ reload_requested s' = reload_requested s /\
        reload_keeps s s' /\ grows (reload_call env s) s s'
    | Undefined _ => False
    end.
Proof.
  intros Hi.
  destruct (shader_at_in_range (shaders env) _ Hi) as [sh Hsh].
  exists sh. split; [exact Hsh|].
  unfold reload.
  destruct (destroy_old_spec s)
    as (Ht & Hl & _ & Hc & Hr & Hp & Hv & Hf & Hst & Hfr & Hpp & Hu & Hrt & Hg & Hn & Hq & Hb).
  pose proof (grows_destroy_old env s) as Hgr.
  cbv zeta in Ht, Hl, Hc, Hr, Hp, Hv, Hf, Hst, Hfr, Hpp, Hu, Hrt, Hg, Hn, Hq, Hb |- *.
  rewrite Hc, Hsh.
  unfold load_spv, vk_check, new_object.
  destruct (fs_read (fs inp) (vert_path sh)) as [vc|];
    [destruct (fs_read (fs inp) (frag_path sh)) as [fc|]|].
  - destruct (r_vm inp =? VK_SUCCESS) eqn:E1; cbv beta iota zeta.
    2:{ apply Z.eqb_neq in E1.
        split; [reflexivity|]. split; [tauto|]. split; [exact Hst|].
        split; [exact Hr|]. split; [repeat split; assumption|].
        repeat grows_step. }
    destruct (r_fm inp =? VK_SUCCESS) eqn:E2; cbv beta iota zeta.
    2:{ apply Z.eqb_neq in E2.
        split; [reflexivity|]. split; [tauto|]. split; [exact Hst|].
        split; [exact Hr|]. split; [repeat split; assumption|].
        repeat grows_step. }
    destruct (r_pipe inp =? VK_SUCCESS) eqn:E3; cbv beta iota zeta.
    2:{ apply Z.eqb_neq in E3.
        split; [reflexivity|]. split; [tauto|]. split; [exact Hst|].
        split; [exact Hr|]. split; [repeat split; assumption|].
        repeat grows_step. eexists _, _. reflexivity. }
    apply Z.eqb_eq in E1, E2, E3.
    split; [discriminate|]. split; [discriminate|].
    split; [exact E1|]. split; [exact E2|]. split; [exact E3|].
    split; [reflexivity|]. split; [exact Hc|].
    split; [intros Hx; discriminate Hx|]. split; [left; reflexivity|].
    split; [reflexivity|]. split; [reflexivity|].
    split; [repeat split; assumption|].
    repeat grows_step. eexists _, _. reflexivity.
  - split; [right; reflexivity|reflexivity].
  - split; [left; reflexivity|reflexivity].
Qed.

(* ================================================================== *)
(** * The loop body after the reload block *)

Lemma poll_call_frame_call (env : Env) (p : handle) (e : Event) :
  poll_call e -> frame_call env p e /\ ~ presents e.
Proof. destruct e; cbn; tauto. Qed.

Lemma check_keyboard_outcome (env : Env) (fsys : FileSystem) (s : State) :
  registry_ok env -> index_ok env s ->
  match check_keyboard env fsys s with
  | Next s' =>
      poll_keeps s s' /\ grows poll_call s s' /\
      index_change_flagged s s' /\ index_ok env s' /\
      (0 <= kbd_fd env ->
       kbd_queue s' = [] /\ existsb is_exit_press (kbd_queue s) = false) /\
      (kbd_fd env < 0 -> s' = s)
  | Exited code s' =>
      code = 0 /\ 0 <= kbd_fd env /\
      existsb is_exit_press (kbd_queue s) = true /\
      poll_keeps s s' /\ grows poll_call s s' /\ index_change_flagged s s'
  | Again _ | Undefined _ => False
  end.
Proof.
  intros Hreg Hi. unfold check_keyboard.
  destruct (kbd_fd env <? 0) eqn:Efd.
  - apply Z.ltb_lt in Efd.
    split; [apply poll_keeps_refl|]. split; [apply grows_refl|].
    split; [left; split; reflexivity|]. split; [exact Hi|].
    split; [lia|reflexivity].
  - apply Z.ltb_ge in Efd.
    pose proof (drain_outcome env fsys (kbd_queue s) Hreg s Hi) as Hd.
    destruct (drain env fsys (kbd_queue s) s) as [s'|s'|code s'|s']; try exact Hd.
    + destruct Hd as (H1 & H2 & H3 & H4 & H5 & H6).
      repeat (split; [assumption|]). split; [|lia].
      intros _. split; [|exact H1].
      rewrite H2. destruct (kbd_queue s); reflexivity.
    + destruct Hd as (H1 & H2 & H3 & H4 & H5).
      repeat (split; [assumption|]). assumption.
Qed.

(** The loop body after the reload block, outcome by outcome. *)
Lemma frame_outcome (env : Env) (inp : FrameInput) (s : State) :
  registry_ok env -> index_ok env s ->
  match frame env inp s with
  | Next s' =>
      r_submit inp = VK_SUCCESS /\ r_wait inp = VK_SUCCESS /\
      uboMem s' = Some (make_ubo env (elapsed (start s) (clock_frame inp))) /\
      rtMem s' = gpu_output inp /\
      gbmMem s' =
        match gbm_map inp with
        | Some k => copy_frame env k (gbmMem s) (gpu_output inp)
        | None => gbmMem s
        end /\
      frames s' = int_add (frames s) 1 /\
      frame_keeps s s' /\ index_change_flagged s s' /\ index_ok env s' /\
      (0 <= kbd_fd env ->
       kbd_queue s' = [] /\ existsb is_exit_press (kbd_queue s) = false) /\
      (kbd_fd env < 0 -> kbd_queue s' = kbd_queue s) /\
      grows (frame_call env (pipeline s)) s s' /\
      In (EvCmdDraw 6 1 0 0) (trace s') /\
      In (EvGbmMap match gbm_map inp with Some _ => true | None => false end) (trace s')
  | Exited code s' =>
      gbmMem s' = gbmMem s /\ frame_keeps s s' /\ index_change_flagged s s' /\
      ((code = 0 /\ 0 <= kbd_fd env /\
        existsb is_exit_press (kbd_queue s) = true /\ grows poll_call s s') \/
       (code = 1 /\ (r_submit inp <> VK_SUCCESS \/ r_wait inp <> VK_SUCCESS) /\
        (0 <= kbd_fd env -> existsb is_exit_press (kbd_queue s) = false) /\
        grows (fun e => frame_call env (pipeline s) e /\ ~ presents e) s s'))
  | Again _ | Undefined _ => False
  end.
Proof.
  intros Hreg Hi. unfold frame. cbv zeta.
  pose proof (check_keyboard_outcome env (fs inp) s Hreg Hi) as Hk.
  destruct (check_keyboard env (fs inp) s) as [s1|s1|code s1|s1]; try exact Hk.
  - destruct Hk as (Hkeep & Hg & Hf & Hi1 & Hq & Hq').
    destruct Hkeep as (K1 & K2 & K3 & K4 & K5 & K6 & K7 & K8 & K9 & K10 & K11).
    assert (Hg1 : grows (fun e => frame_call env (pipeline s) e /\ ~ presents e) s s1).
    { eapply grows_weaken; [|exact Hg]. apply poll_call_frame_call. }
    assert (Hg2 : grows (frame_call env (pipeline s)) s s1).
    { eapply grows_weaken; [|exact Hg1]. cbv beta. tauto. }
    unfold vk_check, record_commands, present.
    destruct (r_submit inp =? VK_SUCCESS) eqn:E1; cbv beta iota zeta.
    2:{ apply Z.eqb_neq in E1.
        split; [exact K8|]. split; [repeat split; assumption|]. split.
        { destruct Hf as [[F1 F2]|F]; [left; split; assumption|right; exact F]. }
        right. split; [reflexivity|]. split; [tauto|].
        split; [intros Hfd; apply (Hq Hfd)|].
        repeat grows_step. }
    destruct (r_wait inp =? VK_SUCCESS) eqn:E2; cbv beta iota zeta.
    2:{ apply Z.eqb_neq in E2.
        split; [exact K8|]. split; [repeat split; assumption|]. split.
        { destruct Hf as [[F1 F2]|F]; [left; split; assumption|right; exact F]. }
        right. split; [reflexivity|]. split; [tauto|].
        split; [intros Hfd; apply (Hq Hfd)|].
        repeat grows_step. }
    apply Z.eqb_eq in E1, E2.
    destruct (shader_at_in_range (shaders env) (current_shader s1) Hi1) as [sh Hsh].
    destruct (gbm_map inp) as [k|]; cbv beta iota zeta;
      (match goal with
       | |- context [shader_at (shaders env) ?i] =>
           change i with (current_shader s1)
       end; rewrite Hsh);
      match goal with
      | |- context [if ?c then _ else _] => destruct c
      end;
      (split; [exact E1|]; split; [exact E2|]; split; [reflexivity|];
       split; [reflexivity|];
       split; [first [ exact (f_equal (fun m => copy_frame env k m (gpu_output inp)) K8)
                     | exact K8 ]|];
       split; [exact (f_equal (fun z => int_add z 1) K5)|];
       split; [repeat split; assumption|];
       split; [destruct Hf as [[F1 F2]|F]; [left; split; assumption|right; exact F]|];
       split; [exact Hi1|]; split; [exact Hq|];
       split; [intros Hneg; rewrite (Hq' Hneg); reflexivity|];
       split; [repeat grows_step|]).
    all: split; trace_in.
  - destruct Hk as (-> & Hfd & Hx & Hkeep & Hg & Hf).
    destruct Hkeep as (K1 & K2 & K3 & K4 & K5 & K6 & K7 & K8 & K9 & K10 & K11).
    split; [exact K8|]. split; [repeat split; assumption|]. split; [exact Hf|].
    left. repeat split; assumption.
Qed.

(* ================================================================== *)
(** * One pass of the loop *)

Lemma arrive_index_ok (env : Env) (inp : FrameInput) (s : State) :
  index_ok env s -> index_ok env (arrive inp s).
Proof. intros Hi. exact Hi. Qed.

(** The four ways through a pass: no reload needed; reload done; reload
    given up for this pass because a binary is missing; reload ended by a
    failed [VK_CHECK]. *)
Lemma iteration_cases (env : Env) (inp : FrameInput) (s : State) :
  index_ok env s ->
  exists sh, shader_at (shaders env) (current_shader s) = Some sh /\
  ((needs_reload s = false /\
    iteration env inp s = frame env inp (arrive inp s)) \/
   (needs_reload s = true /\
    exists s1, reload env inp (arrive inp s) = Next s1 /\
               iteration env inp s = frame env inp s1 /\
               load_spv (fs inp) (vert_path sh) <> None /\
               load_spv (fs inp) (frag_path sh) <> None /\
               reload_requested s1 = 0 /\ built_for s1 = current_shader s /\
               pipeline s1 <> VK_NULL_HANDLE /\ In (pipeline s1) (live s1) /\
               start s1 = clock_reload inp /\ frames s1 = 0 /\
               reload_keeps (arrive inp s) s1 /\
               grows (reload_call env s) s s1) \/
   (needs_reload s = true /\
    (load_spv (fs inp) (vert_path sh) = None \/
     load_spv (fs inp) (frag_path sh) = None) /\
    reload env inp (arrive inp s) =
      Again (emit (EvSleep 1)
               (printf (MsgFailedToLoad (name sh)) (destroy_old (arrive inp s)))) /\
    iteration env inp s =
      Again (emit (EvSleep 1)
               (printf (MsgFailedToLoad (name sh)) (destroy_old (arrive inp s))))) \/
   (needs_reload s = true /\
    exists s1, reload env inp (arrive inp s) = Exited 1 s1 /\
               iteration env inp s = Exited 1 s1 /\
               start s1 = start s /\ reload_requested s1 = reload_requested s /\
               reload_keeps (arrive inp s) s1 /\
               grows (reload_call env s) s s1)).
Proof.
  intros Hi.
  destruct (reload_outcome env inp (arrive inp s) (arrive_index_ok env inp s Hi))
    as [sh [Hsh Hr]].
  exists sh. split; [exact Hsh|].
  unfold iteration. cbv zeta.
  change (needs_reload (arrive inp s)) with (needs_reload s).
  destruct (needs_reload s); [|left; split; reflexivity].
  right.
  destruct (reload env inp (arrive inp s)) as [s1|s1|code s1|s1]; [| | |contradiction].
  - left. split; [reflexivity|]. exists s1.
    destruct Hr as (H1 & H2 & _ & _ & _ & H6 & H7 & H8 & H9 & H10 & H11 & H12 & H13).
    repeat (split; [first [reflexivity|assumption]|]). exact H13.
  - right. left. destruct Hr as [Hl ->]. repeat split; assumption.
  - right. right. destruct Hr as (-> & _ & H3 & H4 & H5 & H6).
    split; [reflexivity|]. exists s1. repeat (split; [first [reflexivity|assumption]|]).
    exact H6.
Qed.

Lemma reload_call_not_device_work (env : Env) (s : State) (e : Event) :
  reload_call env s e -> ~ device_work e /\ ~ presents e.
Proof. destruct e; cbn; tauto. Qed.

Lemma poll_call_not_device_work (e : Event) : poll_call e -> ~ device_work e.
Proof. destruct e; cbn; tauto. Qed.

(* ================================================================== *)
(** * Claim C1: a rebuild whose binaries fail to load *)

(** C1, amended.  When a pass needs a rebuild and at least one of the two
    binaries of the selected program cannot be read, the pass first issues
    the destroy calls for the old set, then prints the failure, sleeps one
    second and goes back to the loop head.  It creates no shader module and
    no pipeline, records and submits nothing, does not poll the keyboard,
    and leaves the index, the reload flag, the epoch, the frame counter and
    the three mapped memories as they were; the next pass needs a rebuild
    again. *)
Theorem C1_failed_load_amended (env : Env) (inp : FrameInput) (s : State)
        (sh : ShaderInfo) :
  needs_reload s = true ->
  shader_at (shaders env) (current_shader s) = Some sh ->
  load_spv (fs inp) (vert_path sh) = None \/ load_spv (fs inp) (frag_path sh) = None ->
  exists s',
    iteration env inp s = Again s' /\
    trace s' = (trace s ++ destroy_events s ++
                [EvPrintf (MsgFailedToLoad (name sh)); EvSleep 1])%list /\
    incl (live s') (live s) /\ next_handle s' = next_handle s /\
    current_shader s' = current_shader s /\
    reload_requested s' = reload_requested s /\
    start s' = start s /\ frames s' = frames s /\
    uboMem s' = uboMem s /\ rtMem s' = rtMem s /\ gbmMem s' = gbmMem s /\
    kbd_queue s' = (kbd_queue s ++ arrivals inp)%list /\
    needs_reload s' = true.
Proof.
  intros Hneed Hsh Hload.
  assert (Hi : index_ok env s) by (eapply shader_at_some_range; exact Hsh).
  destruct (iteration_cases env inp s Hi) as [sh' [Hsh' Hcases]].
  assert (sh' = sh) by congruence. subst sh'.
  destruct (destroy_old_spec (arrive inp s))
    as (Ht & Hl & _ & Hc & Hr & Hp & Hv & Hf & Hst & Hfr & Hpp & Hu & Hrt & Hg & Hn & Hq & Hb).
  cbv zeta in Ht, Hl, Hc, Hr, Hp, Hv, Hf, Hst, Hfr, Hpp, Hu, Hrt, Hg, Hn, Hq, Hb.
  destruct Hcases as [[Hn0 _]|[(_ & s1 & _ & _ & Hv1 & Hf1 & _)|[(_ & _ & _ & Hit)|(_ & s1 & _ & Hit & _)]]].
  - congruence.
  - destruct Hload; contradiction.
  - eexists. split; [exact Hit|].
    split.
    { change ((trace (destroy_old (arrive inp s)) ++
                [EvPrintf (MsgFailedToLoad (name sh))]) ++ [EvSleep 1] =
              trace s ++ destroy_events s ++
                [EvPrintf (MsgFailedToLoad (name sh)); EvSleep 1])%list.
      rewrite Ht. rewrite <- !app_assoc. reflexivity. }
    split; [exact Hl|]. split; [exact Hn|]. split; [exact Hc|].
    split; [exact Hr|]. split; [exact Hst|]. split; [exact Hfr|].
    split; [exact Hu|]. split; [exact Hrt|]. split; [exact Hg|].
    split; [exact Hq|].
    unfold needs_reload in *.
    change (negb (reload_requested (destroy_old (arrive inp s)) =? 0)
            || (pipeline (destroy_old (arrive inp s)) =? VK_NULL_HANDLE) = true).
    rewrite Hr, Hp. exact Hneed.
  - exfalso.
    pose proof (reload_outcome env inp (arrive inp s) Hi) as [sh2 [Hsh2 Hro]].
    unfold iteration in Hit. cbv zeta in Hit.
    change (needs_reload (arrive inp s)) with (needs_reload s) in Hit.
    rewrite Hneed in Hit.
    assert (sh2 = sh) by (change (current_shader (arrive inp s)) with (current_shader s) in Hsh2;
                          congruence). subst sh2.
    unfold reload in Hit, Hro. cbv zeta in Hit, Hro.
    rewrite Hc in Hit, Hro.
    change (current_shader (arrive inp s)) with (current_shader s) in Hit, Hro.
    rewrite Hsh in Hit, Hro.
    destruct Hload as [Hl0|Hl0]; rewrite Hl0 in Hit;
      [|destruct (load_spv (fs inp) (vert_path sh))]; discriminate Hit.
Qed.

(* ================================================================== *)
(** * Claim C3: the elapsed time in the uniform block *)

Lemma elapsed_same (t : timespec) : elapsed t t = F32.zero.
Proof.
  unfold elapsed, long_sub. rewrite !Z.sub_diag. vm_compute. reflexivity.
Qed.


(* ================================================================== *)
(** * One pass of the loop, outcome by outcome *)

Lemma grows_arrive_l (P : Event -> Prop) (inp : FrameInput) (s s' : State) :
  grows P (arrive inp s) s' -> grows P s s'.
Proof. intros Hg. exact Hg. Qed.

Lemma grows_failed_load (env : Env) (inp : FrameInput) (s : State) (nm : string) :
  grows (reload_call env s) s
    (emit (EvSleep 1) (printf (MsgFailedToLoad nm) (destroy_old (arrive inp s)))).
Proof.
  repeat grows_step.
  apply grows_arrive_l with (inp := inp).
  exact (grows_destroy_old env (arrive inp s)).
Qed.

Lemma iteration_outcome (env : Env) (inp : FrameInput) (s : State) :
  registry_ok env -> index_ok env s ->
  match iteration env inp s with
  | Next s' =>
      index_ok env s' /\
      (exists s1,
         grows (reload_call env s) s s1 /\
         grows (frame_call env (pipeline s')) s1 s' /\
         ((needs_reload s = false /\ pipeline s' = pipeline s /\
           built_for s' = built_for s) \/
          (needs_reload s = true /\ built_for s' = current_shader s /\
           pipeline s' <> VK_NULL_HANDLE)) /\
         reload_requested s1 = 0 /\
         current_shader s1 = current_shader s /\
         index_change_flagged s1 s') /\
      In (EvCmdDraw 6 1 0 0) (trace s') /\
      In (EvGbmMap match gbm_map inp with Some _ => true | None => false end) (trace s') /\
      gbmMem s' =
        match gbm_map inp with
        | Some k => copy_frame env k (gbmMem s) (gpu_output inp)
        | None => gbmMem s
        end /\
      (0 <= kbd_fd env ->
       kbd_queue s' = [] /\
       existsb is_exit_press (kbd_queue s ++ arrivals inp) = false)
  | Again s' =>
      index_ok env s' /\ grows (reload_call env s) s s' /\
      kbd_queue s' = (kbd_queue s ++ arrivals inp)%list /\
      gbmMem s' = gbmMem s /\
      current_shader s' = current_shader s /\
      reload_requested s' = reload_requested s /\
      pipeline s' = pipeline s /\ built_for s' = built_for s /\
      needs_reload s = true
  | Exited code s' =>
      gbmMem s' = gbmMem s /\
      ((code = 0 /\ 0 <= kbd_fd env /\
        existsb is_exit_press (kbd_queue s ++ arrivals inp) = true /\
        grows (fun e => reload_call env s e \/ poll_call e) s s') \/
       (code = 1 /\
        (grows (reload_call env s) s s' \/
         (0 <= kbd_fd env ->
          existsb is_exit_press (kbd_queue s ++ arrivals inp) = false)) /\
        grows (fun e => (exists p, pass_call env s p e) /\ ~ presents e) s s'))
  | Undefined _ => False
  end.
Proof.
  intros Hreg Hi.
  destruct (iteration_cases env inp s Hi) as [sh [Hsh Hcases]].
  destruct Hcases as [[Hn Hit]|[(Hn & s1 & Hr & Hit & _ & _ & Hrr & Hb & Hp & _ & Hst & _ & Hk & Hg)
                     |[(Hn & _ & Hr & Hit)|(Hn & s1 & Hr & Hit & Hst & Hrq & Hk & Hg)]]];
    rewrite Hit.
  - pose proof (frame_outcome env inp (arrive inp s) Hreg Hi) as Hf.
    destruct (frame env inp (arrive inp s)) as [s'|s'|c s'|s']; try contradiction.
    + destruct Hf as (_ & _ & _ & _ & Hgbm & _ & (K1 & _ & _ & _ & _ & _ & K7)
                      & Hfl & Hi' & Hq & _ & Hg & Hdraw & Hmap).
      split; [exact Hi'|]. split.
      { exists (arrive inp s).
        split; [apply (grows_same _ s s (arrive inp s) eq_refl), grows_refl|].
        split; [rewrite K1; exact Hg|].
        split; [left; split; [exact Hn|split; [exact K1|exact K7]]|].
        split.
        { unfold needs_reload in Hn. apply orb_false_elim in Hn. destruct Hn as [Hn1 _].
          apply negb_false_iff, Z.eqb_eq in Hn1. exact Hn1. }
        split; [reflexivity|exact Hfl]. }
      split; [exact Hdraw|]. split; [exact Hmap|]. split; [exact Hgbm|exact Hq].
    + destruct Hf as (Hgbm & _ & _ & [(-> & Hfd & Hx & Hg)|(-> & _ & Hx & Hg)]).
      * split; [exact Hgbm|]. left. split; [reflexivity|]. split; [exact Hfd|].
        split; [exact Hx|].
        eapply grows_weaken; [|exact Hg]. cbv beta. tauto.
      * split; [exact Hgbm|]. right. split; [reflexivity|].
        split; [right; exact Hx|].
        eapply grows_weaken; [|exact Hg]. cbv beta. intros e [He1 He2].
        split; [exists (pipeline s); right; exact He1|exact He2].
  - assert (Hi1 : index_ok env s1).
    { destruct Hk as (Hc & _). unfold index_ok. rewrite Hc. exact Hi. }
    destruct Hk as (Kc & _ & _ & _ & Kg & Kq).
    pose proof (frame_outcome env inp s1 Hreg Hi1) as Hf.
    destruct (frame env inp s1) as [s'|s'|c s'|s']; try contradiction.
    + destruct Hf as (_ & _ & _ & _ & Hgbm & _ & (K1 & _ & _ & _ & _ & _ & K7)
                      & Hfl & Hi' & Hq & _ & Hg' & Hdraw & Hmap).
      split; [exact Hi'|]. split.
      { exists s1. split; [exact Hg|].
        split; [rewrite K1; exact Hg'|].
        split; [right; repeat split; congruence|].
        split; [exact Hrr|]. split; [exact Kc|exact Hfl]. }
      split; [exact Hdraw|]. split; [exact Hmap|].
      split; [rewrite Hgbm, Kg; reflexivity|].
      rewrite Kq in Hq. exact Hq.
    + destruct Hf as (Hgbm & _ & _ & [(-> & Hfd & Hx & Hg')|(-> & _ & Hx & Hg')]).
      * split; [rewrite Hgbm; exact Kg|]. left. split; [reflexivity|]. split; [exact Hfd|].
        split; [rewrite Kq in Hx; exact Hx|].
        eapply grows_trans.
        { eapply grows_weaken; [|exact Hg]. cbv beta. tauto. }
        eapply grows_weaken; [|exact Hg']. cbv beta. tauto.
      * split; [rewrite Hgbm; exact Kg|]. right. split; [reflexivity|].
        split; [right; rewrite Kq in Hx; exact Hx|].
        eapply grows_trans.
        { eapply grows_weaken; [|exact Hg]. cbv beta. intros e He.
          split; [exists (pipeline s); left; exact He|].
          apply (reload_call_not_device_work env s e He). }
        eapply grows_weaken; [|exact Hg']. cbv beta. intros e [He1 He2].
        split; [exists (pipeline s1); right; exact He1|exact He2].
  - destruct (destroy_old_spec (arrive inp s))
      as (Ht & Hl & _ & Hc & Hrq & Hp & Hv & Hf & Hst & Hfr & Hpp & Hu & Hrt & Hg & Hnh & Hq & Hb).
    cbv zeta in Ht, Hl, Hc, Hrq, Hp, Hv, Hf, Hst, Hfr, Hpp, Hu, Hrt, Hg, Hnh, Hq, Hb.
    split; [unfold index_ok in *; change (0 <= current_shader (destroy_old (arrive inp s))
                         < shader_count (shaders env)); rewrite Hc; exact Hi|].
    split; [apply grows_failed_load|].
    split; [exact Hq|]. split; [exact Hg|]. split; [exact Hc|]. split; [exact Hrq|].
    split; [exact Hp|]. split; [exact Hb|exact Hn].
  - destruct Hk as (Kc & _ & _ & _ & Kg & Kq).
    split; [exact Kg|]. right. split; [reflexivity|]. split; [left; exact Hg|].
    eapply grows_weaken; [|exact Hg]. cbv beta. intros e He.
    split; [exists (pipeline s); left; exact He|].
    apply (reload_call_not_device_work env s e He).
Qed.

(* ================================================================== *)
(** * Facts about traces *)

Lemma grows_inv (P : Event -> Prop) (s s' : State) (evs : list Event) :
  grows P s s' -> trace s' = (trace s ++ evs)%list -> Forall P evs.
Proof.
  intros [evs' [H F]] Ht. rewrite H in Ht. apply app_inv_head in Ht.
  subst evs'. exact F.
Qed.

Lemma grows_not_in (P : Event -> Prop) (s s' : State) (evs : list Event) (e : Event) :
  grows P s s' -> ~ P e -> trace s' = (trace s ++ evs)%list -> ~ In e evs.
Proof.
  intros Hg Hn Ht Hin.
  pose proof (grows_inv P s s' evs Hg Ht) as HF.
  rewrite Forall_forall in HF. exact (Hn (HF e Hin)).
Qed.

Lemma poll_call_not_presents (e : Event) : poll_call e -> ~ presents e.
Proof. destruct e; cbn; tauto. Qed.

(* ================================================================== *)
(** * Claim C8: a frame whose scanout buffer cannot be mapped *)

(** C8.  In a pass in which [gbm_bo_map] returns no mapping, the scanout
    memory at the end of the pass is what it was at its start; and if the
    pass got as far as that call, it runs to the end of the loop body (it
    is not an exit), so the loop goes on with the next pass. *)
Theorem C8_unmappable_scanout (env : Env) (inp : FrameInput) (s : State) :
  registry_ok env -> index_ok env s -> gbm_map inp = None ->
  gbmMem (state_of (iteration env inp s)) = gbmMem s /\
  (forall evs,
     trace (state_of (iteration env inp s)) = (trace s ++ evs)%list ->
     In (EvGbmMap false) evs ->
     exists s', iteration env inp s = Next s' /\
                forall rest, main_loop env (inp :: rest) s = main_loop env rest s').
Proof.
  intros Hreg Hi Hmap.
  pose proof (iteration_outcome env inp s Hreg Hi) as Ho.
  destruct (iteration env inp s) as [s'|s'|code s'|s'] eqn:Hit; cbn [state_of].
  - destruct Ho as (_ & _ & _ & _ & Hg & _). rewrite Hmap in Hg.
    split; [exact Hg|]. intros evs _ _. exists s'. split; [reflexivity|].
    intros rest. cbn [main_loop]. rewrite Hit. reflexivity.
  - destruct Ho as (_ & Hg & _ & Hm & _). split; [exact Hm|].
    intros evs Ht Hin. exfalso.
    refine (grows_not_in _ s s' evs (EvGbmMap false) Hg _ Ht Hin).
    cbn. tauto.
  - destruct Ho as (Hm & Hcases). split; [exact Hm|].
    intros evs Ht Hin. exfalso.
    destruct Hcases as [(_ & _ & _ & Hg)|(_ & _ & Hg)].
    + refine (grows_not_in _ s s' evs (EvGbmMap false) Hg _ Ht Hin).
      cbn. tauto.
    + refine (grows_not_in _ s s' evs (EvGbmMap false) Hg _ Ht Hin).
      cbn. tauto.
  - contradiction.
Qed.

(* ================================================================== *)
(** * Claim C9: an exit press ends the process before any submission *)

Lemma existsb_app_l {A : Type} (f : A -> bool) (l1 l2 : list A) :
  existsb f l1 = true -> existsb f (l1 ++ l2) = true.
Proof. intros H. rewrite existsb_app, H. reflexivity. Qed.

Lemma iteration_exit_queued (env : Env) (inp : FrameInput) (s : State) :
  registry_ok env -> index_ok env s -> 0 <= kbd_fd env ->
  existsb is_exit_press (kbd_queue s) = true ->
  match iteration env inp s with
  | Exited code s' => grows (fun e => ~ device_work e) s s'
  | Again s' =>
      grows (fun e => ~ device_work e) s s' /\ index_ok env s' /\
      existsb is_exit_press (kbd_queue s') = true
  | Next _ | Undefined _ => False
  end.
Proof.
  intros Hreg Hi Hfd Hx.
  pose proof (existsb_app_l is_exit_press _ (arrivals inp) Hx) as Hx'.
  pose proof (iteration_outcome env inp s Hreg Hi) as Ho.
  destruct (iteration env inp s) as [s'|s'|code s'|s'].
  - destruct Ho as (_ & _ & _ & _ & _ & Hq). destruct (Hq Hfd) as [_ Hq'].
    congruence.
  - destruct Ho as (Hi' & Hg & Hq & _). split; [|split; [exact Hi'|]].
    + eapply grows_weaken; [|exact Hg]. intros e He.
      apply (reload_call_not_device_work env s e He).
    + rewrite Hq. exact Hx'.
  - destruct Ho as (_ & [(_ & _ & _ & Hg)|(_ & [Hg|Hq] & _)]).
    + eapply grows_weaken; [|exact Hg]. cbv beta. intros e [He|He].
      * apply (reload_call_not_device_work env s e He).
      * apply poll_call_not_device_work. exact He.
    + eapply grows_weaken; [|exact Hg]. intros e He.
      apply (reload_call_not_device_work env s e He).
    + specialize (Hq Hfd). congruence.
  - contradiction.
Qed.

(** C9.  With an exit press (ESC or Q, value 1) waiting in the queue of an
    open keyboard, the poll ends the process with status 0; and from that
    state the loop, however many passes it is given, never records a
    command and never submits: each pass either ends the process, at the
    poll or at a failed [VK_CHECK] of the reload block before it, or is cut
    short by a failed load and leaves the exit press in the queue. *)
Theorem C9_exit_before_submission (env : Env) (s : State) :
  registry_ok env -> index_ok env s -> 0 <= kbd_fd env ->
  existsb is_exit_press (kbd_queue s) = true ->
  (forall fsys, exists s',
     check_keyboard env fsys s = Exited 0 s' /\
     grows (fun e => ~ device_work e) s s') /\
  (forall inputs,
     grows (fun e => ~ device_work e) s (state_of (main_loop env inputs s)) /\
     match main_loop env inputs s with
     | Exited _ _ => True
     | Next s' => existsb is_exit_press (kbd_queue s') = true
     | Again _ | Undefined _ => False
     end) /\
  (forall inp,
     needs_reload s = false ->
     exists s', iteration env inp s = Exited 0 s').
Proof.
  intros Hreg Hi Hfd Hx. split; [|split].
  - intros fsys.
    pose proof (check_keyboard_outcome env fsys s Hreg Hi) as Hk.
    destruct (check_keyboard env fsys s) as [s'|s'|code s'|s']; try contradiction.
    + destruct Hk as (_ & _ & _ & _ & Hq & _). destruct (Hq Hfd). congruence.
    + destruct Hk as (-> & _ & _ & _ & Hg & _). exists s'. split; [reflexivity|].
      eapply grows_weaken; [|exact Hg]. exact poll_call_not_device_work.
  - intros inputs. revert s Hi Hx.
    induction inputs as [|inp rest IH]; intros s Hi Hx.
    + cbn. split; [apply grows_refl|exact Hx].
    + cbn [main_loop].
      pose proof (iteration_exit_queued env inp s Hreg Hi Hfd Hx) as Hit.
      destruct (iteration env inp s) as [s'|s'|code s'|s']; try contradiction.
      * destruct Hit as (Hg & Hi' & Hx').
        destruct (IH s' Hi' Hx') as [Hg' Hm].
        split; [eapply grows_trans; [exact Hg|exact Hg']|exact Hm].
      * cbn [state_of]. split; [exact Hit|exact I].
  - intros inp Hn.
    pose proof (existsb_app_l is_exit_press _ (arrivals inp) Hx) as Hx'.
    destruct (iteration_cases env inp s Hi) as [sh [_ Hc]].
    destruct Hc as [[_ Hit]|[(Hn' & _)|[(Hn' & _)|(Hn' & _)]]]; try congruence.
    rewrite Hit.
    pose proof (frame_outcome env inp (arrive inp s) Hreg Hi) as Hf.
    destruct (frame env inp (arrive inp s)) as [s'|s'|code s'|s']; try contradiction.
    + destruct Hf as (_ & _ & _ & _ & _ & _ & _ & _ & _ & Hq & _).
      destruct (Hq Hfd) as [_ Hq']. exfalso.
      change (kbd_queue (arrive inp s)) with (kbd_queue s ++ arrivals inp)%list in Hq'.
      congruence.
    + destruct Hf as (_ & _ & _ & [(-> & _)|(_ & _ & Hq & _)]).
      * exists s'. reflexivity.
      * exfalso. specialize (Hq Hfd).
        change (kbd_queue (arrive inp s)) with (kbd_queue s ++ arrivals inp)%list in Hq.
        congruence.
Qed.

(* ================================================================== *)
(** * Claim C10: a change of index forces a rebuild before the next draw *)

(** Only the previous and next handlers move the index. *)
Lemma on_event_moves_index (env : Env) (fsys : FileSystem) (ev : input_event)
      (s s' : State) :
  on_event env fsys ev s = Next s' ->
  current_shader s' <> current_shader s ->
  reload_requested s' = 1 /\
  ev_type ev = EV_KEY /\ ev_value ev = 1 /\
  (ev_code ev = KEY_LEFT \/ ev_code ev = KEY_RIGHT).
Proof.
  unfold on_event.
  destruct (ev_type ev =? EV_KEY) eqn:E1; cbn [negb orb];
    [|intros Hx; injection Hx as <-; tauto].
  destruct (ev_value ev =? 1) eqn:E2; cbn [negb orb];
    [|intros Hx; injection Hx as <-; tauto].
  apply Z.eqb_eq in E1, E2.
  destruct (ev_code ev =? KEY_LEFT) eqn:E3.
  { apply Z.eqb_eq in E3.
    destruct (int_rem _ _) as [i|]; [|discriminate].
    destruct (shader_at _ _) as [sh|]; [|discriminate].
    intros Hx; injection Hx as <-. intros _. cbn. tauto. }
  destruct (ev_code ev =? KEY_RIGHT) eqn:E4.
  { apply Z.eqb_eq in E4.
    destruct (int_rem _ _) as [i|]; [|discriminate].
    destruct (shader_at _ _) as [sh|]; [|discriminate].
    intros Hx; injection Hx as <-. intros _. cbn. tauto. }
  destruct (ev_code ev =? KEY_F).
  { pose proof (find_display_port_fields fsys (printf MsgToggling s)) as Hf.
    destruct (find_display_port _ _) as [[port|] s1]; cbn in Hf;
      destruct Hf as (Hc & _);
      [destruct (fs_write fsys port)|];
      intros Hx; injection Hx as <-; intros Hne; exfalso; apply Hne; exact Hc. }
  destruct ((ev_code ev =? KEY_ESC) || (ev_code ev =? KEY_Q)); [discriminate|].
  intros Hx; injection Hx as <-. tauto.
Qed.

Lemma reload_keeps_index (env : Env) (inp : FrameInput) (s : State) :
  index_ok env s ->
  current_shader (state_of (reload env inp s)) = current_shader s.
Proof.
  intros Hi.
  destruct (reload_outcome env inp s Hi) as [sh [_ Hr]].
  destruct (reload env inp s) as [s'|s'|code s'|s']; cbn [state_of].
  - destruct Hr as (_ & _ & _ & _ & _ & _ & _ & _ & _ & _ & _ & (Hc & _) & _). exact Hc.
  - destruct Hr as [_ ->].
    destruct (destroy_old_spec s) as (_ & _ & _ & Hc & _). exact Hc.
  - destruct Hr as (_ & _ & _ & _ & (Hc & _) & _). exact Hc.
  - contradiction.
Qed.

Lemma matches_after_frame (s s1 s' : State) :
  built_for s' = current_shader s ->
  reload_requested s1 = 0 -> current_shader s1 = current_shader s ->
  index_change_flagged s1 s' ->
  pipeline_matches_index s'.
Proof.
  intros Hb Hr Hc [[F1 F2]|F] _ Hr'; congruence.
Qed.

Lemma iteration_matches (env : Env) (inp : FrameInput) (s : State) :
  registry_ok env -> index_ok env s -> pipeline_matches_index s ->
  match iteration env inp s with
  | Next s' =>
      index_ok env s' /\ pipeline_matches_index s' /\
      built_for s' = current_shader s /\ pipeline s' <> VK_NULL_HANDLE /\
      (current_shader s' <> current_shader s -> reload_requested s' = 1) /\
      grows (fun e => forall h, e = EvCmdBindPipeline h -> h = pipeline s') s s'
  | Again s' =>
      index_ok env s' /\ pipeline_matches_index s' /\
      grows (fun e => forall h, e <> EvCmdBindPipeline h) s s'
  | Exited _ _ => True
  | Undefined _ => False
  end.
Proof.
  intros Hreg Hi Hinv.
  pose proof (iteration_outcome env inp s Hreg Hi) as Ho.
  destruct (iteration env inp s) as [s'|s'|code s'|s']; [| |exact I|exact Ho].
  - destruct Ho as (Hi' & (s1 & Hg1 & Hg2 & Hcase & Hr1 & Hc1 & Hfl) & _).
    assert (Hb : built_for s' = current_shader s /\ pipeline s' <> VK_NULL_HANDLE).
    { destruct Hcase as [(Hn & Hp & Hb)|(Hn & Hb & Hp)]; [|split; assumption].
      unfold needs_reload in Hn. apply orb_false_elim in Hn. destruct Hn as [Hn1 Hn2].
      apply negb_false_iff, Z.eqb_eq in Hn1. apply Z.eqb_neq in Hn2.
      split; [rewrite Hb; apply Hinv; assumption|congruence]. }
    destruct Hb as [Hb Hp].
    split; [exact Hi'|].
    split; [exact (matches_after_frame s s1 s' Hb Hr1 Hc1 Hfl)|].
    split; [exact Hb|]. split; [exact Hp|].
    split; [intros Hne; destruct Hfl as [[F1 F2]|F]; [congruence|exact F]|].
    eapply grows_trans.
    + eapply grows_weaken; [|exact Hg1]. cbv beta.
      intros e He h ->. cbn in He. contradiction.
    + eapply grows_weaken; [|exact Hg2]. cbv beta.
      intros e He h ->. cbn in He. exact He.
  - destruct Ho as (Hi' & Hg & _ & _ & Hc & Hr & Hp & Hb & _).
    split; [exact Hi'|]. split.
    + unfold pipeline_matches_index in *. rewrite Hp, Hr, Hb, Hc. exact Hinv.
    + eapply grows_weaken; [|exact Hg]. cbv beta.
      intros e He h ->. cbn in He. contradiction.
Qed.

(** C10.  In the loop, an event handler that changes the index also sets
    the reload flag, and it is the handler of a previous or next press; the
    reload block does not change the index, and a whole pass that ends with
    another index ends with the flag set.  So the following holds at every
    loop head once it holds at the first, as it does when [main] enters the
    loop: if there is a pipeline and the flag is clear, the pipeline was
    built for the current index.  And every pass that reaches the draw
    binds a pipeline that was built for the index found at the head of that
    pass. *)
Theorem C10_index_change_forces_rebuild (env : Env) (s : State) :
  registry_ok env -> index_ok env s -> pipeline_matches_index s ->
  (forall fsys ev s',
     on_event env fsys ev s = Next s' ->
     current_shader s' <> current_shader s ->
     reload_requested s' = 1 /\
     ev_type ev = EV_KEY /\ ev_value ev = 1 /\
     (ev_code ev = KEY_LEFT \/ ev_code ev = KEY_RIGHT)) /\
  (forall inp, current_shader (state_of (reload env inp s)) = current_shader s) /\
  (forall inp s',
     iteration env inp s = Next s' ->
     pipeline_matches_index s' /\
     built_for s' = current_shader s /\ pipeline s' <> VK_NULL_HANDLE /\
     (current_shader s' <> current_shader s -> reload_requested s' = 1) /\
     In (EvCmdDraw 6 1 0 0) (trace s') /\
     grows (fun e => forall h, e = EvCmdBindPipeline h -> h = pipeline s') s s') /\
  (forall inputs s',
     main_loop env inputs s = Next s' -> pipeline_matches_index s').
Proof.
  intros Hreg Hi Hinv. split; [|split; [|split]].
  - intros fsys ev s'. apply on_event_moves_index.
  - intros inp. apply reload_keeps_index. exact Hi.
  - intros inp s' Hit.
    pose proof (iteration_matches env inp s Hreg Hi Hinv) as Hm.
    pose proof (iteration_outcome env inp s Hreg Hi) as Ho.
    rewrite Hit in Hm, Ho.
    destruct Hm as (_ & H1 & H2 & H3 & H3' & H4).
    destruct Ho as (_ & _ & Hd & _).
    repeat (split; [assumption|]). assumption.
  - intros inputs. revert s Hi Hinv.
    induction inputs as [|inp rest IH]; intros s Hi Hinv s' Hml.
    + cbn in Hml. injection Hml as <-. exact Hinv.
    + cbn [main_loop] in Hml.
      pose proof (iteration_matches env inp s Hreg Hi Hinv) as Hm.
      destruct (iteration env inp s) as [s1|s1|code s1|s1]; try discriminate Hml.
      * destruct Hm as (Hi1 & Hinv1 & _). exact (IH s1 Hi1 Hinv1 s' Hml).
      * destruct Hm as (Hi1 & Hinv1 & _). exact (IH s1 Hi1 Hinv1 s' Hml).
Qed.

(* ================================================================== *)
(** * Claim C4: the shape of the pipeline is fixed *)

Lemma pipeline_create_info_shape (env : Env) (vmod fmod : handle) :
  erase_modules (pipeline_create_info env vmod fmod) =
  fixed_shape (W env) (H env) (pipelineLayout env) (the_renderPass env).
Proof. reflexivity. Qed.

Lemma reload_call_shape (env : Env) (s : State) (e : Event) :
  reload_call env s e -> shape_ok env e.
Proof.
  destruct e; cbn; try tauto.
  intros (vmod & fmod & ->). apply pipeline_create_info_shape.
Qed.

Lemma frame_call_shape (env : Env) (p : handle) (e : Event) :
  frame_call env p e -> shape_ok env e.
Proof. destruct e; cbn; tauto. Qed.

Lemma poll_call_shape (env : Env) (e : Event) : poll_call e -> shape_ok env e.
Proof. destruct e; cbn; tauto. Qed.

Lemma iteration_shape (env : Env) (inp : FrameInput) (s : State) :
  registry_ok env -> index_ok env s ->
  grows (shape_ok env) s (state_of (iteration env inp s)) /\
  match iteration env inp s with
  | Next s' | Again s' => index_ok env s'
  | Exited _ _ => True
  | Undefined _ => False
  end.
Proof.
  intros Hreg Hi.
  pose proof (iteration_outcome env inp s Hreg Hi) as Ho.
  destruct (iteration env inp s) as [s'|s'|code s'|s']; cbn [state_of].
  - destruct Ho as (Hi' & (s1 & Hg1 & Hg2 & _) & _). split; [|exact Hi'].
    eapply grows_trans.
    + eapply grows_weaken; [|exact Hg1]. apply reload_call_shape.
    + eapply grows_weaken; [|exact Hg2]. apply frame_call_shape.
  - destruct Ho as (Hi' & Hg & _). split; [|exact Hi'].
    eapply grows_weaken; [|exact Hg]. apply reload_call_shape.
  - split; [|exact I].
    destruct Ho as (_ & [(_ & _ & _ & Hg)|(_ & _ & Hg)]).
    + eapply grows_weaken; [|exact Hg]. cbv beta. intros e [He|He].
      * eapply reload_call_shape; exact He.
      * apply poll_call_shape; exact He.
    + eapply grows_weaken; [|exact Hg]. cbv beta. intros e [[p [He|He]] _].
      * eapply reload_call_shape; exact He.
      * eapply frame_call_shape; exact He.
  - contradiction.
Qed.

Lemma exact_from_sound (k : nat) :
  forall z, exact_from k z = true ->
  forall w, z <= w < z + Z.of_nat k -> float_to_Z (F32.of_Z w) = Some w.
Proof.
  induction k as [|k IH]; intros z Hk w Hw; [lia|].
  cbn [exact_from] in Hk. apply andb_prop in Hk. destruct Hk as [Hz Hrest].
  destruct (Z.eq_dec w z) as [->|Hne].
  - destruct (float_to_Z (F32.of_Z z)) as [v|]; [|discriminate].
    apply Z.eqb_eq in Hz. congruence.
  - apply (IH (z + 1) Hrest). lia.
Qed.

Lemma exact_uint16 : exact_from (Z.to_nat 65536) 0 = true.
Proof. vm_compute. reflexivity. Qed.

(** A display dimension, which DRM holds on 16 bits, converts to [float]
    without rounding. *)
Lemma float_of_uint16_exact (w : Z) :
  0 <= w < 65536 -> float_to_Z (F32.of_Z w) = Some w.
Proof.
  intros Hw. apply (exact_from_sound (Z.to_nat 65536) 0 exact_uint16).
  rewrite Z2Nat.id; lia.
Qed.

(** C4.  Whatever the state the loop is in and whatever happens during the
    passes it makes (which programs are selected, which loads fail), every
    pipeline it creates has, apart from its two stage modules, the one
    fixed set of parameters for the display size: no vertex bindings or
    attributes, triangle list, one viewport and one scissor over the whole
    display, no depth/stencil state, one colour attachment with blending
    off; every draw is of 6 vertices and 1 instance; and the viewport
    dimensions are the display's exactly. *)
Theorem C4_fixed_pipeline_shape (env : Env) (inputs : list FrameInput) (s : State) :
  registry_ok env -> index_ok env s ->
  grows (shape_ok env) s (state_of (main_loop env inputs s)) /\
  (forall vmod fmod vmod' fmod',
     erase_modules (pipeline_create_info env vmod fmod) =
     erase_modules (pipeline_create_info env vmod' fmod')) /\
  (0 <= W env < 65536 -> 0 <= H env < 65536 ->
   map (fun v => (float_to_Z (vp_x v), float_to_Z (vp_y v),
                  float_to_Z (vp_width v), float_to_Z (vp_height v)))
       (pViewports (fixed_shape (W env) (H env) (pipelineLayout env) (the_renderPass env)))
   = [ (Some 0, Some 0, Some (W env), Some (H env)) ]).
Proof.
  intros Hreg Hi. split; [|split].
  - revert s Hi. induction inputs as [|inp rest IH]; intros s Hi.
    + cbn. apply grows_refl.
    + cbn [main_loop].
      destruct (iteration_shape env inp s Hreg Hi) as [Hg Hi'].
      destruct (iteration env inp s) as [s'|s'|code s'|s']; cbn [state_of] in *;
        try exact Hg; try contradiction.
      * eapply grows_trans; [exact Hg|apply IH; exact Hi'].
      * eapply grows_trans; [exact Hg|apply IH; exact Hi'].
  - intros. rewrite !pipeline_create_info_shape. reflexivity.
  - intros HW HH. cbn [fixed_shape pViewports map vp_x vp_y vp_width vp_height].
    rewrite (float_of_uint16_exact _ HW), (float_of_uint16_exact _ HH).
    reflexivity.
Qed.

(* ================================================================== *)
(** * Claim C3, continued: the epoch over a pass and over a run *)

Lemma iteration_start (env : Env) (inp : FrameInput) (s : State) :
  registry_ok env -> index_ok env s ->
  start (state_of (iteration env inp s)) =
    (if needs_reload s then
       match reload env inp (arrive inp s) with
       | Next _ => clock_reload inp
       | _ => start s
       end
     else start s) /\
  pipeline (state_of (iteration env inp s)) =
    (if needs_reload s then
       match reload env inp (arrive inp s) with
       | Next s1 => pipeline s1
       | _ => pipeline s
       end
     else pipeline s).
Proof.
  intros Hreg Hi.
  destruct (iteration_cases env inp s Hi) as [sh [Hsh Hcases]].
  destruct Hcases as [[Hn Hit]|[(Hn & s1 & Hr & Hit & _ & _ & _ & Hb & _ & _ & Hst & _ & Hk & _)
                     |[(Hn & _ & Hr & Hit)|(Hn & s1 & Hr & Hit & Hst & _ & Hk & _)]]];
    rewrite Hn, Hit; try rewrite Hr; cbn [state_of].
  - pose proof (frame_outcome env inp (arrive inp s) Hreg Hi) as Hf.
    destruct (frame env inp (arrive inp s)) as [s'|s'|c s'|s']; try contradiction.
    + destruct Hf as (_ & _ & _ & _ & _ & _ & (K1 & _ & _ & K & _) & _).
      split; [exact K|exact K1].
    + destruct Hf as (_ & (K1 & _ & _ & K & _) & _). split; [exact K|exact K1].
  - assert (Hi1 : index_ok env s1).
    { destruct Hk as (Hc & _). unfold index_ok. rewrite Hc. exact Hi. }
    pose proof (frame_outcome env inp s1 Hreg Hi1) as Hf.
    destruct (frame env inp s1) as [s'|s'|c s'|s']; try contradiction.
    + destruct Hf as (_ & _ & _ & _ & _ & _ & (K1 & _ & _ & K & _) & _).
      cbn [state_of]. split; congruence.
    + destruct Hf as (_ & (K1 & _ & _ & K & _) & _). cbn [state_of]. split; congruence.
  - destruct (destroy_old_spec (arrive inp s))
      as (_ & _ & _ & _ & _ & Kp & _ & _ & K & _). split; [exact K|exact Kp].
  - split; [exact Hst|].
    pose proof (reload_outcome env inp (arrive inp s) Hi) as [sh2 [_ Hro]].
    rewrite Hr in Hro. clear - Hro Hr.
    unfold reload in Hr. cbv zeta in Hr.
    destruct (destroy_old_spec (arrive inp s))
      as (_ & _ & _ & Kc & _ & Kp & _).
    cbv zeta in Kc, Kp.
    destruct (shader_at (shaders env) (current_shader (destroy_old (arrive inp s))))
      as [sh|]; [|discriminate Hr].
    unfold load_spv, vk_check, new_object in Hr.
    destruct (fs_read (fs inp) (vert_path sh)); [|discriminate Hr].
    destruct (fs_read (fs inp) (frag_path sh)); [|discriminate Hr].
    destruct (r_vm inp =? VK_SUCCESS); cbv beta iota zeta in Hr;
      [|injection Hr as <-; exact Kp].
    destruct (r_fm inp =? VK_SUCCESS); cbv beta iota zeta in Hr;
      [|injection Hr as <-; exact Kp].
    destruct (r_pipe inp =? VK_SUCCESS); cbv beta iota zeta in Hr;
      [discriminate Hr|injection Hr as <-; exact Kp].
Qed.

(** Over a run, the epoch of a state that has a pipeline satisfies whatever
    holds of it at the start and of every reload-time clock reading. *)
Lemma run_epoch (env : Env) (P : timespec -> Prop) (inputs : list FrameInput) :
  registry_ok env ->
  (forall inp, In inp inputs -> P (clock_reload inp)) ->
  forall s, index_ok env s ->
  (pipeline s <> VK_NULL_HANDLE -> P (start s)) ->
  forall s', main_loop env inputs s = Next s' ->
  pipeline s' <> VK_NULL_HANDLE -> P (start s').
Proof.
  intros Hreg. induction inputs as [|inp rest IH]; intros HP s Hi Hs s' Hml.
  - cbn in Hml. injection Hml as <-. exact Hs.
  - cbn [main_loop] in Hml.
    destruct (iteration_start env inp s Hreg Hi) as [Hst Hpl].
    pose proof (iteration_outcome env inp s Hreg Hi) as Ho.
    pose proof (reload_outcome env inp (arrive inp s) Hi) as [sh [_ Hro]].
    assert (Hstep : forall s1, state_of (iteration env inp s) = s1 ->
                    pipeline s1 <> VK_NULL_HANDLE -> P (start s1)).
    { intros s1 <- Hp1. rewrite Hst. rewrite Hpl in Hp1.
      destruct (needs_reload s) eqn:Hn.
      - destruct (reload env inp (arrive inp s)) as [s2|s2|c s2|s2];
          try (apply Hs; exact Hp1).
        apply HP. left. reflexivity.
      - apply Hs. exact Hp1. }
    destruct (iteration env inp s) as [s1|s1|code s1|s1]; try discriminate Hml.
    + destruct Ho as (Hi1 & _).
      apply (IH (fun i Hin => HP i (or_intror Hin)) s1 Hi1 (Hstep s1 eq_refl) s' Hml).
    + destruct Ho as (Hi1 & _).
      apply (IH (fun i Hin => HP i (or_intror Hin)) s1 Hi1 (Hstep s1 eq_refl) s' Hml).
Qed.

(** C3, amended.  The epoch is the clock reading taken when a reload
    completes: a pass sets it to that reading exactly when its reload block
    runs to the end, and leaves it alone otherwise; in a run that enters
    the loop without a pipeline, the epoch of any state that has one is
    such a reading, never the reading taken at process start.  The time
    written into the uniform block of a frame is the single-precision value
    of (seconds since epoch) + (nanoseconds since epoch) / 1e9f for the
    clock reading of that frame against this epoch; on the frame of the
    pass that reloaded, the two readings are the ones taken one after the
    other in that pass.  The value is exactly 0 when the reading equals the
    epoch.  (The rounded value need not increase from one frame to the
    next.) *)
Theorem C3_elapsed_time_amended (env : Env) (inp : FrameInput) (s : State) :
  registry_ok env -> index_ok env s ->
  start (state_of (iteration env inp s)) =
    (if needs_reload s then
       match reload env inp (arrive inp s) with
       | Next _ => clock_reload inp
       | _ => start s
       end
     else start s) /\
  (forall s', iteration env inp s = Next s' ->
     exists ubo,
       uboMem s' = Some ubo /\
       iTime ubo = elapsed (start s') (clock_frame inp) /\
       (needs_reload s = true ->
        iTime ubo = elapsed (clock_reload inp) (clock_frame inp))) /\
  (forall t, elapsed t t = F32.zero) /\
  (forall inputs s',
     pipeline s = VK_NULL_HANDLE ->
     main_loop env inputs s = Next s' -> pipeline s' <> VK_NULL_HANDLE ->
     exists inp', In inp' inputs /\ start s' = clock_reload inp').
Proof.
  intros Hreg Hi.
  destruct (iteration_cases env inp s Hi) as [sh [Hsh Hcases]].
  split; [exact (proj1 (iteration_start env inp s Hreg Hi))|].
  split; [|split; [exact elapsed_same|]].
  - intros s' Hnext.
    destruct Hcases as [[Hn Hit]|[(Hn & s1 & Hr & Hit & _ & _ & _ & Hb & _ & _ & Hst & _ & Hk & _)
                       |[(Hn & _ & Hr & Hit)|(Hn & s1 & Hr & Hit & Hst & _)]]];
      rewrite Hit in Hnext; try discriminate Hnext.
    + pose proof (frame_outcome env inp (arrive inp s) Hreg Hi) as Hf.
      rewrite Hnext in Hf.
      destruct Hf as (_ & _ & Hu & _ & _ & _ & (_ & _ & _ & K & _) & _).
      eexists. split; [exact Hu|]. split; [rewrite K; reflexivity|].
      intros Hn'. congruence.
    + assert (Hi1 : index_ok env s1).
      { destruct Hk as (Hc & _). unfold index_ok. rewrite Hc. exact Hi. }
      pose proof (frame_outcome env inp s1 Hreg Hi1) as Hf.
      rewrite Hnext in Hf.
      destruct Hf as (_ & _ & Hu & _ & _ & _ & (_ & _ & _ & K & _) & _).
      eexists. split; [exact Hu|]. split; [rewrite K; reflexivity|].
      intros _. rewrite <- Hst. reflexivity.
  - intros inputs s' Hnull Hml Hp'.
    apply (run_epoch env (fun t => exists inp', In inp' inputs /\ t = clock_reload inp')
                     inputs Hreg) with (s := s); try assumption.
    + intros i Hin. exists i. split; [exact Hin|reflexivity].
    + intros Hp. contradiction.
Qed.

(* ================================================================== *)
(** * Claim C5: the row copy *)

Lemma memcpy_inside (dst src : mem) (doff soff n x : Z) :
  0 <= x < n -> memcpy dst doff src soff n (doff + x) = src (soff + x).
Proof.
  intros Hx. unfold memcpy.
  replace (doff <=? doff + x) with true by (symmetry; apply Z.leb_le; lia).
  replace (doff + x <? doff + n) with true by (symmetry; apply Z.ltb_lt; lia).
  cbn. f_equal. lia.
Qed.

Lemma memcpy_outside (dst src : mem) (doff soff n a : Z) :
  ~ (doff <= a < doff + n) -> memcpy dst doff src soff n a = dst a.
Proof.
  intros Ha. unfold memcpy.
  destruct (doff <=? a) eqn:E1; [|reflexivity].
  destruct (a <? doff + n) eqn:E2; [|reflexivity].
  apply Z.leb_le in E1. apply Z.ltb_lt in E2. lia.
Qed.

Lemma offset_in_range (y n stride bound : Z) :
  0 <= y < n -> 0 <= stride -> n * stride <= bound -> 0 < bound ->
  0 <= y * stride < bound.
Proof. intros Hy Hs Hn Hb. nia. Qed.

(** The copy loop from row [y] on, when no offset wraps around. *)
Lemma copy_rows_spec (width gbmStride pitch : Z) (rt : mem) (rows : nat) :
  0 <= width -> width * 4 <= gbmStride -> gbmStride < 2 ^ 32 -> 0 <= pitch ->
  forall (y : Z) (gbm : mem),
    0 <= y ->
    (y + Z.of_nat rows) * gbmStride <= 2 ^ 32 ->
    (y + Z.of_nat rows) * pitch <= 2 ^ 64 ->
    let out := copy_rows rows y width gbmStride pitch gbm rt in
    (forall r x, y <= r < y + Z.of_nat rows -> 0 <= x < width * 4 ->
                 out (r * gbmStride + x) = rt (r * pitch + x)) /\
    (forall a, (forall r, y <= r < y + Z.of_nat rows ->
                          ~ (r * gbmStride <= a < r * gbmStride + width * 4)) ->
               out a = gbm a).
Proof.
  intros Hw Hws Hs32 Hp.
  induction rows as [|rows IH]; intros y gbm Hy Hd Hsrc.
  - cbn. split; [intros r x Hr; lia|reflexivity].
  - cbn [copy_rows].
    assert (Hy1 : 0 <= y * gbmStride < 2 ^ 32).
    { apply (offset_in_range y (y + Z.of_nat (S rows))); lia. }
    assert (Hy2 : 0 <= y * pitch < 2 ^ 64).
    { apply (offset_in_range y (y + Z.of_nat (S rows))); lia. }
    unfold u32_mul, u64_mul.
    rewrite (wrap_u32_small (y * gbmStride)) by exact Hy1.
    rewrite (wrap_u64_small (y * pitch)) by exact Hy2.
    rewrite (wrap_u32_small (width * 4)) by lia.
    destruct (IH (y + 1)
                (memcpy gbm (y * gbmStride) rt (y * pitch) (width * 4)))
      as [IH1 IH2]; try lia.
    split.
    + intros r x Hr Hx.
      destruct (Z.eq_dec r y) as [->|Hne].
      * rewrite IH2.
        { apply memcpy_inside. exact Hx. }
        intros r Hr'. nia.
      * apply IH1; lia.
    + intros a Ha. rewrite IH2.
      * apply memcpy_outside. apply Ha. lia.
      * intros r Hr. apply Ha. lia.
Qed.

(** C5, amended.  When the scanout stride is at least W*4 bytes and no row
    offset leaves the range of the integer type that computes it (H rows of
    the scanout stride fit in 32 bits, H rows of the render-surface pitch
    fit in 64 bits), the per-frame copy moves exactly the W*4 bytes of every
    row y below H from offset y*pitch of the render surface to offset
    y*stride of the scanout mapping and writes no other byte of that
    mapping, whether or not the two strides are equal; and that is the copy
    a frame performs when the buffer is mapped. *)
Theorem C5_row_copy_amended (env : Env) (gbmStride : Z) (gbm rt : mem) :
  0 <= W env -> 0 <= H env ->
  W env * 4 <= gbmStride -> gbmStride < 2 ^ 32 ->
  H env * gbmStride <= 2 ^ 32 ->
  0 <= rowPitch env -> H env * rowPitch env <= 2 ^ 64 ->
  let out := copy_frame env gbmStride gbm rt in
  (forall y x, 0 <= y < H env -> 0 <= x < W env * 4 ->
               out (y * gbmStride + x) = rt (y * rowPitch env + x)) /\
  (forall a, (forall y, 0 <= y < H env ->
                        ~ (y * gbmStride <= a < y * gbmStride + W env * 4)) ->
             out a = gbm a) /\
  (forall inp s s',
     registry_ok env -> index_ok env s ->
     gbm_map inp = Some gbmStride -> iteration env inp s = Next s' ->
     gbmMem s' = copy_frame env gbmStride (gbmMem s) (rtMem s')).
Proof.
  intros HW HH Hws Hs32 Hd Hp Hsrc.
  destruct (copy_rows_spec (W env) gbmStride (rowPitch env) rt (Z.to_nat (H env))
              HW Hws Hs32 Hp 0 gbm) as [H1 H2];
    rewrite ?Z2Nat.id by lia; try lia.
  rewrite Z2Nat.id in H1, H2 by lia.
  split; [|split].
  - intros y x Hy Hx. apply H1; lia.
  - intros a Ha. apply H2. intros r Hr. apply Ha. lia.
  - intros inp s s' Hreg Hi Hmap Hit.
    pose proof (iteration_outcome env inp s Hreg Hi) as Ho.
    rewrite Hit in Ho. destruct Ho as (_ & _ & _ & _ & Hg & _).
    rewrite Hmap in Hg. rewrite Hg. f_equal.
    destruct (iteration_cases env inp s Hi) as [sh [_ Hc]].
    destruct Hc as [[_ Hit']|[(_ & s1 & _ & Hit' & _ & _ & _ & _ & _ & _ & _ & _ & Hk & _)
                   |[(_ & _ & _ & Hit')|(_ & s1 & _ & Hit' & _)]]];
      rewrite Hit' in Hit; try discriminate Hit.
    + pose proof (frame_outcome env inp (arrive inp s) Hreg Hi) as Hf.
      rewrite Hit in Hf. destruct Hf as (_ & _ & _ & Hrt & _). congruence.
    + assert (Hi1 : index_ok env s1).
      { destruct Hk as (Hc & _). unfold index_ok. rewrite Hc. exact Hi. }
      pose proof (frame_outcome env inp s1 Hreg Hi1) as Hf.
      rewrite Hit in Hf. destruct Hf as (_ & _ & _ & Hrt & _). congruence.
Qed.

(* ================================================================== *)
(** * Claim C6: which programs enter the registry *)

Lemma strrchr_split (c : ascii) (s : string) :
  forall pos, strrchr s c = Some pos ->
  s = (substring 0 pos s ++ tail_from pos s)%string /\
  String.length (substring 0 pos s) = pos.
Proof.
  induction s as [|a rest IH]; intros pos Hp; [discriminate|].
  cbn [strrchr] in Hp.
  destruct (strrchr rest c) as [i|].
  - injection Hp as <-. destruct (IH i eq_refl) as [H1 H2].
    cbn [substring tail_from append String.length].
    split; [rewrite <- H1; reflexivity|rewrite H2; reflexivity].
  - destruct (Ascii.eqb a c); [|discriminate]. injection Hp as <-.
    cbn. split; reflexivity.
Qed.

Lemma strrchr_app (c : ascii) (t : string) (i : nat) (nm : string) :
  strrchr t c = Some i ->
  strrchr (nm ++ t) c = Some (String.length nm + i)%nat.
Proof.
  intros Ht. induction nm as [|a nm IH]; [exact Ht|].
  cbn [append strrchr String.length]. rewrite IH. reflexivity.
Qed.

Lemma tail_from_app (nm t : string) :
  tail_from (String.length nm) (nm ++ t) = t.
Proof. induction nm as [|a nm IH]; [destruct t; reflexivity|exact IH]. Qed.

Lemma substring_app (nm t : string) :
  substring 0 (String.length nm) (nm ++ t) = nm.
Proof.
  induction nm as [|a nm IH]; [destruct t; reflexivity|].
  cbn [append String.length substring]. rewrite IH. reflexivity.
Qed.

(** When the body of the [while] loop builds a candidate from an entry. *)
Lemma candidate_iff (dir : string) (entry : dirent) (info : ShaderInfo) :
  candidate dir entry = Some info <->
  d_type entry = DT_REG /\
  d_name entry = (name info ++ ".frag")%string /\
  Z.of_nat (String.length (name info)) < 256 /\
  vert_path info = snprintf 512 (dir ++ "/" ++ name info ++ ".vert.spv") /\
  frag_path info = snprintf 512 (dir ++ "/" ++ name info ++ ".frag.spv").
Proof.
  unfold candidate. split.
  - destruct (d_type entry =? DT_REG) eqn:Et; cbn [negb]; [|discriminate].
    apply Z.eqb_eq in Et.
    destruct (strrchr (d_name entry) ".") as [pos|] eqn:Ep; [|discriminate].
    destruct (tail_from pos (d_name entry) =? ".frag")%string eqn:Ee;
      cbn [negb]; [|discriminate].
    apply String.eqb_eq in Ee.
    destruct (256 <=? Z.of_nat pos) eqn:El; [discriminate|].
    apply Z.leb_gt in El.
    intros Hx. injection Hx as <-. cbn [name vert_path frag_path].
    destruct (strrchr_split _ _ _ Ep) as [H1 H2].
    unfold strncpy. rewrite H2.
    split; [exact Et|]. split; [rewrite Ee in H1; exact H1|].
    split; [exact El|]. split; reflexivity.
  - intros (Et & Hn & Hl & Hv & Hf).
    rewrite Et. change (negb (DT_REG =? DT_REG)) with false. cbv iota.
    rewrite Hn.
    rewrite (strrchr_app "." ".frag" 0 (name info) eq_refl).
    rewrite Nat.add_0_r, tail_from_app.
    change (negb (".frag" =? ".frag")%string) with false. cbv iota.
    replace (256 <=? Z.of_nat (String.length (name info))) with false
      by (symmetry; apply Z.leb_gt; exact Hl).
    unfold strncpy. rewrite substring_app.
    destruct info as [n v f]. cbn [name vert_path frag_path] in *.
    rewrite Hv, Hf. reflexivity.
Qed.

(** The loop over the entries of one directory: what it appends. *)
Lemma scan_entries_spec (fsys : FileSystem) (dir : string) (entries : list dirent) :
  forall reg,
    let out := scan_entries fsys dir entries reg in
    (exists added,
       out = (reg ++ added)%list /\
       forall info, In info added ->
         exists entry, In entry entries /\ candidate dir entry = Some info /\
                       fs_stat fsys (vert_path info) = true /\
                       fs_stat fsys (frag_path info) = true) /\
    (shader_count reg <= MAX_SHADERS -> shader_count out <= MAX_SHADERS) /\
    (shader_count out < MAX_SHADERS ->
     forall entry info,
       In entry entries -> candidate dir entry = Some info ->
       fs_stat fsys (vert_path info) = true ->
       fs_stat fsys (frag_path info) = true ->
       In info out).
Proof.
  induction entries as [|e rest IH]; intros reg.
  - cbn. split; [exists []; rewrite app_nil_r; split; [reflexivity|intros ? []]|].
    split; [tauto|intros _ ? ? []].
  - cbn [scan_entries].
    destruct (shader_count reg <? MAX_SHADERS) eqn:Efull; cbn [negb].
    2:{ apply Z.ltb_ge in Efull.
        split; [exists []; rewrite app_nil_r; split; [reflexivity|intros ? []]|].
        split; [tauto|]. intros Hlt. lia. }
    apply Z.ltb_lt in Efull.
    destruct (candidate dir e) as [cand|] eqn:Ec.
    + destruct (fs_stat fsys (vert_path cand) && fs_stat fsys (frag_path cand)) eqn:Es.
      * apply andb_prop in Es. destruct Es as [Es1 Es2].
        destruct (IH (reg ++ [cand])%list) as ((added & Hout & Hadd) & Hle & Hcomp).
        split; [|split].
        -- exists (cand :: added). split.
           ++ rewrite Hout, <- app_assoc. reflexivity.
           ++ intros info [<-|Hin].
              ** exists e. split; [left; reflexivity|]. repeat split; assumption.
              ** destruct (Hadd info Hin) as (en & H1 & H2).
                 exists en. split; [right; exact H1|exact H2].
        -- intros _. apply Hle. unfold shader_count in *.
           rewrite length_app. cbn [List.length]. lia.
        -- intros Hlt entry info [<-|Hin] Hc Hs1 Hs2.
           ++ rewrite Hout. apply in_or_app. left. apply in_or_app. right.
              left. congruence.
           ++ exact (Hcomp Hlt entry info Hin Hc Hs1 Hs2).
      * destruct (IH reg) as ((added & Hout & Hadd) & Hle & Hcomp).
        split; [|split].
        -- exists added. split; [exact Hout|].
           intros info Hin. destruct (Hadd info Hin) as (en & H1 & H2).
           exists en. split; [right; exact H1|exact H2].
        -- exact Hle.
        -- intros Hlt entry info [<-|Hin] Hc Hs1 Hs2.
           ++ assert (cand = info) by congruence. subst cand.
              rewrite Hs1, Hs2 in Es. discriminate.
           ++ exact (Hcomp Hlt entry info Hin Hc Hs1 Hs2).
    + destruct (IH reg) as ((added & Hout & Hadd) & Hle & Hcomp).
      split; [|split].
      * exists added. split; [exact Hout|].
        intros info Hin. destruct (Hadd info Hin) as (en & H1 & H2).
        exists en. split; [right; exact H1|exact H2].
      * exact Hle.
      * intros Hlt entry info [<-|Hin] Hc Hs1 Hs2.
        -- congruence.
        -- exact (Hcomp Hlt entry info Hin Hc Hs1 Hs2).
Qed.

Lemma accepted_in_iff (fsys : FileSystem) (dir : string) (info : ShaderInfo) :
  accepted_in fsys dir info <->
  exists entries entry,
    fs_opendir fsys dir = Some entries /\ In entry entries /\
    candidate dir entry = Some info /\
    fs_stat fsys (vert_path info) = true /\ fs_stat fsys (frag_path info) = true.
Proof.
  unfold accepted_in. split.
  - intros (entries & entry & Ho & Hin & H1 & H2 & H3 & H4 & H5 & H6 & H7).
    exists entries, entry. repeat (split; [assumption|]).
    split; [|split; assumption].
    apply candidate_iff. repeat split; assumption.
  - intros (entries & entry & Ho & Hin & Hc & H6 & H7).
    apply candidate_iff in Hc. destruct Hc as (H1 & H2 & H3 & H4 & H5).
    exists entries, entry. repeat (split; [assumption|]). assumption.
Qed.

(** One directory. *)
Lemma scan_shaders_spec (fsys : FileSystem) (dir : string) (reg : list ShaderInfo) :
  let out := scan_shaders fsys dir reg in
  (exists added, out = (reg ++ added)%list /\
                 forall info, In info added -> accepted_in fsys dir info) /\
  (shader_count reg <= MAX_SHADERS -> shader_count out <= MAX_SHADERS) /\
  (shader_count out < MAX_SHADERS ->
   forall info, accepted_in fsys dir info -> In info out).
Proof.
  unfold scan_shaders. cbv zeta.
  destruct (fs_opendir fsys dir) as [entries|] eqn:Eo.
  - destruct (scan_entries_spec fsys dir entries reg)
      as ((added & Hout & Hadd) & Hle & Hcomp).
    split; [|split].
    + exists added. split; [exact Hout|]. intros info Hin.
      apply accepted_in_iff. destruct (Hadd info Hin) as (en & H1 & H2 & H3 & H4).
      exists entries, en. repeat (split; [assumption|]). assumption.
    + exact Hle.
    + intros Hlt info Ha. apply accepted_in_iff in Ha.
      destruct Ha as (entries' & en & Ho & Hin & Hc & H6 & H7).
      assert (entries' = entries) by congruence. subst entries'.
      exact (Hcomp Hlt en info Hin Hc H6 H7).
  - split; [|split].
    + exists []. rewrite app_nil_r. split; [reflexivity|intros ? []].
    + tauto.
    + intros _ info Ha. apply accepted_in_iff in Ha.
      destruct Ha as (entries' & en & Ho & _). congruence.
Qed.

Lemma shader_count_app (l1 l2 : list ShaderInfo) :
  shader_count l1 <= shader_count (l1 ++ l2).
Proof. unfold shader_count. rewrite length_app. lia. Qed.

(** Several directories in turn. *)
Lemma scan_dirs_spec (fsys : FileSystem) (dirs : list string) :
  forall reg,
    let out := fold_left (fun r d => scan_shaders fsys d r) dirs reg in
    (exists added, out = (reg ++ added)%list /\
                   forall info, In info added ->
                                exists dir, In dir dirs /\ accepted_in fsys dir info) /\
    (shader_count reg <= MAX_SHADERS -> shader_count out <= MAX_SHADERS) /\
    (shader_count out < MAX_SHADERS ->
     forall dir info, In dir dirs -> accepted_in fsys dir info -> In info out).
Proof.
  induction dirs as [|d rest IH]; intros reg.
  - cbn. split; [exists []; rewrite app_nil_r; split; [reflexivity|intros ? []]|].
    split; [tauto|intros _ ? ? []].
  - cbn [fold_left].
    destruct (scan_shaders_spec fsys d reg) as ((a1 & Ho1 & Ha1) & Hle1 & Hc1).
    destruct (IH (scan_shaders fsys d reg)) as ((a2 & Ho2 & Ha2) & Hle2 & Hc2).
    cbv zeta in *.
    split; [|split].
    + exists (a1 ++ a2)%list. split.
      * rewrite Ho2, Ho1, app_assoc. reflexivity.
      * intros info Hin. apply in_app_or in Hin. destruct Hin as [Hin|Hin].
        -- exists d. split; [left; reflexivity|exact (Ha1 info Hin)].
        -- destruct (Ha2 info Hin) as (dir & Hd & Hacc).
           exists dir. split; [right; exact Hd|exact Hacc].
    + intros Hr. apply Hle2, Hle1, Hr.
    + intros Hlt dir info [<-|Hd] Hacc.
      * rewrite Ho2. apply in_or_app. left. apply Hc1; [|exact Hacc].
        pose proof (shader_count_app (scan_shaders fsys d reg) a2) as Hm.
        rewrite <- Ho2 in Hm. lia.
      * exact (Hc2 Hlt dir info Hd Hacc).
Qed.

(** C6, amended.  The registry never holds more than 256 programs.  A
    program description is in it only if one of the three search
    directories accepts it: the directory lists a regular file named
    <name>.frag, and [stat] succeeds on <dir>/<name>.vert.spv and
    <dir>/<name>.frag.spv in that same directory; and while the registry is
    not full, every description that a search directory accepts is in it.
    When nothing is found, [main] reports that no compiled shaders were
    found and returns 1. *)
Theorem C6_registry_eligibility_amended (fsys : FileSystem) :
  shader_count (scan_all_shaders fsys) <= MAX_SHADERS /\
  (forall info,
     In info (scan_all_shaders fsys) ->
     exists dir, In dir search_dirs /\ accepted_in fsys dir info) /\
  (shader_count (scan_all_shaders fsys) < MAX_SHADERS ->
   forall dir info,
     In dir search_dirs -> accepted_in fsys dir info ->
     In info (scan_all_shaders fsys)) /\
  (scan_all_shaders fsys = [] ->
   forall argv,
     main_select argv fsys =
     StartReturn 1 [MsgFound 0; MsgNoCompiledShaders; MsgSearched; MsgCompileHint]).
Proof.
  unfold scan_all_shaders.
  destruct (scan_dirs_spec fsys search_dirs []) as ((added & Hout & Hadd) & Hle & Hcomp).
  cbv zeta in *. split; [|split; [|split]].
  - apply Hle. unfold shader_count, MAX_SHADERS. cbn. lia.
  - intros info Hin. rewrite Hout in Hin. exact (Hadd info Hin).
  - exact Hcomp.
  - intros Hempty argv. unfold main_select, scan_all_shaders. cbv zeta.
    rewrite Hempty. reflexivity.
Qed.

(* ================================================================== *)
(** * The claims on concrete runs *)

Lemma demo_registry_ok : registry_ok demo_env.
Proof. unfold registry_ok, shader_count, MAX_SHADERS. cbn. lia. Defined.

Lemma demo_start_index_ok : index_ok demo_env demo_start.
Proof. unfold index_ok, shader_count. cbn. lia. Defined.

(** C1 as stated fails.  "a" is active (its pipeline is alive on the
    device) and the next key has selected "b" and requested a rebuild; the
    binaries of "b" cannot be read.  The pass ends at [continue], and by
    then the pipeline and both shader modules of "a" have been destroyed
    although no replacement was constructed. *)
Lemma C1_counterexample :
  pipeline cx1_active <> VK_NULL_HANDLE /\
  In (pipeline cx1_active) (live cx1_active) /\
  needs_reload cx1_active = true /\
  load_spv (fs cx1_missing) (vert_path (demo_shader "b")) = None /\
  exists s',
    iteration demo_env cx1_missing cx1_active = Again s' /\
    ~ In (pipeline cx1_active) (live s') /\
    ~ In (vm cx1_active) (live s') /\
    ~ In (fm cx1_active) (live s') /\
    live s' = [100; 101] /\
    trace s' = (trace cx1_active ++
                [EvDestroyPipeline 1002; EvDestroyShaderModule 1000;
                 EvDestroyShaderModule 1001;
                 EvPrintf (MsgFailedToLoad "b"); EvSleep 1])%list.
Proof.
  split; [vm_compute; discriminate|].
  split; [vm_compute; tauto|].
  split; [vm_compute; reflexivity|].
  split; [vm_compute; reflexivity|].
  eexists. split; [vm_compute; reflexivity|].
  vm_compute.
  repeat split; try reflexivity; intros [H|[H|H]]; try discriminate H; exact H.
Qed.

Lemma C1_witness :
  needs_reload cx1_active = true /\
  shader_at (shaders demo_env) (current_shader cx1_active) = Some (demo_shader "b") /\
  (load_spv (fs cx1_missing) (vert_path (demo_shader "b")) = None \/
   load_spv (fs cx1_missing) (frag_path (demo_shader "b")) = None) /\
  exists s',
    iteration demo_env cx1_missing cx1_active = Again s' /\
    trace s' = (trace cx1_active ++ destroy_events cx1_active ++
                [EvPrintf (MsgFailedToLoad (name (demo_shader "b"))); EvSleep 1])%list /\
    incl (live s') (live cx1_active) /\ next_handle s' = next_handle cx1_active /\
    current_shader s' = current_shader cx1_active /\
    reload_requested s' = reload_requested cx1_active /\
    start s' = start cx1_active /\ frames s' = frames cx1_active /\
    uboMem s' = uboMem cx1_active /\ rtMem s' = rtMem cx1_active /\
    gbmMem s' = gbmMem cx1_active /\
    kbd_queue s' = (kbd_queue cx1_active ++ arrivals cx1_missing)%list /\
    needs_reload s' = true.
Proof.
  assert (H1 : needs_reload cx1_active = true) by (vm_compute; reflexivity).
  assert (H2 : shader_at (shaders demo_env) (current_shader cx1_active)
               = Some (demo_shader "b")) by (vm_compute; reflexivity).
  assert (H3 : load_spv (fs cx1_missing) (vert_path (demo_shader "b")) = None \/
               load_spv (fs cx1_missing) (frag_path (demo_shader "b")) = None)
    by (left; vm_compute; reflexivity).
  split; [exact H1|]. split; [exact H2|]. split; [exact H3|].
  exact (C1_failed_load_amended demo_env cx1_missing cx1_active (demo_shader "b") H1 H2 H3).
Defined.

Lemma C2_witness :
  registry_ok demo_env /\ index_ok demo_env demo_start /\
  (exists s', on_event demo_env no_files (press KEY_LEFT) demo_start = Next s' /\
              current_shader s' = 1 /\ reload_requested s' = 1) /\
  (exists s', on_event demo_env no_files (press KEY_RIGHT) demo_start = Next s' /\
              current_shader s' = 1 /\ reload_requested s' = 1) /\
  (exists s', drain demo_env no_files (repeat (press KEY_RIGHT) 2) demo_start = Next s' /\
              current_shader s' = 0) /\
  (exists s', drain demo_env no_files (repeat (press KEY_LEFT) 2) demo_start = Next s' /\
              current_shader s' = 0).
Proof.
  split; [exact demo_registry_ok|]. split; [exact demo_start_index_ok|].
  exact (C2_index_stepping demo_env no_files demo_start
           demo_registry_ok demo_start_index_ok).
Defined.

(** C3 as stated fails.  With "a" loaded at (100 s, 31 ns) and no reload
    afterwards, two frames 16 ms apart some 83 hours later carry the same
    elapsed time, 300000.125 s: the value is not strictly increasing.  And
    two frames whose clock readings are 1 ns apart across a full second
    carry 1.0 and then 0.99999994: the value can even go down. *)
Lemma C3_counterexample :
  needs_reload cx3_s1 = false /\ needs_reload cx3_s2 = false /\
  start cx3_s3 = start cx3_s1 /\
  tv_sec (clock_frame cx3_in2) = tv_sec (clock_frame cx3_in3) /\
  tv_nsec (clock_frame cx3_in2) < tv_nsec (clock_frame cx3_in3) /\
  time_of cx3_s2 = F32.div (F32.of_Z 2400001) (F32.of_Z 8) /\
  time_of cx3_s3 = time_of cx3_s2 /\
  F32.ltb (time_of cx3_s2) (time_of cx3_s3) = false /\
  needs_reload cx3_s4 = false /\ start cx3_s5 = start cx3_s1 /\
  tv_sec (clock_frame cx3_in4) < tv_sec (clock_frame cx3_in5) /\
  time_of cx3_s4 = F32.one /\
  F32.ltb (time_of cx3_s5) (time_of cx3_s4) = true.
Proof. vm_compute. repeat split; reflexivity. Qed.

Lemma C3_witness :
  registry_ok demo_env /\ index_ok demo_env demo_start /\
  start (state_of (iteration demo_env cx3_in1 demo_start)) = clock_reload cx3_in1 /\
  (exists ubo, uboMem cx3_s1 = Some ubo /\
               iTime ubo = elapsed (clock_reload cx3_in1) (clock_frame cx3_in1)) /\
  elapsed (mkTimespec 100 31) (mkTimespec 100 31) = F32.zero /\
  (exists inp', In inp' [cx3_in1; cx3_in2] /\ start cx3_s2 = clock_reload inp').
Proof.
  split; [exact demo_registry_ok|]. split; [exact demo_start_index_ok|].
  destruct (C3_elapsed_time_amended demo_env cx3_in1 demo_start
              demo_registry_ok demo_start_index_ok) as (H1 & H2 & H3 & H4).
  assert (Hit : iteration demo_env cx3_in1 demo_start = Next cx3_s1)
    by (vm_compute; reflexivity).
  split; [rewrite H1; vm_compute; reflexivity|].
  split.
  - destruct (H2 cx3_s1 Hit) as (ubo & Hu & _ & Ht).
    exists ubo. split; [exact Hu|]. apply Ht. vm_compute. reflexivity.
  - split; [apply H3|].
    apply (H4 [cx3_in1; cx3_in2] cx3_s2).
    + reflexivity.
    + vm_compute. reflexivity.
    + vm_compute. discriminate.
Defined.

Lemma C4_witness :
  registry_ok demo_env /\ index_ok demo_env demo_start /\
  grows (shape_ok demo_env) demo_start
    (state_of (main_loop demo_env [cx1_first; cx1_missing; cx3_in3] demo_start)) /\
  (0 <= W demo_env < 65536 -> 0 <= H demo_env < 65536 ->
   map (fun v => (float_to_Z (vp_x v), float_to_Z (vp_y v),
                  float_to_Z (vp_width v), float_to_Z (vp_height v)))
       (pViewports (fixed_shape (W demo_env) (H demo_env) (pipelineLayout demo_env)
                                (the_renderPass demo_env)))
   = [ (Some 0, Some 0, Some (W demo_env), Some (H demo_env)) ]).
Proof.
  split; [exact demo_registry_ok|]. split; [exact demo_start_index_ok|].
  destruct (C4_fixed_pipeline_shape demo_env [cx1_first; cx1_missing; cx3_in3] demo_start
              demo_registry_ok demo_start_index_ok) as (H1 & _ & H3).
  split; [exact H1|exact H3].
Defined.

(** C5 as stated fails.  Both strides are at least W*4 = 4 bytes, but with
    a scanout stride of 2^31 the offset of row 2, computed on 32 bits, is 0:
    row 2 is copied over row 0, and the first visible pixel of the scanout
    buffer is not the first pixel of the render surface. *)
Lemma C5_counterexample :
  W cx5_env * 4 <= cx5_stride /\ W cx5_env * 4 <= rowPitch cx5_env /\
  0 <= 0 < H cx5_env /\ 0 <= 0 < W cx5_env * 4 /\
  u32_mul 2 cx5_stride = 0 /\
  copy_frame cx5_env cx5_stride blank cx5_rt (0 * cx5_stride + 0)
    = cx5_rt (2 * rowPitch cx5_env + 0) /\
  copy_frame cx5_env cx5_stride blank cx5_rt (0 * cx5_stride + 0)
    <> cx5_rt (0 * rowPitch cx5_env + 0).
Proof.
  vm_compute. repeat split; try reflexivity; discriminate.
Qed.

Lemma C5_witness :
  0 <= W demo_env /\ 0 <= H demo_env /\ W demo_env * 4 <= 32 /\ 32 < 2 ^ 32 /\
  H demo_env * 32 <= 2 ^ 32 /\ 0 <= rowPitch demo_env /\
  H demo_env * rowPitch demo_env <= 2 ^ 64 /\
  (forall y x, 0 <= y < H demo_env -> 0 <= x < W demo_env * 4 ->
     copy_frame demo_env 32 blank cx5_rt (y * 32 + x)
     = cx5_rt (y * rowPitch demo_env + x)).
Proof.
  assert (H1 : 0 <= W demo_env) by (cbn; lia).
  assert (H2 : 0 <= H demo_env) by (cbn; lia).
  assert (H3 : W demo_env * 4 <= 32) by (cbn; lia).
  assert (H4 : 32 < 2 ^ 32) by (cbn; lia).
  assert (H5 : H demo_env * 32 <= 2 ^ 32) by (cbn; lia).
  assert (H6 : 0 <= rowPitch demo_env) by (cbn; lia).
  assert (H7 : H demo_env * rowPitch demo_env <= 2 ^ 64) by (cbn; lia).
  repeat (split; [assumption|]).
  exact (proj1 (C5_row_copy_amended demo_env 32 blank cx5_rt H1 H2 H3 H4 H5 H6 H7)).
Defined.

(** C6 as stated fails.  Both compiled binaries of "a" exist in the
    current directory, yet the registry is empty, because the scan looks
    for a file named a.frag first; [main] then returns 1. *)
Lemma C6_counterexample :
  In "." search_dirs /\
  fs_stat cx6_fs "./a.vert.spv" = true /\ fs_stat cx6_fs "./a.frag.spv" = true /\
  scan_all_shaders cx6_fs = [] /\
  find_shader_by_name (scan_all_shaders cx6_fs) "a" = -1 /\
  main_select ["metalshader"; "a"] cx6_fs
    = StartReturn 1 [MsgFound 0; MsgNoCompiledShaders; MsgSearched; MsgCompileHint].
Proof.
  split; [left; reflexivity|]. vm_compute. repeat split; reflexivity.
Qed.

Lemma demo_accepted_a : accepted_in demo_fs "." (demo_shader "a").
Proof.
  unfold accepted_in.
  exists [ mkDirent DT_REG "a.frag"; mkDirent DT_REG "a.vert.spv";
           mkDirent DT_REG "a.frag.spv"; mkDirent DT_REG "b.frag";
           mkDirent DT_REG "b.vert.spv"; mkDirent DT_REG "b.frag.spv" ],
         (mkDirent DT_REG "a.frag").
  split; [reflexivity|]. split; [left; reflexivity|].
  split; [reflexivity|]. split; [reflexivity|].
  split; [vm_compute; reflexivity|].
  repeat split; reflexivity.
Defined.

Lemma C6_witness :
  shader_count (scan_all_shaders demo_fs) < MAX_SHADERS /\
  In "." search_dirs /\ accepted_in demo_fs "." (demo_shader "a") /\
  In (demo_shader "a") (scan_all_shaders demo_fs) /\
  (scan_all_shaders cx6_fs = [] /\
   main_select ["metalshader"] cx6_fs
   = StartReturn 1 [MsgFound 0; MsgNoCompiledShaders; MsgSearched; MsgCompileHint]).
Proof.
  assert (H1 : shader_count (scan_all_shaders demo_fs) < MAX_SHADERS)
    by (vm_compute; reflexivity).
  assert (H2 : In "." search_dirs) by (left; reflexivity).
  assert (H3 : scan_all_shaders cx6_fs = []) by (vm_compute; reflexivity).
  split; [exact H1|]. split; [exact H2|]. split; [exact demo_accepted_a|].
  split.
  - exact (proj1 (proj2 (proj2 (C6_registry_eligibility_amended demo_fs)))
             H1 "." (demo_shader "a") H2 demo_accepted_a).
  - split; [exact H3|].
    exact (proj2 (proj2 (proj2 (C6_registry_eligibility_amended cx6_fs)))
             H3 ["metalshader"]).
Defined.

Lemma C7_witness :
  registry_ok demo_env /\ 0 <= kbd_fd demo_env /\
  (exists s',
     check_keyboard demo_env no_files
       (set_kbd_queue [mkEvent EV_KEY KEY_RIGHT 0; mkEvent EV_KEY 30 1;
                       mkEvent 2 KEY_Q 1; press KEY_RIGHT] demo_start) = Next s' /\
     kbd_queue s' = [] /\ current_shader s' = 1) /\
  on_event demo_env no_files (mkEvent EV_KEY 30 1) demo_start = Next demo_start.
Proof.
  assert (H1 : 0 <= kbd_fd demo_env) by (cbn; lia).
  split; [exact demo_registry_ok|]. split; [exact H1|].
  destruct (C7_poll_drains_and_filters demo_env no_files demo_registry_ok H1)
    as [Hdrain Hinert].
  split.
  - destruct (Hdrain (set_kbd_queue [mkEvent EV_KEY KEY_RIGHT 0; mkEvent EV_KEY 30 1;
                                     mkEvent 2 KEY_Q 1; press KEY_RIGHT] demo_start)
                     demo_start_index_ok)
      as [(s' & Hs & Hq & _)|(s' & Hs & _)].
    + exists s'. split; [exact Hs|]. split; [exact Hq|].
      vm_compute in Hs. injection Hs as <-. reflexivity.
    + vm_compute in Hs. discriminate Hs.
  - refine (proj1 (Hinert (mkEvent EV_KEY 30 1) demo_start _)).
    right. right. vm_compute. repeat split; discriminate.
Defined.

Lemma C8_witness :
  registry_ok demo_env /\ index_ok demo_env cx3_s1 /\
  gbm_map (demo_input demo_fs [] (mkTimespec 101 0) None) = None /\
  gbmMem (state_of (iteration demo_env
                      (demo_input demo_fs [] (mkTimespec 101 0) None) cx3_s1))
    = gbmMem cx3_s1 /\
  exists s', iteration demo_env (demo_input demo_fs [] (mkTimespec 101 0) None) cx3_s1
             = Next s'.
Proof.
  assert (H2 : index_ok demo_env cx3_s1)
    by (unfold index_ok; vm_compute; split; [discriminate|reflexivity]).
  split; [exact demo_registry_ok|]. split; [exact H2|]. split; [reflexivity|].
  destruct (C8_unmappable_scanout demo_env
              (demo_input demo_fs [] (mkTimespec 101 0) None) cx3_s1
              demo_registry_ok H2 eq_refl) as [Hmem Hnext].
  split; [exact Hmem|].
  destruct (Hnext [EvBeginCommandBuffer; EvCmdBeginRenderPass 4 2;
                   EvCmdBindPipeline 1002; EvCmdBindDescriptorSets;
                   EvCmdDraw 6 1 0 0; EvCmdEndRenderPass; EvEndCommandBuffer;
                   EvQueueSubmit 0; EvWaitForFences 0; EvResetFences;
                   EvGbmMap false; EvDirtyFB]) as [s' [Hs' _]].
  - vm_compute. reflexivity.
  - cbn. tauto.
  - exists s'. exact Hs'.
Defined.

Lemma C9_witness :
  registry_ok demo_env /\ index_ok demo_env demo_exit_queued /\
  0 <= kbd_fd demo_env /\
  existsb is_exit_press (kbd_queue demo_exit_queued) = true /\
  (exists s', check_keyboard demo_env demo_fs demo_exit_queued = Exited 0 s' /\
              grows (fun e => ~ device_work e) demo_exit_queued s') /\
  grows (fun e => ~ device_work e) demo_exit_queued
    (state_of (main_loop demo_env [cx1_missing; cx3_in1; cx3_in2] demo_exit_queued)).
Proof.
  assert (H3 : 0 <= kbd_fd demo_env) by (cbn; lia).
  assert (H4 : existsb is_exit_press (kbd_queue demo_exit_queued) = true) by reflexivity.
  split; [exact demo_registry_ok|]. split; [exact demo_start_index_ok|].
  split; [exact H3|]. split; [exact H4|].
  destruct (C9_exit_before_submission demo_env demo_exit_queued
              demo_registry_ok demo_start_index_ok H3 H4) as (Hpoll & Hloop & _).
  split; [exact (Hpoll demo_fs)|].
  exact (proj1 (Hloop [cx1_missing; cx3_in1; cx3_in2])).
Defined.

Lemma C10_witness :
  registry_ok demo_env /\ index_ok demo_env demo_start /\
  pipeline_matches_index demo_start /\
  pipeline_matches_index cx1_active /\
  built_for cx1_active = current_shader demo_start /\
  current_shader cx1_active <> built_for cx1_active /\
  reload_requested cx1_active = 1.
Proof.
  assert (H3 : pipeline_matches_index demo_start).
  { intros Hp. exfalso. apply Hp. reflexivity. }
  split; [exact demo_registry_ok|]. split; [exact demo_start_index_ok|].
  split; [exact H3|].
  destruct (C10_index_change_forces_rebuild demo_env demo_start
              demo_registry_ok demo_start_index_ok H3) as (_ & _ & Hpass & _).
  assert (Hit : iteration demo_env cx1_first demo_start = Next cx1_active)
    by (vm_compute; reflexivity).
  destruct (Hpass cx1_first cx1_active Hit) as (Hm & Hb & _).
  split; [exact Hm|]. split; [exact Hb|].
  split; [vm_compute; discriminate|vm_compute; reflexivity].
Defined.

(* ================================================================== *)
(** * [find_mem] *)

Lemma bit_mask_pow (i : Z) : 0 <= i < 32 -> bit_mask i = 2 ^ i.
Proof.
  intros Hi. unfold bit_mask, wrap_u, wrap_s.
  rewrite Z.shiftl_1_l.
  change (2 ^ (32 - 1)) with (2 ^ 31).
  rewrite Zminus_mod_idemp_l.
  replace (2 ^ i + 2 ^ 31 - 2 ^ 31) with (2 ^ i) by lia.
  apply Z.mod_small. split; [apply Z.pow_nonneg; lia|].
  apply Z.pow_lt_mono_r; lia.
Qed.

Lemma land_pow2_testbit (a i : Z) :
  0 <= i -> (Z.land a (2 ^ i) =? 0) = negb (Z.testbit a i).
Proof.
  intros Hi. destruct (Z.testbit a i) eqn:Hb; cbn [negb].
  - apply Z.eqb_neq. intros H0.
    assert (Ht : Z.testbit (Z.land a (2 ^ i)) i = true).
    { rewrite Z.land_spec, Hb, Z.pow2_bits_true by lia. reflexivity. }
    rewrite H0, Z.bits_0 in Ht. discriminate.
  - apply Z.eqb_eq. apply Z.bits_inj'. intros n Hn.
    rewrite Z.land_spec, Z.bits_0.
    destruct (Z.eq_dec n i) as [->|Hne].
    + rewrite Hb. reflexivity.
    + rewrite Z.pow2_bits_false by lia. apply andb_false_r.
Qed.

Lemma suits_cons (t : Z) (rest : list Z) (i bits flags j : Z) :
  suits (t :: rest) i bits flags j <->
  (j = i /\ Z.testbit bits i = true /\ Z.land t flags = flags) \/
  suits rest (i + 1) bits flags j.
Proof.
  unfold suits. split.
  - intros (Hij & u & Hn & Hb & Hf).
    destruct (Z.eq_dec j i) as [->|Hne].
    + left. rewrite Z.sub_diag in Hn. cbn in Hn. injection Hn as <-. tauto.
    + right. split; [lia|]. exists u. split; [|tauto].
      replace (Z.to_nat (j - i)) with (S (Z.to_nat (j - (i + 1)))) in Hn by lia.
      exact Hn.
  - intros [(-> & Hb & Hf)|(Hij & u & Hn & Hb & Hf)].
    + split; [lia|]. exists t. rewrite Z.sub_diag. cbn. tauto.
    + split; [lia|]. exists u. split; [|tauto].
      replace (Z.to_nat (j - i)) with (S (Z.to_nat (j - (i + 1)))) by lia.
      exact Hn.
Qed.

Lemma suits_range (types : list Z) (i bits flags j : Z) :
  suits types i bits flags j -> i <= j < i + Z.of_nat (List.length types).
Proof.
  intros (Hij & u & Hn & _).
  assert (Hlt : (Z.to_nat (j - i) < List.length types)%nat)
    by (apply nth_error_Some; congruence).
  lia.
Qed.

Lemma find_mem_from_spec (bits flags : Z) (types : list Z) :
  forall i, 0 <= i -> i + Z.of_nat (List.length types) <= 32 ->
  exists r,
    find_mem_from types i bits flags = Some r /\
    ((r = UINT32_MAX /\ forall j, ~ suits types i bits flags j) \/
     (suits types i bits flags r /\
      forall j, j < r -> ~ suits types i bits flags j)).
Proof.
  induction types as [|t rest IH]; intros i Hi Hlen.
  - exists UINT32_MAX. split; [reflexivity|]. left. split; [reflexivity|].
    intros j Hs. apply suits_range in Hs. cbn in Hs. lia.
  - cbn [find_mem_from]. cbn [List.length] in Hlen.
    replace (32 <=? i) with false by (symmetry; apply Z.leb_gt; lia).
    rewrite bit_mask_pow, land_pow2_testbit, negb_involutive by lia.
    destruct (Z.testbit bits i && (Z.land t flags =? flags)) eqn:E.
    + apply andb_prop in E. destruct E as [Eb Ef]. apply Z.eqb_eq in Ef.
      exists i. split; [reflexivity|]. right. split.
      * apply suits_cons. left. tauto.
      * intros j Hj Hs. apply suits_range in Hs. lia.
    + destruct (IH (i + 1)) as (r & Hr & Hcase); try lia.
      exists r. split; [exact Hr|].
      assert (Hhere : ~ (Z.testbit bits i = true /\ Z.land t flags = flags)).
      { intros [Hb Hf]. rewrite Hb in E. apply Z.eqb_eq in Hf. rewrite Hf in E.
        discriminate. }
      destruct Hcase as [[-> Hnone]|[Hs Hmin]].
      * left. split; [reflexivity|]. intros j Hj. apply suits_cons in Hj.
        destruct Hj as [(_ & Hb & Hf)|Hj]; [tauto|exact (Hnone j Hj)].
      * right. split; [apply suits_cons; right; exact Hs|].
        intros j Hj Hsj. apply suits_cons in Hsj.
        destruct Hsj as [(_ & Hb & Hf)|Hsj]; [tauto|exact (Hmin j Hj Hsj)].
Qed.

(** X1.  For a device with at most 31 memory types, so that every shift
    [1 << i] of the loop fits an [int], [find_mem] returns the least index
    whose bit is set in [bits] and whose property flags include all of
    [flags]; it returns [UINT32_MAX], which is no index, exactly when no
    memory type suits. *)
Theorem X1_find_mem_least (types : list Z) (bits flags : Z) :
  Z.of_nat (List.length types) <= 31 ->
  exists r,
    find_mem types bits flags = Some r /\
    ((r = UINT32_MAX /\ forall j, ~ suits types 0 bits flags j) \/
     (0 <= r < Z.of_nat (List.length types) /\ r <> UINT32_MAX /\
      suits types 0 bits flags r /\
      forall j, j < r -> ~ suits types 0 bits flags j)).
Proof.
  intros Hlen.
  destruct (find_mem_from_spec bits flags types 0) as (r & Hr & Hcase); try lia.
  exists r. split; [exact Hr|].
  destruct Hcase as [Hnone|[Hs Hmin]]; [left; exact Hnone|].
  right. pose proof (suits_range _ _ _ _ _ Hs) as Hrange.
  split; [lia|]. split; [|split; assumption].
  unfold UINT32_MAX. change (2 ^ 32 - 1) with 4294967295. lia.
Qed.

(* ================================================================== *)
(** * [generate_texture] and the upload loop *)

Lemma int_add_small (a b : Z) :
  - 2 ^ 31 <= a + b < 2 ^ 31 -> int_add a b = a + b.
Proof. intros H. unfold int_add. apply wrap_s_small. exact H. Qed.

Lemma int_mul_small (a b : Z) :
  - 2 ^ 31 <= a * b < 2 ^ 31 -> int_mul a b = a * b.
Proof. intros H. unfold int_mul. apply wrap_s_small. exact H. Qed.

Lemma checker_odd (x y : Z) :
  0 <= x < 256 -> 0 <= y < 256 ->
  negb (checker x y =? 0) = Z.odd (x / 32 + y / 32).
Proof.
  intros Hx Hy. unfold checker.
  rewrite !Z.quot_div_nonneg by lia.
  assert (H1 : 0 <= x / 32 < 8)
    by (split; [apply Z.div_pos; lia|apply Z.div_lt_upper_bound; lia]).
  assert (H2 : 0 <= y / 32 < 8)
    by (split; [apply Z.div_pos; lia|apply Z.div_lt_upper_bound; lia]).
  rewrite int_add_small by (change (2 ^ 31) with 2147483648; lia).
  rewrite Z.rem_mod_nonneg by lia.
  rewrite Zmod_odd. destruct (Z.odd (x / 32 + y / 32)); reflexivity.
Qed.

(** The four stores of one pixel. *)
Lemma put_texel_spec (x y : Z) (data : mem) (a : Z) :
  0 <= x < 256 -> 0 <= y < 256 ->
  put_texel x y data a =
    if ((y * 256 + x) * 4 <=? a) && (a <? (y * 256 + x) * 4 + 4)
    then texel x y (a - (y * 256 + x) * 4)
    else data a.
Proof.
  intros Hx Hy. unfold put_texel. cbv zeta.
  rewrite checker_odd by assumption.
  rewrite (int_mul_small y 256) by (change (2 ^ 31) with 2147483648; lia).
  rewrite (int_add_small (y * 256) x) by (change (2 ^ 31) with 2147483648; lia).
  rewrite int_mul_small by (change (2 ^ 31) with 2147483648; lia).
  rewrite !int_add_small by (change (2 ^ 31) with 2147483648; lia).
  set (idx := (y * 256 + x) * 4).
  unfold store, texel.
  destruct (a =? idx + 3) eqn:E3.
  { apply Z.eqb_eq in E3. subst a.
    replace (idx <=? idx + 3) with true by (symmetry; apply Z.leb_le; lia).
    replace (idx + 3 <? idx + 4) with true by (symmetry; apply Z.ltb_lt; lia).
    replace (idx + 3 - idx) with 3 by lia. reflexivity. }
  destruct (a =? idx + 2) eqn:E2.
  { apply Z.eqb_eq in E2. subst a.
    replace (idx <=? idx + 2) with true by (symmetry; apply Z.leb_le; lia).
    replace (idx + 2 <? idx + 4) with true by (symmetry; apply Z.ltb_lt; lia).
    replace (idx + 2 - idx) with 2 by lia. reflexivity. }
  destruct (a =? idx + 1) eqn:E1.
  { apply Z.eqb_eq in E1. subst a.
    replace (idx <=? idx + 1) with true by (symmetry; apply Z.leb_le; lia).
    replace (idx + 1 <? idx + 4) with true by (symmetry; apply Z.ltb_lt; lia).
    replace (idx + 1 - idx) with 1 by lia. reflexivity. }
  destruct (a =? idx + 0) eqn:E0.
  { apply Z.eqb_eq in E0. subst a.
    replace (idx <=? idx + 0) with true by (symmetry; apply Z.leb_le; lia).
    replace (idx + 0 <? idx + 4) with true by (symmetry; apply Z.ltb_lt; lia).
    replace (idx + 0 - idx) with 0 by lia. reflexivity. }
  apply Z.eqb_neq in E3, E2, E1, E0.
  destruct (idx <=? a) eqn:L1; [|reflexivity].
  destruct (a <? idx + 4) eqn:L2; [|reflexivity].
  apply Z.leb_le in L1. apply Z.ltb_lt in L2. lia.
Qed.

(** The inner loop over the columns from [x] on. *)
Lemma texture_row_spec (y : Z) (n : nat) :
  0 <= y < 256 ->
  forall (x : Z) (data : mem),
    0 <= x -> x + Z.of_nat n <= 256 ->
    (forall x' c, x <= x' < x + Z.of_nat n -> 0 <= c < 4 ->
       texture_row n x y data ((y * 256 + x') * 4 + c) = texel x' y c) /\
    (forall a, ~ ((y * 256 + x) * 4 <= a < (y * 256 + x + Z.of_nat n) * 4) ->
       texture_row n x y data a = data a).
Proof.
  intros Hy. induction n as [|n IH]; intros x data Hx Hn.
  - cbn. split; [intros x' c Hx'; lia|reflexivity].
  - cbn [texture_row].
    destruct (IH (x + 1) (put_texel x y data)) as [IH1 IH2]; try lia.
    split.
    + intros x' c Hx' Hc.
      destruct (Z.eq_dec x' x) as [->|Hne].
      * rewrite IH2 by lia.
        rewrite put_texel_spec by lia.
        replace ((y * 256 + x) * 4 <=? (y * 256 + x) * 4 + c) with true
          by (symmetry; apply Z.leb_le; lia).
        replace ((y * 256 + x) * 4 + c <? (y * 256 + x) * 4 + 4) with true
          by (symmetry; apply Z.ltb_lt; lia).
        cbn [andb]. f_equal. lia.
      * apply IH1; lia.
    + intros a Ha. rewrite IH2 by lia.
      rewrite put_texel_spec by lia.
      destruct ((y * 256 + x) * 4 <=? a) eqn:L1; [|reflexivity].
      destruct (a <? (y * 256 + x) * 4 + 4) eqn:L2; [|reflexivity].
      apply Z.leb_le in L1. apply Z.ltb_lt in L2. lia.
Qed.

(** The outer loop over the rows from [y] on. *)
Lemma texture_rows_spec (n : nat) :
  forall (y : Z) (data : mem),
    0 <= y -> y + Z.of_nat n <= 256 ->
    (forall x y' c, 0 <= x < 256 -> y <= y' < y + Z.of_nat n -> 0 <= c < 4 ->
       texture_rows n y data ((y' * 256 + x) * 4 + c) = texel x y' c) /\
    (forall a, ~ (y * 1024 <= a < (y + Z.of_nat n) * 1024) ->
       texture_rows n y data a = data a).
Proof.
  induction n as [|n IH]; intros y data Hy Hn.
  - cbn. split; [intros x y' c _ Hy'; lia|reflexivity].
  - cbn [texture_rows].
    destruct (IH (y + 1) (texture_row 256 0 y data)) as [IH1 IH2]; try lia.
    assert (Hyr : 0 <= y < 256) by lia.
    destruct (texture_row_spec y 256 Hyr 0 data) as [R1 R2];
      [lia|change (Z.of_nat 256) with 256; lia|].
    change (Z.of_nat 256) with 256 in R1, R2.
    split.
    + intros x y' c Hx Hy' Hc.
      destruct (Z.eq_dec y' y) as [->|Hne].
      * rewrite IH2 by lia. apply R1; lia.
      * apply IH1; lia.
    + intros a Ha. rewrite IH2 by lia. apply R2. lia.
Qed.

(** What the two loops leave in the buffer. *)
Lemma generate_texture_spec (data : mem) :
  (forall x y c, 0 <= x < 256 -> 0 <= y < 256 -> 0 <= c < 4 ->
     generate_texture data ((y * 256 + x) * 4 + c) = texel x y c) /\
  (forall a, ~ (0 <= a < 256 * 256 * 4) -> generate_texture data a = data a).
Proof.
  unfold generate_texture.
  destruct (texture_rows_spec 256 0 data) as [H1 H2];
    [lia|change (Z.of_nat 256) with 256; lia|].
  change (Z.of_nat 256) with 256 in H1, H2.
  split.
  - intros x y c Hx Hy Hc. apply H1; lia.
  - intros a Ha. apply H2. lia.
Qed.

(** X2.  [generate_texture] fills the 256 x 256 x 4 bytes of its buffer and
    nothing else: the pixel at (x, y) gets the light colour (200, 180, 160)
    when x/32 + y/32 is odd and the dark colour (50, 60, 80) when it is
    even, with alpha 255 in both cases, whatever the buffer held before.
    So the image is a checkerboard of 32 x 32 tiles, equal to its own
    transpose, and it repeats every 64 pixels in both directions. *)
Theorem X2_generate_texture_checkerboard (data : mem) :
  (forall x y c, 0 <= x < 256 -> 0 <= y < 256 -> 0 <= c < 4 ->
     generate_texture data ((y * 256 + x) * 4 + c) = texel x y c) /\
  (forall a, ~ (0 <= a < 256 * 256 * 4) -> generate_texture data a = data a) /\
  (forall x y, 0 <= x < 256 -> 0 <= y < 256 ->
     generate_texture data ((y * 256 + x) * 4 + 3) = Byte.xff /\
     forall c, 0 <= c < 4 ->
       generate_texture data ((y * 256 + x) * 4 + c)
       = generate_texture data ((x * 256 + y) * 4 + c)) /\
  (forall x y c, 0 <= x < 192 -> 0 <= y < 192 -> 0 <= c < 4 ->
     generate_texture data ((y * 256 + (x + 64)) * 4 + c)
     = generate_texture data ((y * 256 + x) * 4 + c) /\
     generate_texture data (((y + 64) * 256 + x) * 4 + c)
     = generate_texture data ((y * 256 + x) * 4 + c)).
Proof.
  destruct (generate_texture_spec data) as [H1 H2].
  split; [|split; [|split]].
  - exact H1.
  - exact H2.
  - intros x y Hx Hy. split.
    + rewrite H1 by lia. reflexivity.
    + intros c Hc. rewrite !H1 by lia. unfold texel.
      rewrite (Z.add_comm (x / 32)). reflexivity.
  - intros x y c Hx Hy Hc. rewrite !H1 by lia. unfold texel.
    replace ((x + 64) / 32) with (x / 32 + 2)
      by (replace (x + 64) with (x + 2 * 32) by lia; rewrite Z.div_add by lia; reflexivity).
    replace ((y + 64) / 32) with (y / 32 + 2)
      by (replace (y + 64) with (y + 2 * 32) by lia; rewrite Z.div_add by lia; reflexivity).
    replace (x / 32 + 2 + y / 32) with (x / 32 + y / 32 + 2) by lia.
    replace (x / 32 + (y / 32 + 2)) with (x / 32 + y / 32 + 2) by lia.
    rewrite Z.odd_add. cbn [Z.odd xorb]. rewrite xorb_false_r. split; reflexivity.
Qed.

(** The upload loop from row [y] on, for a row pitch of at least one row
    of pixels whose 256 rows fit the 64-bit offset. *)
Lemma upload_rows_spec (pitch : Z) (data : mem) (n : nat) :
  1024 <= pitch ->
  forall (y : Z) (tex : mem),
    0 <= y -> y + Z.of_nat n <= 256 ->
    (y + Z.of_nat n) * pitch <= 2 ^ 64 ->
    (forall y' b, y <= y' < y + Z.of_nat n -> 0 <= b < 1024 ->
       upload_rows n y pitch tex data (y' * pitch + b) = data (y' * 1024 + b)) /\
    (forall a, (forall y', y <= y' < y + Z.of_nat n ->
                  ~ (y' * pitch <= a < y' * pitch + 1024)) ->
       upload_rows n y pitch tex data a = tex a).
Proof.
  intros Hp. induction n as [|n IH]; intros y tex Hy Hn Hfit.
  - cbn. split; [intros y' b Hy'; lia|reflexivity].
  - cbn [upload_rows].
    assert (Hyp : 0 <= y * pitch < 2 ^ 64) by nia.
    unfold u64_mul. rewrite wrap_u64_small by exact Hyp.
    rewrite (int_mul_small y 256) by (change (2 ^ 31) with 2147483648; lia).
    rewrite (int_mul_small (y * 256) 4) by (change (2 ^ 31) with 2147483648; lia).
    rewrite (int_mul_small 256 4) by (change (2 ^ 31) with 2147483648; lia).
    change (256 * 4) with 1024.
    destruct (IH (y + 1)
                (memcpy tex (y * pitch) data (y * 256 * 4) 1024))
      as [IH1 IH2]; [lia|lia|nia|].
    split.
    + intros y' b Hy' Hb.
      destruct (Z.eq_dec y' y) as [->|Hne].
      * rewrite IH2.
        -- rewrite memcpy_inside by lia. f_equal. lia.
        -- intros y2 Hy2. nia.
      * apply IH1; lia.
    + intros a Ha. rewrite IH2.
      * apply memcpy_outside. apply Ha. lia.
      * intros y2 Hy2. apply Ha. lia.
Qed.

(** X3.  Generation followed by the upload loop puts the checkerboard into
    the mapped image memory row by row at the driver's row pitch: for every
    pitch of at least 1024 bytes whose 256 rows fit a 64-bit offset, byte
    [c] of pixel (x, y) lands at offset y * pitch + 4 * x + c, whatever the
    staging buffer and the image memory held before, and the padding bytes
    between the rows and everything behind the last row keep their old
    value. *)
Theorem X3_texture_upload (pitch : Z) (tex data : mem) :
  1024 <= pitch -> 256 * pitch <= 2 ^ 64 ->
  let out := upload_texture pitch tex (generate_texture data) in
  (forall x y c, 0 <= x < 256 -> 0 <= y < 256 -> 0 <= c < 4 ->
     out (y * pitch + 4 * x + c) = texel x y c) /\
  (forall a, (forall y, 0 <= y < 256 -> ~ (y * pitch <= a < y * pitch + 1024)) ->
     out a = tex a).
Proof.
  intros Hp Hfit out. subst out. unfold upload_texture.
  destruct (upload_rows_spec pitch (generate_texture data) 256 Hp 0 tex)
    as [U1 U2]; [lia|change (Z.of_nat 256) with 256; lia
                |change (Z.of_nat 256) with 256; lia|].
  change (Z.of_nat 256) with 256 in U1, U2.
  destruct (generate_texture_spec data) as [G1 _].
  split.
  - intros x y c Hx Hy Hc.
    replace (y * pitch + 4 * x + c) with (y * pitch + (4 * x + c)) by lia.
    rewrite U1 by lia.
    replace (y * 1024 + (4 * x + c)) with ((y * 256 + x) * 4 + c) by lia.
    apply G1; assumption.
  - intros a Ha. apply U2. intros y Hy. apply Ha. lia.
Qed.

(* ================================================================== *)
(** * [get_basename], [find_shader_by_name] and the choice of the first
      program *)

Lemma strrchr_none (c : ascii) (s : string) :
  strrchr s c = None <-> forall n, String.get n s <> Some c.
Proof.
  induction s as [|a rest IH]; cbn [strrchr].
  - split; [intros _ n; destruct n; discriminate|reflexivity].
  - destruct (strrchr rest c) as [i|] eqn:E.
    + split; [discriminate|]. intros Hn. exfalso.
      destruct IH as [_ IH2].
      assert (Hc : Some i = None) by (apply IH2; intros n; exact (Hn (S n))).
      discriminate Hc.
    + destruct (Ascii.eqb a c) eqn:Ea.
      * apply Ascii.eqb_eq in Ea. subst a. split; [discriminate|].
        intros Hn. exfalso. apply (Hn O). reflexivity.
      * apply Ascii.eqb_neq in Ea. split; [|reflexivity].
        intros _ [|n]; cbn [get].
        -- intros Hc. apply Ea. congruence.
        -- destruct IH as [IH1 _]. exact (IH1 eq_refl n).
Qed.

(** The last occurrence splits the string; nothing behind it holds the
    character. *)
Lemma strrchr_last (c : ascii) (s : string) :
  forall i, strrchr s c = Some i ->
  exists pre, s = (pre ++ String c (tail_from (S i) s))%string /\
              String.length pre = i /\
              strrchr (tail_from (S i) s) c = None.
Proof.
  induction s as [|a rest IH]; intros i; cbn [strrchr]; [discriminate|].
  destruct (strrchr rest c) as [j|] eqn:E.
  - intros Hi. injection Hi as <-.
    destruct (IH j eq_refl) as (pre & Hs & Hl & Hn).
    exists (String a pre). cbn [tail_from append String.length].
    split; [f_equal; exact Hs|split; [f_equal; exact Hl|exact Hn]].
  - destruct (Ascii.eqb a c) eqn:Ea; [|discriminate].
    apply Ascii.eqb_eq in Ea. subst a.
    intros Hi. injection Hi as <-.
    exists EmptyString. cbn [tail_from append String.length].
    assert (Ht : tail_from 0 rest = rest) by (destruct rest; reflexivity).
    try rewrite Ht. split; [reflexivity|split; [reflexivity|exact E]].
Qed.

Lemma strrchr_after (c : ascii) (dir nm : string) :
  strrchr nm c = None ->
  strrchr (dir ++ String c nm) c = Some (String.length dir).
Proof.
  intros Hn. induction dir as [|a dir IH]; cbn [append strrchr String.length].
  - rewrite Hn, Ascii.eqb_refl. reflexivity.
  - rewrite IH. reflexivity.
Qed.

Lemma tail_from_after (c : ascii) (dir nm : string) :
  tail_from (S (String.length dir)) (dir ++ String c nm) = nm.
Proof.
  induction dir as [|a dir IH]; cbn [append tail_from String.length].
  - destruct nm; reflexivity.
  - exact IH.
Qed.

(** X4.  [get_basename] returns the part of the path behind its last
    slash: the path is a directory part, empty or ending in a slash,
    followed by the result; the result holds no slash; and a path that is
    a directory part, a slash and a slash-free name gives back that name.
    A path without a slash is returned whole, so taking the base name
    twice changes nothing. *)
Theorem X4_get_basename (path : string) :
  (exists dir, path = (dir ++ get_basename path)%string /\
               (dir = EmptyString \/ exists d, dir = (d ++ "/")%string)) /\
  (forall n, String.get n (get_basename path) <> Some "/"%char) /\
  ((forall n, String.get n path <> Some "/"%char) -> get_basename path = path) /\
  get_basename (get_basename path) = get_basename path /\
  (forall dir, (forall n, String.get n path <> Some "/"%char) ->
     get_basename (dir ++ "/" ++ path) = path).
Proof.
  assert (Hfree : forall p, (forall n, get n p <> Some "/"%char) -> get_basename p = p).
  { intros p Hp. unfold get_basename.
    apply (proj2 (strrchr_none "/" p)) in Hp. rewrite Hp. reflexivity. }
  assert (Hres : forall n, get n (get_basename path) <> Some "/"%char).
  { unfold get_basename. destruct (strrchr path "/") as [i|] eqn:E.
    - destruct (strrchr_last "/" path i E) as (_ & _ & _ & Hn).
      exact (proj1 (strrchr_none "/" _) Hn).
    - exact (proj1 (strrchr_none "/" _) E). }
  split; [|split; [exact Hres|split; [exact (Hfree path)|split]]].
  - unfold get_basename. destruct (strrchr path "/") as [i|] eqn:E.
    + destruct (strrchr_last "/" path i E) as (pre & Hs & _ & _).
      exists (pre ++ "/")%string. split.
      * rewrite Hs at 1. clear. induction pre as [|a pre IH]; [reflexivity|].
        cbn [append]. f_equal. exact IH.
      * right. exists pre. reflexivity.
    + exists EmptyString. split; [reflexivity|left; reflexivity].
  - apply Hfree. exact Hres.
  - intros dir Hp. unfold get_basename.
    apply (proj2 (strrchr_none "/" path)) in Hp.
    change (dir ++ "/" ++ path)%string with (dir ++ String "/" path)%string.
    rewrite (strrchr_after "/" dir path Hp).
    apply tail_from_after.
Qed.

(** The search from position [i] on. *)
Lemma find_from_spec (nm : string) (reg : list ShaderInfo) :
  forall i,
    let r := find_from reg nm i in
    (r = -1 /\ forall sh, In sh reg -> name sh <> nm) \/
    (i <= r < i + Z.of_nat (List.length reg) /\
     exists sh, nth_error reg (Z.to_nat (r - i)) = Some sh /\ name sh = nm /\
       forall j sh', i <= j < r ->
         nth_error reg (Z.to_nat (j - i)) = Some sh' -> name sh' <> nm).
Proof.
  induction reg as [|sh0 rest IH]; intros i; cbn [find_from].
  - left. split; [reflexivity|intros sh []].
  - destruct (String.eqb (name sh0) nm) eqn:E.
    + apply String.eqb_eq in E. right. cbv zeta. split.
      * cbn [List.length]. lia.
      * exists sh0. rewrite Z.sub_diag. split; [reflexivity|].
        split; [exact E|]. intros j sh' Hj. lia.
    + apply String.eqb_neq in E. cbv zeta.
      destruct (IH (i + 1)) as [[Hr Hall]|[Hr (sh & Hnth & Hnm & Hfirst)]].
      * left. split; [exact Hr|]. intros sh [<-|Hin]; [exact E|exact (Hall sh Hin)].
      * right. split; [cbn [List.length]; lia|].
        exists sh. split; [|split; [exact Hnm|]].
        -- replace (Z.to_nat (find_from rest nm (i + 1) - i))
             with (S (Z.to_nat (find_from rest nm (i + 1) - (i + 1)))) by lia.
           exact Hnth.
        -- intros j sh' Hj Hn'.
           destruct (Z.eq_dec j i) as [->|Hne].
           ++ rewrite Z.sub_diag in Hn'. cbn in Hn'. injection Hn' as <-. exact E.
           ++ apply (Hfirst j sh'); [lia|].
              replace (Z.to_nat (j - i)) with (S (Z.to_nat (j - (i + 1)))) in Hn' by lia.
              exact Hn'.
Qed.

(** X5.  [find_shader_by_name] returns -1 exactly when no entry of the
    registry has the name; otherwise it returns an index inside the
    registry whose entry has the name, and no entry before it has it. *)
Theorem X5_find_shader_by_name (reg : list ShaderInfo) (nm : string) :
  let r := find_shader_by_name reg nm in
  (r = -1 /\ forall sh, In sh reg -> name sh <> nm) \/
  (0 <= r < shader_count reg /\
   exists sh, shader_at reg r = Some sh /\ name sh = nm /\
     forall j sh', 0 <= j < r -> shader_at reg j = Some sh' -> name sh' <> nm).
Proof.
  unfold find_shader_by_name. cbv zeta.
  destruct (find_from_spec nm reg 0) as [H|[Hr (sh & Hnth & Hnm & Hfirst)]];
    [left; exact H|right].
  cbv zeta in *. rewrite Z.sub_0_r in Hnth.
  split; [unfold shader_count; lia|].
  exists sh. unfold shader_at.
  replace (find_from reg nm 0 <? 0) with false by (symmetry; apply Z.ltb_ge; lia).
  split; [exact Hnth|split; [exact Hnm|]].
  intros j sh' Hj. replace (j <? 0) with false by (symmetry; apply Z.ltb_ge; lia).
  intros Hn'. apply (Hfirst j sh'); [lia|]. rewrite Z.sub_0_r. exact Hn'.
Qed.

(** X6.  The start of [main]: it returns 1 before any device is touched
    exactly when the scan found no program or no program has the base
    name of the first argument ("example" without an argument).
    Otherwise the registry is non-empty and holds at most 256 programs,
    the chosen index is the first one whose program has that name, the
    last line printed names it, and the state in which the loop is
    entered satisfies the two conditions under which the loop results
    are stated. *)
Theorem X6_main_select (argv : list string) (fsys : FileSystem) :
  let wanted := get_basename (match argv with _ :: a :: _ => a | _ => "example" end) in
  match main_select argv fsys with
  | StartReturn code out =>
      code = 1 /\
      (scan_all_shaders fsys = [] \/
       forall sh, In sh (scan_all_shaders fsys) -> name sh <> wanted)
  | StartSelected reg cur out =>
      reg = scan_all_shaders fsys /\
      (exists sh, shader_at reg cur = Some sh /\ name sh = wanted /\
         (forall j sh', 0 <= j < cur -> shader_at reg j = Some sh' -> name sh' <> wanted) /\
         exists before, out = (before ++ [MsgStartingWith wanted])%list) /\
      forall env clock0 rt gbm objects fresh,
        shaders env = reg ->
        registry_ok env /\
        index_ok env (initial_state cur clock0 rt gbm objects fresh)
  end.
Proof.
  cbv zeta. unfold main_select. cbv zeta.
  set (wanted := get_basename match argv with _ :: a :: _ => a | _ => "example" end).
  set (reg := scan_all_shaders fsys).
  assert (Hmax : shader_count reg <= MAX_SHADERS).
  { subst reg. unfold scan_all_shaders.
    destruct (scan_dirs_spec fsys search_dirs []) as (_ & Hle & _).
    apply Hle. unfold shader_count, MAX_SHADERS. cbn. lia. }
  destruct (shader_count reg =? 0) eqn:E0.
  - split; [reflexivity|left].
    apply Z.eqb_eq in E0. unfold shader_count in E0.
    destruct reg; [reflexivity|cbn in E0; lia].
  - apply Z.eqb_neq in E0.
    pose proof (find_from_spec wanted reg 0) as Hf. cbv zeta in Hf.
    fold (find_shader_by_name reg wanted) in Hf.
    destruct (find_shader_by_name reg wanted <? 0) eqn:El.
    + split; [reflexivity|right].
      apply Z.ltb_lt in El.
      destruct Hf as [[_ Hall]|[Hr _]]; [exact Hall|lia].
    + apply Z.ltb_ge in El.
      destruct Hf as [[Hr _]|[Hr (sh & Hnth & Hnm & Hfirst)]]; [lia|].
      rewrite Z.sub_0_r in Hnth.
      assert (Hat : shader_at reg (find_shader_by_name reg wanted) = Some sh).
      { unfold shader_at.
        replace (find_shader_by_name reg wanted <? 0) with false
          by (symmetry; apply Z.ltb_ge; lia).
        exact Hnth. }
      rewrite Hat. split; [reflexivity|split].
      * exists sh. split; [exact Hat|split; [exact Hnm|split]].
        -- intros j sh' Hj. unfold shader_at.
           replace (j <? 0) with false by (symmetry; apply Z.ltb_ge; lia).
           intros Hn'. apply (Hfirst j sh'); [lia|]. rewrite Z.sub_0_r. exact Hn'.
        -- rewrite Hnm. eexists. reflexivity.
      * intros env clock0 rt gbm objects fresh Henv.
        unfold registry_ok, index_ok. rewrite Henv. cbn [current_shader initial_state].
        unfold shader_count in *. lia.
Qed.

(* ================================================================== *)
(** * [find_display_port] and the key handlers *)

Lemma find_port_loop_S (fsys : FileSystem) (n i : nat) :
  find_port_loop fsys (S n) i =
  match fs_read fsys ("/sys/class/virtio-ports/vport" ++ digit i ++ "p1/name") with
  | Some content =>
      match fgets 64 content with
      | Some nm =>
          if strstr nm "org.qemu.display"
          then Some ("/dev/vport" ++ digit i ++ "p1")%string
          else find_port_loop fsys n (S i)
      | None => find_port_loop fsys n (S i)
      end
  | None => find_port_loop fsys n (S i)
  end.
Proof. reflexivity. Qed.

(** The search from port [i] on. *)
Lemma find_port_loop_spec (fsys : FileSystem) (n : nat) :
  forall i,
    match find_port_loop fsys n i with
    | Some p =>
        exists k, (i <= k < i + n)%nat /\
                  p = ("/dev/vport" ++ digit k ++ "p1")%string /\
                  advertises fsys k /\
                  forall j, (i <= j < k)%nat -> ~ advertises fsys j
    | None => forall j, (i <= j < i + n)%nat -> ~ advertises fsys j
    end.
Proof.
  induction n as [|n IH]; intros i.
  - change (find_port_loop fsys 0 i) with (@None string). intros j Hj. lia.
  - rewrite find_port_loop_S.
    assert (Hskip : ~ advertises fsys i ->
              match find_port_loop fsys n (S i) with
              | Some p =>
                  exists k, (i <= k < i + S n)%nat /\
                            p = ("/dev/vport" ++ digit k ++ "p1")%string /\
                            advertises fsys k /\
                            forall j, (i <= j < k)%nat -> ~ advertises fsys j
              | None => forall j, (i <= j < i + S n)%nat -> ~ advertises fsys j
              end).
    { intros Hno. specialize (IH (S i)).
      destruct (find_port_loop fsys n (S i)) as [p|].
      - destruct IH as (k & Hk & Hp & Hadv & Hfirst).
        exists k. split; [lia|]. split; [exact Hp|]. split; [exact Hadv|].
        intros j Hj. destruct (Nat.eq_dec j i) as [->|Hne]; [exact Hno|].
        apply Hfirst. lia.
      - intros j Hj. destruct (Nat.eq_dec j i) as [->|Hne]; [exact Hno|].
        apply IH. lia. }
    destruct (fs_read fsys ("/sys/class/virtio-ports/vport" ++ digit i ++ "p1/name"))
      as [content|] eqn:Er.
    + destruct (fgets 64 content) as [line|] eqn:Eg.
      * destruct (strstr line "org.qemu.display") eqn:Es.
        -- exists i. split; [lia|]. split; [reflexivity|]. split.
           ++ exists content, line. split; [exact Er|]. split; [exact Eg|exact Es].
           ++ intros j Hj. lia.
        -- apply Hskip. intros (c & l & Hc & Hl & Hs).
           rewrite Er in Hc. injection Hc as <-.
           rewrite Eg in Hl. injection Hl as <-.
           rewrite Es in Hs. discriminate.
      * apply Hskip. intros (c & l & Hc & Hl & Hs).
        rewrite Er in Hc. injection Hc as <-.
        rewrite Eg in Hl. discriminate.
    + apply Hskip. intros (c & l & Hc & Hl & Hs).
      rewrite Er in Hc. discriminate.
Qed.

(** X7.  [find_display_port] answers from its cache when the cache is
    filled, without looking at any file.  With an empty cache it returns
    "/dev/vport<k>p1" for the least k below 10 whose name file announces
    "org.qemu.display", and remembers it, so that every later call returns
    the same path whatever the files say by then.  It returns a null
    pointer exactly when no port below 10 announces the name; the cache
    then stays empty and the next call searches again. *)
Theorem X7_find_display_port (fsys : FileSystem) (s : State) :
  match find_display_port fsys s with
  | (Some p, s') =>
      p <> EmptyString /\ port_path s' = p /\
      (forall fsys', find_display_port fsys' s' = (Some p, s')) /\
      (port_path s <> EmptyString -> p = port_path s /\ s' = s) /\
      (port_path s = EmptyString ->
       s' = set_port_path p s /\
       exists k, (k < 10)%nat /\
                 p = ("/dev/vport" ++ digit k ++ "p1")%string /\
                 advertises fsys k /\
                 forall j, (j < k)%nat -> ~ advertises fsys j)
  | (None, s') =>
      s' = s /\ port_path s = EmptyString /\
      forall k, (k < 10)%nat -> ~ advertises fsys k
  end.
Proof.
  unfold find_display_port.
  destruct (String.eqb (port_path s) "") eqn:E; cbn [negb].
  - apply String.eqb_eq in E.
    pose proof (find_port_loop_spec fsys 10 0) as Hl.
    destruct (find_port_loop fsys 10 0) as [p|].
    + destruct Hl as (k & Hk & Hp & Hadv & Hfirst).
      assert (Hne : p <> EmptyString) by (rewrite Hp; discriminate).
      split; [exact Hne|]. split; [reflexivity|]. split; [|split].
      * intros fsys'. change (port_path (set_port_path p s)) with p.
        destruct (String.eqb p "") eqn:Ep; [|reflexivity].
        apply String.eqb_eq in Ep. contradiction.
      * intros Hc. contradiction.
      * intros _. split; [reflexivity|].
        exists k. split; [lia|]. split; [exact Hp|]. split; [exact Hadv|].
        intros j Hj. apply Hfirst. lia.
    + split; [reflexivity|]. split; [exact E|].
      intros k Hk. apply Hl. lia.
  - apply String.eqb_neq in E.
    split; [exact E|]. split; [reflexivity|]. split; [|split].
    + intros fsys'. destruct (String.eqb (port_path s) "") eqn:Ep; [|reflexivity].
      apply String.eqb_eq in Ep. contradiction.
    + intros _. split; reflexivity.
    + intros Hc. contradiction.
Qed.

(* ================================================================== *)
(** * What one poll does to the index *)

Lemma is_press_eq (code : Z) (ev : input_event) :
  is_press code ev = true -> ev = press code.
Proof.
  unfold is_press, press. destruct ev as [t c v]. cbn.
  intros H. apply andb_prop in H. destruct H as [H Hc].
  apply andb_prop in H. destruct H as [Ht Hv].
  apply Z.eqb_eq in Ht, Hv, Hc. subst. reflexivity.
Qed.

(** A handler other than the two stepping ones leaves index and flag
    alone. *)
Lemma on_event_other (env : Env) (fsys : FileSystem) (ev : input_event) (s s' : State) :
  is_step_press ev = false ->
  on_event env fsys ev s = Next s' ->
  current_shader s' = current_shader s /\ reload_requested s' = reload_requested s.
Proof.
  unfold is_step_press, is_press, on_event. intros Hstep.
  destruct (ev_type ev =? EV_KEY); cbn [negb orb andb] in *;
    [|intros Hx; injection Hx as <-; split; reflexivity].
  destruct (ev_value ev =? 1); cbn [negb orb andb] in *;
    [|intros Hx; injection Hx as <-; split; reflexivity].
  apply orb_false_elim in Hstep. destruct Hstep as [Hl Hr].
  rewrite Hl, Hr.
  destruct (ev_code ev =? KEY_F).
  { pose proof (find_display_port_fields fsys (printf MsgToggling s)) as Hf.
    destruct (find_display_port _ _) as [[port|] s1]; cbn [snd] in Hf;
      destruct Hf as (Hc & Hq & _);
      [destruct (fs_write fsys port)|];
      intros Hx; injection Hx as <-; split;
      first [exact Hc | exact Hq]. }
  destruct ((ev_code ev =? KEY_ESC) || (ev_code ev =? KEY_Q)); [discriminate|].
  intros Hx; injection Hx as <-. split; reflexivity.
Qed.

Lemma index_ok_queue (env : Env) (q : list input_event) (s : State) :
  index_ok env s -> index_ok env (set_kbd_queue q s).
Proof. intros H. exact H. Qed.

(** X8.  One poll over a queue without an exit press moves the index by
    the number of next-key presses minus the number of previous-key presses,
    modulo the number of programs, whatever else is in the queue and in
    whatever order the presses come; the reload flag is set when the queue
    holds at least one of these presses (also when they cancel out) and is
    left alone otherwise. *)
Theorem X8_poll_net_steps (env : Env) (fsys : FileSystem) (q : list input_event) :
  registry_ok env ->
  existsb is_exit_press q = false ->
  forall s, index_ok env s ->
  exists s',
    drain env fsys q s = Next s' /\
    current_shader s' = (current_shader s + net_steps q) mod shader_count (shaders env) /\
    reload_requested s' = (if existsb is_step_press q then 1 else reload_requested s).
Proof.
  intros Hreg. induction q as [|ev q IH]; intros Hex s Hi.
  - exists s. cbn [drain net_steps existsb]. rewrite Z.add_0_r.
    split; [reflexivity|]. split; [|reflexivity].
    unfold index_ok in Hi. rewrite Z.mod_small by lia. reflexivity.
  - cbn [existsb] in Hex. apply orb_false_elim in Hex. destruct Hex as [Hev Hq].
    pose proof Hreg as Hreg'. unfold registry_ok in Hreg'.
    pose proof Hi as Hi'. unfold index_ok in Hi'.
    set (N := shader_count (shaders env)) in *.
    cbn [drain net_steps existsb]. unfold is_step_press at 1.
    destruct (is_press KEY_RIGHT ev) eqn:Er.
    + apply is_press_eq in Er. subst ev.
      destruct (on_event_right env fsys (set_kbd_queue q s) Hreg' Hi) as (sh & _ & Hon).
      rewrite Hon.
      match goal with |- context [drain env fsys q ?s1] =>
        destruct (IH Hq s1) as (s' & Hd & Hc & Hf) end.
      { unfold index_ok.
        change (0 <= Z.rem (current_shader s + 1) N < N).
        rewrite Z.rem_mod_nonneg by lia. apply Z.mod_pos_bound. lia. }
      exists s'. split; [exact Hd|]. split.
      * rewrite Hc.
        change (current_shader (printf _ _))
          with (Z.rem (current_shader s + 1) N).
        rewrite Z.rem_mod_nonneg by lia.
        rewrite Zplus_mod_idemp_l. f_equal. lia.
      * rewrite Hf. rewrite orb_true_r. cbn [orb].
        destruct (existsb is_step_press q); reflexivity.
    + destruct (is_press KEY_LEFT ev) eqn:El.
      * apply is_press_eq in El. subst ev.
        destruct (on_event_left env fsys (set_kbd_queue q s) Hreg' Hi) as (sh & _ & Hon).
        rewrite Hon.
        match goal with |- context [drain env fsys q ?s1] =>
          destruct (IH Hq s1) as (s' & Hd & Hc & Hf) end.
        { unfold index_ok.
          change (0 <= Z.rem (current_shader s - 1 + N) N < N).
          rewrite Z.rem_mod_nonneg by lia. apply Z.mod_pos_bound. lia. }
        exists s'. split; [exact Hd|]. split.
        -- rewrite Hc.
           change (current_shader (printf _ _))
             with (Z.rem (current_shader s - 1 + N) N).
           rewrite Z.rem_mod_nonneg by lia.
           rewrite Zplus_mod_idemp_l.
           replace (current_shader s - 1 + N + net_steps q)
             with (current_shader s + (-1 + net_steps q) + 1 * N) by lia.
           apply Z.mod_add. lia.
        -- rewrite Hf. cbn [orb].
           destruct (existsb is_step_press q); reflexivity.
      * cbn [orb].
        assert (Hstep : is_step_press ev = false)
          by (unfold is_step_press; rewrite El, Er; reflexivity).
        pose proof (on_event_defined env fsys ev (set_kbd_queue q s)) as Hdef.
        pose proof (on_event_not_again env fsys ev (set_kbd_queue q s)) as Hna.
        pose proof (on_event_exited env fsys ev (set_kbd_queue q s)) as Hxe.
        destruct (on_event env fsys ev (set_kbd_queue q s)) as [s1|s1|code s1|s1] eqn:Eon.
        -- destruct (on_event_other env fsys ev _ _ Hstep Eon) as (Hc1 & Hf1).
           destruct (on_event_next env fsys ev _ _ Eon) as (_ & _ & _ & _ & Hok).
           destruct (IH Hq s1 (Hok Hi)) as (s' & Hd & Hc & Hf).
           exists s'. split; [exact Hd|]. split.
           ++ rewrite Hc, Hc1. f_equal.
           ++ rewrite Hf, Hf1. reflexivity.
        -- exfalso. exact (Hna s1 eq_refl).
        -- exfalso. destruct (Hxe s1 code eq_refl) as (Hp & _).
           rewrite Hp in Hev. discriminate.
        -- exfalso. exact (Hdef s1 Hreg Hi eq_refl).
Qed.

(** The search sees only the cache of the state it is called in. *)
Lemma port_cases (fsys : FileSystem) (s t : State) :
  port_path t = port_path s ->
  fst (find_display_port fsys t) = fst (find_display_port fsys s) /\
  port_path (snd (find_display_port fsys t)) =
    match fst (find_display_port fsys s) with
    | Some port => port
    | None => EmptyString
    end.
Proof.
  intros Hp. unfold find_display_port. rewrite Hp.
  destruct (String.eqb (port_path s) "") eqn:E; cbn [negb].
  - destruct (find_port_loop fsys 10 0) as [p|]; cbn [fst snd].
    + split; reflexivity.
    + split; [reflexivity|]. rewrite Hp. apply String.eqb_eq. exact E.
  - cbn [fst snd]. split; [reflexivity|exact Hp].
Qed.

(** X9.  The display-toggle key never touches the index, the flag, or
    anything the frame is drawn from, and never ends the process, even with
    an empty registry.  It prints the toggle line and then does exactly
    one of three things: writes the line FULLSCREEN to the display port;
    reports that the port cannot be opened; or reports that no port was
    found.  The port is the one [find_display_port] returns in the state
    before the key. *)
Theorem X9_display_toggle_key (env : Env) (fsys : FileSystem) (s : State) :
  exists s' e,
    on_event env fsys (press KEY_F) s = Next s' /\
    current_shader s' = current_shader s /\
    reload_requested s' = reload_requested s /\
    kbd_queue s' = kbd_queue s /\
    poll_keeps s s' /\
    trace s' = (trace s ++ [EvPrintf MsgToggling; e])%list /\
    match fst (find_display_port fsys s) with
    | Some port =>
        port_path s' = port /\
        e = (if fs_write fsys port
             then EvPortWrite port ("FULLSCREEN" ++ newline)
             else EvPrintf (MsgCantOpen port))
    | None => port_path s' = EmptyString /\ e = EvPrintf MsgNoDisplayPort
    end.
Proof.
  unfold on_event. change (ev_type (press KEY_F) =? EV_KEY) with true.
  change (ev_value (press KEY_F) =? 1) with true.
  change (ev_code (press KEY_F) =? KEY_LEFT) with false.
  change (ev_code (press KEY_F) =? KEY_RIGHT) with false.
  change (ev_code (press KEY_F) =? KEY_F) with true.
  cbv beta iota zeta. cbn [negb orb].
  pose proof (find_display_port_fields fsys (printf MsgToggling s)) as Hf.
  pose proof (port_cases fsys s (printf MsgToggling s) eq_refl) as Hp.
  destruct (find_display_port fsys (printf MsgToggling s)) as [[port|] s1];
    cbn [snd fst] in Hf, Hp; destruct Hf as (Hc & Hr & Hq & Ht & Hk);
    destruct Hp as (Hfst & Hpp); rewrite <- Hfst in Hpp |- *.
  - destruct (fs_write fsys port).
    + do 2 eexists. split; [reflexivity|].
      split; [exact Hc|]. split; [exact Hr|]. split; [exact Hq|]. split; [exact Hk|].
      split; [|split; [exact Hpp|reflexivity]].
      change (trace (emit ?e s1)) with (trace s1 ++ [e])%list.
      rewrite Ht. change (trace (printf MsgToggling s)) with (trace s ++ [EvPrintf MsgToggling])%list.
      rewrite <- app_assoc. reflexivity.
    + do 2 eexists. split; [reflexivity|].
      split; [exact Hc|]. split; [exact Hr|]. split; [exact Hq|]. split; [exact Hk|].
      split; [|split; [exact Hpp|reflexivity]].
      change (trace (printf ?m s1)) with (trace s1 ++ [EvPrintf m])%list.
      rewrite Ht. change (trace (printf MsgToggling s)) with (trace s ++ [EvPrintf MsgToggling])%list.
      rewrite <- app_assoc. reflexivity.
  - do 2 eexists. split; [reflexivity|].
    split; [exact Hc|]. split; [exact Hr|]. split; [exact Hq|]. split; [exact Hk|].
    split; [|split; [exact Hpp|reflexivity]].
    change (trace (printf ?m s1)) with (trace s1 ++ [EvPrintf m])%list.
    rewrite Ht. change (trace (printf MsgToggling s)) with (trace s ++ [EvPrintf MsgToggling])%list.
    rewrite <- app_assoc. reflexivity.
Qed.

(* ================================================================== *)
(** * How the loop can end *)


(** Why one pass ends the process. *)
Lemma iteration_exit_cause (env : Env) (inp : FrameInput) (s : State) :
  registry_ok env -> index_ok env s ->
  match iteration env inp s with
  | Next s' => index_ok env s' /\ (0 <= kbd_fd env -> kbd_queue s' = [])
  | Again s' =>
      index_ok env s' /\ kbd_queue s' = (kbd_queue s ++ arrivals inp)%list
  | Exited code s' =>
      (code = 0 /\ 0 <= kbd_fd env /\
       existsb is_exit_press (kbd_queue s ++ arrivals inp) = true) \/
      (code = 1 /\
       (r_vm inp <> VK_SUCCESS \/ r_fm inp <> VK_SUCCESS \/ r_pipe inp <> VK_SUCCESS \/
        r_submit inp <> VK_SUCCESS \/ r_wait inp <> VK_SUCCESS))
  | Undefined _ => False
  end.
Proof.
  intros Hreg Hi.
  pose proof (iteration_outcome env inp s Hreg Hi) as Ho.
  destruct (iteration_cases env inp s Hi) as (sh & Hsh & Hcases).
  pose proof (arrive_index_ok env inp s Hi) as Hia.
  destruct (iteration env inp s) as [s'|s'|code s'|s'] eqn:Eit.
  - destruct Ho as (Hok & _ & _ & _ & _ & Hq). split; [exact Hok|].
    intros Hk. exact (proj1 (Hq Hk)).
  - destruct Ho as (Hok & _ & Hq & _). split; [exact Hok|exact Hq].
  - destruct Ho as (_ & [(Hc & Hk & Hex & _)|(Hc & _)]);
      [left; split; [exact Hc|split; [exact Hk|exact Hex]]|].
    right. split; [exact Hc|].
    destruct Hcases as [(Hn & Heq)|[(Hn & s1 & Hrl & Heq & Hrest)|[(Hn & _ & _ & Heq)|(Hn & s1 & Hrl & Heq & _)]]].
    + pose proof (frame_outcome env inp (arrive inp s) Hreg Hia) as Hf.
      rewrite <- Heq in Hf.
      destruct Hf as (_ & _ & _ & [(Hc0 & _)|(_ & Hfail & _)]); [lia|].
      destruct Hfail as [Hfail|Hfail]; [right; right; right; left|right; right; right; right];
        exact Hfail.
    + destruct Hrest as (_ & _ & _ & _ & _ & _ & _ & _ & Hkeep & _).
      assert (Hi1 : index_ok env s1).
      { unfold index_ok. destruct Hkeep as (Hcur & _). rewrite Hcur. exact Hia. }
      pose proof (frame_outcome env inp s1 Hreg Hi1) as Hf.
      rewrite <- Heq in Hf.
      destruct Hf as (_ & _ & _ & [(Hc0 & _)|(_ & Hfail & _)]); [lia|].
      destruct Hfail as [Hfail|Hfail]; [right; right; right; left|right; right; right; right];
        exact Hfail.
    + discriminate Heq.
    + destruct (reload_outcome env inp (arrive inp s) Hia) as (sh' & _ & Hr).
      rewrite Hrl in Hr. destruct Hr as (_ & Hfail & _).
      destruct Hfail as [Hfail|[Hfail|Hfail]];
        [left|right; left|right; right; left]; exact Hfail.
  - exact Ho.
Qed.



(* ================================================================== *)
(** * Running without a keyboard *)

Lemma frame_no_keyboard (env : Env) (inp : FrameInput) (s : State) :
  kbd_fd env < 0 ->
  let s' := state_of (frame env inp s) in
  current_shader s' = current_shader s /\
  reload_requested s' = reload_requested s /\
  port_path s' = port_path s /\
  pipeline s' = pipeline s /\ start s' = start s /\ built_for s' = built_for s.
Proof.
  intros Hk. unfold frame, check_keyboard.
  replace (kbd_fd env <? 0) with true by (symmetry; apply Z.ltb_lt; exact Hk).
  cbv beta iota zeta. unfold vk_check.
  destruct (r_submit inp =? VK_SUCCESS); [|repeat split].
  destruct (r_wait inp =? VK_SUCCESS); [|repeat split].
  unfold present. destruct (gbm_map inp); cbv beta iota zeta;
    match goal with |- context [if ?c then _ else _] => destruct c end;
    try match goal with |- context [match shader_at ?r ?i with _ => _ end] =>
          destruct (shader_at r i) end;
    repeat split.
Qed.

Lemma iteration_no_keyboard (env : Env) (inp : FrameInput) (s : State) :
  registry_ok env -> kbd_fd env < 0 -> index_ok env s ->
  let s' := state_of (iteration env inp s) in
  current_shader s' = current_shader s /\
  port_path s' = port_path s /\
  (reload_requested s = 0 -> reload_requested s' = 0) /\
  (needs_reload s = false ->
   pipeline s' = pipeline s /\ start s' = start s /\ built_for s' = built_for s).
Proof.
  intros Hreg Hk Hi. cbv zeta.
  pose proof (arrive_index_ok env inp s Hi) as Hia.
  destruct (iteration_cases env inp s Hi) as (sh & Hsh & Hcases).
  destruct Hcases as [(Hn & Heq)|[(Hn & s1 & Hrl & Heq & Hrest)|[(Hn & _ & _ & Heq)|(Hn & s1 & Hrl & Heq & Hrest)]]].
  - rewrite Heq.
    destruct (frame_no_keyboard env inp (arrive inp s) Hk) as (Hc & Hr & Hp & Hpi & Hst & Hb).
    split; [exact Hc|]. split; [exact Hp|]. split; [intros H0; rewrite Hr; exact H0|].
    intros _. split; [exact Hpi|split; [exact Hst|exact Hb]].
  - rewrite Heq.
    destruct (frame_no_keyboard env inp s1 Hk) as (Hc & Hr & Hp & _).
    destruct Hrest as (_ & _ & Hr0 & _ & _ & _ & _ & _ & Hkeep & _).
    destruct Hkeep as (Hcur & Hport & _).
    split; [rewrite Hc; exact Hcur|]. split; [rewrite Hp; exact Hport|].
    split; [intros _; rewrite Hr; exact Hr0|].
    intros Hno. rewrite Hn in Hno. discriminate.
  - rewrite Heq. cbn [state_of].
    destruct (destroy_old_spec (arrive inp s))
      as (_ & _ & _ & Hc & Hr & _ & _ & _ & _ & _ & Hp & _).
    split; [exact Hc|]. split; [exact Hp|]. split; [intros H0; rewrite <- H0; exact Hr|].
    intros Hno. rewrite Hn in Hno. discriminate.
  - rewrite Heq. cbn [state_of].
    destruct Hrest as (_ & Hr & Hkeep & _). destruct Hkeep as (Hcur & Hport & _).
    split; [exact Hcur|]. split; [exact Hport|].
    split; [intros H0; rewrite Hr; exact H0|].
    intros Hno. rewrite Hn in Hno. discriminate.
Qed.

Lemma no_reload_needed (s : State) :
  reload_requested s = 0 -> pipeline s <> VK_NULL_HANDLE -> needs_reload s = false.
Proof.
  intros Hr Hp. unfold needs_reload. rewrite Hr. cbn [Z.eqb negb orb].
  apply Z.eqb_neq. exact Hp.
Qed.

(** X11.  When no keyboard was found ([kbd_fd] negative) the loop shows
    one program for as long as it runs: the index and the cached port
    never change and the process never exits with code 0.  If the reload
    flag is clear it stays clear, so once a pipeline exists it is never
    rebuilt: the pipeline and the epoch of the elapsed time stay as they
    are over every later pass. *)
Theorem X11_no_keyboard (env : Env) (inputs : list FrameInput) :
  registry_ok env -> kbd_fd env < 0 ->
  forall s, index_ok env s ->
  let out := main_loop env inputs s in
  current_shader (state_of out) = current_shader s /\
  port_path (state_of out) = port_path s /\
  (forall s', out <> Exited 0 s') /\
  (reload_requested s = 0 ->
   reload_requested (state_of out) = 0 /\
   (pipeline s <> VK_NULL_HANDLE ->
    pipeline (state_of out) = pipeline s /\ start (state_of out) = start s /\
    built_for (state_of out) = built_for s)).
Proof.
  intros Hreg Hk. induction inputs as [|inp rest IH]; intros s Hi; cbv zeta.
  - cbn [main_loop state_of]. split; [reflexivity|]. split; [reflexivity|].
    split; [discriminate|]. intros H0. split; [exact H0|]. intros _. repeat split.
  - cbn [main_loop].
    destruct (iteration_no_keyboard env inp s Hreg Hk Hi) as (Hc & Hp & Hr & Hkeep).
    pose proof (iteration_exit_cause env inp s Hreg Hi) as Hcause.
    assert (Hstep : forall s1, index_ok env s1 ->
              state_of (iteration env inp s) = s1 ->
              current_shader (state_of (main_loop env rest s1)) = current_shader s /\
              port_path (state_of (main_loop env rest s1)) = port_path s /\
              (forall s', main_loop env rest s1 <> Exited 0 s') /\
              (reload_requested s = 0 ->
               reload_requested (state_of (main_loop env rest s1)) = 0 /\
               (pipeline s <> VK_NULL_HANDLE ->
                pipeline (state_of (main_loop env rest s1)) = pipeline s /\
                start (state_of (main_loop env rest s1)) = start s /\
                built_for (state_of (main_loop env rest s1)) = built_for s))).
    { intros s1 Hi1 Hs1. rewrite Hs1 in Hc, Hp, Hr, Hkeep.
      destruct (IH s1 Hi1) as (Hc' & Hp' & Hx' & Hr').
      split; [rewrite Hc'; exact Hc|]. split; [rewrite Hp'; exact Hp|].
      split; [exact Hx'|]. intros H0.
      destruct (Hr' (Hr H0)) as (Hr0 & Hpipe).
      split; [exact Hr0|]. intros Hne.
      destruct (Hkeep (no_reload_needed s H0 Hne)) as (Hk1 & Hk2 & Hk3).
      destruct Hpipe as (Hq1 & Hq2 & Hq3); [rewrite Hk1; exact Hne|].
      split; [rewrite Hq1; exact Hk1|]. split; [rewrite Hq2; exact Hk2|].
      rewrite Hq3; exact Hk3. }
    destruct (iteration env inp s) as [s1|s1|code s1|s1].
    + exact (Hstep s1 (proj1 Hcause) eq_refl).
    + exact (Hstep s1 (proj1 Hcause) eq_refl).
    + cbn [state_of] in *. split; [exact Hc|]. split; [exact Hp|]. split.
      * intros s' Hx. injection Hx as Hcode _.
        destruct Hcause as [(_ & Hk0 & _)|(Hc1 & _)]; lia.
      * intros H0. split; [exact (Hr H0)|]. intros Hne.
        exact (Hkeep (no_reload_needed s H0 Hne)).
    + contradiction.
Qed.

(* ================================================================== *)
(** * The calls of one pass, in order *)

Lemma trace_emit (e : Event) (s : State) : trace (emit e s) = (trace s ++ [e])%list.
Proof. reflexivity. Qed.

Lemma record_commands_trace (env : Env) (s : State) :
  trace (record_commands env s) =
  (trace s ++ [ EvBeginCommandBuffer; EvCmdBeginRenderPass (W env) (H env);
                EvCmdBindPipeline (pipeline s); EvCmdBindDescriptorSets;
                EvCmdDraw 6 1 0 0; EvCmdEndRenderPass; EvEndCommandBuffer ])%list.
Proof.
  unfold record_commands. cbv zeta. rewrite !trace_emit, <- !app_assoc. reflexivity.
Qed.

Lemma record_commands_fields (env : Env) (s : State) :
  let s' := record_commands env s in
  frames s' = frames s /\ pipeline s' = pipeline s /\
  current_shader s' = current_shader s /\ start s' = start s.
Proof. cbv zeta. repeat split. Qed.

Lemma trace_set_gbmMem (v : mem) (s : State) : trace (set_gbmMem v s) = trace s.
Proof. reflexivity. Qed.

Lemma trace_set_rtMem (v : mem) (s : State) : trace (set_rtMem v s) = trace s.
Proof. reflexivity. Qed.

Lemma present_trace (env : Env) (inp : FrameInput) (s : State) :
  trace (present env inp s) =
  (trace s ++ match gbm_map inp with
              | Some _ => [ EvGbmMap true; EvGbmUnmap ]
              | None => [ EvGbmMap false ]
              end ++ [ EvDirtyFB ])%list.
Proof.
  unfold present. destruct (gbm_map inp); cbv zeta.
  - rewrite !trace_emit, trace_set_gbmMem, trace_emit, <- !app_assoc. reflexivity.
  - rewrite !trace_emit, <- !app_assoc. reflexivity.
Qed.

Lemma present_fields (env : Env) (inp : FrameInput) (s : State) :
  let s' := present env inp s in
  frames s' = frames s /\ pipeline s' = pipeline s /\
  current_shader s' = current_shader s /\ start s' = start s.
Proof. cbv zeta. unfold present. destruct (gbm_map inp); repeat split. Qed.

(** The state before the frame counter is incremented. *)
Lemma frame_success (env : Env) (inp : FrameInput) (s s1 : State) :
  check_keyboard env (fs inp) s = Next s1 ->
  r_submit inp = VK_SUCCESS -> r_wait inp = VK_SUCCESS ->
  exists Y,
    trace Y = (trace s1 ++ frame_events env (pipeline s1) inp)%list /\
    frames Y = frames s1 /\ pipeline Y = pipeline s1 /\
    current_shader Y = current_shader s1 /\ start Y = start s1 /\
    frame env inp s =
      (let X := set_frames (int_add (frames Y) 1) Y in
       if Z.rem (frames X) 60 =? 0 then
         match shader_at (shaders env) (current_shader X) with
         | Some sh =>
             Next (printf (MsgFps (elapsed (start s) (clock_frame inp))
                                  (frames X) (name sh)) X)
         | None => Undefined X
         end
       else Next X).
Proof.
  intros Hck Hs Hw.
  pose (U := set_uboMem (Some (make_ubo env (elapsed (start s) (clock_frame inp)))) s1).
  pose (R := record_commands env U).
  pose (Q := emit EvResetFences
               (set_rtMem (gpu_output inp)
                  (emit (EvWaitForFences (r_wait inp))
                     (emit (EvQueueSubmit (r_submit inp)) R)))).
  exists (present env inp Q).
  destruct (present_fields env inp Q) as (F1 & F2 & F3 & F4).
  split.
  { rewrite present_trace. unfold Q.
    rewrite trace_emit, trace_set_rtMem, !trace_emit. unfold R.
    rewrite record_commands_trace.
    unfold frame_events. rewrite <- !app_assoc. reflexivity. }
  split; [rewrite F1; reflexivity|].
  split; [rewrite F2; reflexivity|].
  split; [rewrite F3; reflexivity|].
  split; [rewrite F4; reflexivity|].
  unfold frame. rewrite Hck. unfold vk_check.
  replace (r_submit inp =? VK_SUCCESS) with true by (rewrite Hs; reflexivity).
  replace (r_wait inp =? VK_SUCCESS) with true by (rewrite Hw; reflexivity).
  reflexivity.
Qed.

Lemma frame_next_poll (env : Env) (inp : FrameInput) (s s' : State) :
  frame env inp s = Next s' -> exists s1, check_keyboard env (fs inp) s = Next s1.
Proof.
  unfold frame. destruct (check_keyboard env (fs inp) s) as [s1|s1|c s1|s1];
    [exists s1; reflexivity| | |]; discriminate.
Qed.

(** A completed frame after the poll. *)
Lemma frame_protocol (env : Env) (inp : FrameInput) (s s' : State) :
  registry_ok env -> index_ok env s ->
  frame env inp s = Next s' ->
  exists pre,
    trace s' = (trace s ++ pre ++ frame_events env (pipeline s') inp ++
                fps_line env (elapsed (start s') (clock_frame inp)) s')%list /\
    Forall (fun e => ~ device_work e /\ ~ presents e) pre /\
    frames s' = int_add (frames s) 1.
Proof.
  intros Hreg Hi Hf.
  destruct (frame_next_poll env inp s s' Hf) as (s1 & Hck).
  pose proof (frame_outcome env inp s Hreg Hi) as Ho. rewrite Hf in Ho.
  destruct Ho as (Hs & Hw & _).
  pose proof (check_keyboard_outcome env (fs inp) s Hreg Hi) as Hp. rewrite Hck in Hp.
  destruct Hp as (Hkeep & (pre & Hpre & Hall) & _).
  destruct Hkeep as (Hpipe & _ & _ & Hstart & Hframes & _).
  destruct (frame_success env inp s s1 Hck Hs Hw)
    as (Y & Yt & Yf & Yp & Yc & Ys & Heq).
  cbv zeta in Heq. rewrite Heq in Hf. clear Heq.
  change (frames (set_frames (int_add (frames Y) 1) Y)) with (int_add (frames Y) 1) in Hf.
  change (current_shader (set_frames (int_add (frames Y) 1) Y)) with (current_shader Y) in Hf.
  exists pre. split; [|split].
  - unfold fps_line.
    destruct (Z.rem (int_add (frames Y) 1) 60 =? 0) eqn:E60.
    + destruct (shader_at (shaders env) (current_shader Y)) as [sh|] eqn:Esh;
        [|discriminate].
      injection Hf as <-.
      change (frames (printf ?m (set_frames ?v ?x))) with v.
      change (current_shader (printf ?m (set_frames ?v ?x))) with (current_shader x).
      change (pipeline (printf ?m (set_frames ?v ?x))) with (pipeline x).
      change (start (printf ?m (set_frames ?v ?x))) with (start x).
      change (trace (printf ?m (set_frames ?v ?x))) with (trace x ++ [EvPrintf m])%list.
      rewrite E60, Esh, Yt, Yp, Ys, Hpre, Hstart, Hpipe, <- !app_assoc. reflexivity.
    + injection Hf as <-.
      change (frames (set_frames ?v ?x)) with v.
      change (pipeline (set_frames ?v ?x)) with (pipeline x).
      change (trace (set_frames ?v ?x)) with (trace x).
      rewrite E60, Yt, Yp, Hpre, Hpipe, app_nil_r, <- !app_assoc. reflexivity.
  - apply Forall_forall. intros e He.
    pose proof (proj1 (Forall_forall _ _) Hall e He) as Hpc.
    split; [exact (poll_call_not_device_work e Hpc)|exact (poll_call_not_presents e Hpc)].
  - rewrite <- Hframes, <- Yf.
    destruct (Z.rem (int_add (frames Y) 1) 60 =? 0).
    + destruct (shader_at (shaders env) (current_shader Y)); [|discriminate].
      injection Hf as <-. reflexivity.
    + injection Hf as <-. reflexivity.
Qed.

(** X12.  Every pass that completes makes the same calls in the same
    order: first only calls of the reload block and output of the key
    handlers (nothing is recorded, submitted or presented yet), then the
    seven recording calls binding the pipeline that the pass ends with,
    one submission, one fence wait, the fence reset, the scanout mapping
    and the dirty-rectangle call, and last the statistics line when the
    frame count has reached a multiple of 60.  The count is one more than
    before, counted from zero when the pass rebuilt the pipeline; the line
    carries the elapsed time of this frame and names the program at the
    index as the poll of this pass left it. *)
Theorem X12_pass_protocol (env : Env) (inp : FrameInput) (s s' : State) :
  registry_ok env -> index_ok env s ->
  iteration env inp s = Next s' ->
  exists pre,
    trace s' = (trace s ++ pre ++ frame_events env (pipeline s') inp ++
                fps_line env (elapsed (start s') (clock_frame inp)) s')%list /\
    Forall (fun e => ~ device_work e /\ ~ presents e) pre /\
    frames s' = int_add (if needs_reload s then 0 else frames s) 1.
Proof.
  intros Hreg Hi Hit.
  pose proof (arrive_index_ok env inp s Hi) as Hia.
  destruct (iteration_cases env inp s Hi) as (sh & Hsh & Hcases).
  destruct Hcases as [(Hn & Heq)|[(Hn & s1 & Hrl & Heq & Hrest)|[(Hn & _ & _ & Heq)|(Hn & s1 & Hrl & Heq & _)]]].
  - rewrite Heq in Hit.
    destruct (frame_protocol env inp (arrive inp s) s' Hreg Hia Hit) as (pre & Ht & Hall & Hfr).
    exists pre. rewrite Hn. split; [exact Ht|]. split; [exact Hall|exact Hfr].
  - rewrite Heq in Hit.
    destruct Hrest as (_ & _ & _ & _ & _ & _ & _ & Hfr0 & Hkeep & (evs & Hevs & Hrc)).
    assert (Hi1 : index_ok env s1).
    { unfold index_ok. destruct Hkeep as (Hcur & _). rewrite Hcur. exact Hia. }
    destruct (frame_protocol env inp s1 s' Hreg Hi1 Hit) as (pre & Ht & Hall & Hfr).
    exists (evs ++ pre)%list. rewrite Hn. split; [|split].
    + rewrite Ht, Hevs, <- !app_assoc. reflexivity.
    + apply Forall_app. split; [|exact Hall].
      apply Forall_forall. intros e He.
      exact (reload_call_not_device_work env s e (proj1 (Forall_forall _ _) Hrc e He)).
    + rewrite Hfr, Hfr0. reflexivity.
  - rewrite Heq in Hit. discriminate.
  - rewrite Heq in Hit. discriminate.
Qed.

(* ================================================================== *)
(** * The pass after a failed load *)

(** After "Clean up old shaders/pipeline" none of the three old objects
    is alive. *)
Lemma destroy_old_dead (s : State) (h : handle) :
  h <> VK_NULL_HANDLE ->
  h = pipeline s \/ h = vm s \/ h = fm s ->
  ~ In h (live (destroy_old s)).
Proof.
  intros Hne Hh.
  unfold destroy_old, destroy_fm, destroy_vm, destroy_pipeline.
  destruct (pipeline s =? VK_NULL_HANDLE) eqn:Ep; cbn;
    destruct (vm s =? VK_NULL_HANDLE) eqn:Ev; cbn;
    destruct (fm s =? VK_NULL_HANDLE) eqn:Ef; cbn;
    try apply Z.eqb_eq in Ep; try apply Z.eqb_eq in Ev; try apply Z.eqb_eq in Ef;
    intros Hin;
    repeat (match goal with
            | H : In _ (remove Z.eq_dec ?x ?l) |- _ =>
                apply in_remove in H; destruct H
            end);
    destruct Hh as [Hh|[Hh|Hh]]; congruence.
Qed.

(** The reload block starts with the destroy calls, whatever follows. *)
Lemma reload_prefix (env : Env) (inp : FrameInput) (s : State) :
  grows (fun _ => True) (destroy_old s) (state_of (reload env inp s)).
Proof.
  unfold reload. cbv zeta.
  destruct (shader_at (shaders env) (current_shader (destroy_old s))) as [sh|];
    [|apply grows_refl].
  unfold load_spv, vk_check, new_object.
  destruct (fs_read (fs inp) (vert_path sh)) as [vc|];
    [destruct (fs_read (fs inp) (frag_path sh)) as [fc|]|].
  - destruct (r_vm inp =? VK_SUCCESS); cbv beta iota zeta;
      [|cbn [state_of]; repeat grows_step].
    destruct (r_fm inp =? VK_SUCCESS); cbv beta iota zeta;
      [|cbn [state_of]; repeat grows_step].
    destruct (r_pipe inp =? VK_SUCCESS); cbv beta iota zeta;
      cbn [state_of]; repeat grows_step.
  - cbn [state_of]. repeat grows_step.
  - cbn [state_of]. repeat grows_step.
Qed.

Lemma grows_any (P : Event -> Prop) (s s' : State) :
  grows P s s' -> grows (fun _ => True) s s'.
Proof. apply grows_weaken. intros e _. exact I. Qed.

Lemma frame_grows (env : Env) (inp : FrameInput) (s : State) :
  registry_ok env -> index_ok env s ->
  grows (fun _ => True) s (state_of (frame env inp s)).
Proof.
  intros Hreg Hi. pose proof (frame_outcome env inp s Hreg Hi) as Ho.
  destruct (frame env inp s) as [s'|s'|code s'|s']; cbn [state_of].
  - destruct Ho as (_ & _ & _ & _ & _ & _ & _ & _ & _ & _ & _ & Hg & _).
    exact (grows_any _ _ _ Hg).
  - contradiction.
  - destruct Ho as (_ & _ & _ & [(_ & _ & _ & Hg)|(_ & _ & _ & Hg)]);
      exact (grows_any _ _ _ Hg).
  - contradiction.
Qed.

(** A pass that needs a rebuild starts with the destroy calls for the
    handles it finds. *)
Lemma iteration_retry_prefix (env : Env) (inp : FrameInput) (s : State) :
  registry_ok env -> index_ok env s -> needs_reload s = true ->
  exists evs,
    trace (state_of (iteration env inp s)) = (trace s ++ destroy_events s ++ evs)%list.
Proof.
  intros Hreg Hi Hn.
  pose proof (arrive_index_ok env inp s Hi) as Hia.
  destruct (reload_prefix env inp (arrive inp s)) as (evs & He & _).
  destruct (destroy_old_spec (arrive inp s)) as (Ht & _).
  cbv zeta in Ht. rewrite Ht in He.
  change (trace (arrive inp s)) with (trace s) in He.
  change (destroy_events (arrive inp s)) with (destroy_events s) in He.
  destruct (reload_outcome env inp (arrive inp s) Hia) as (sh & _ & Hro).
  unfold iteration. cbv zeta.
  change (needs_reload (arrive inp s)) with (needs_reload s). rewrite Hn.
  destruct (reload env inp (arrive inp s)) as [s1|s1|code s1|s1]; cbn [state_of] in He.
  - destruct Hro as (_ & _ & _ & _ & _ & _ & _ & _ & _ & _ & _ & Hkeep & _).
    assert (Hi1 : index_ok env s1).
    { unfold index_ok. destruct Hkeep as (Hcur & _). rewrite Hcur. exact Hia. }
    destruct (frame_grows env inp s1 Hreg Hi1) as (evs2 & He2 & _).
    exists (evs ++ evs2)%list. rewrite He2, He, <- !app_assoc. reflexivity.
  - exists evs. cbn [state_of]. rewrite He, <- app_assoc. reflexivity.
  - exists evs. cbn [state_of]. rewrite He, <- app_assoc. reflexivity.
  - contradiction.
Qed.

(** A pass whose binaries cannot be read. *)
Lemma iteration_failed_load (env : Env) (inp : FrameInput) (s : State) (sh : ShaderInfo) :
  needs_reload s = true ->
  shader_at (shaders env) (current_shader s) = Some sh ->
  load_spv (fs inp) (vert_path sh) = None \/ load_spv (fs inp) (frag_path sh) = None ->
  iteration env inp s =
    Again (emit (EvSleep 1)
             (printf (MsgFailedToLoad (name sh)) (destroy_old (arrive inp s)))).
Proof.
  intros Hneed Hsh Hload.
  destruct (destroy_old_spec (arrive inp s)) as (_ & _ & _ & Hc & _).
  cbv zeta in Hc.
  unfold iteration. cbv zeta.
  change (needs_reload (arrive inp s)) with (needs_reload s). rewrite Hneed.
  unfold reload. cbv zeta. rewrite Hc.
  change (current_shader (arrive inp s)) with (current_shader s). rewrite Hsh.
  destruct Hload as [Hl0|Hl0]; rewrite Hl0;
    [|destruct (load_spv (fs inp) (vert_path sh))]; reflexivity.
Qed.

(** X13.  A failed load leaves the three handles as they were although
    their objects have just been destroyed: none of the non-null old
    handles is alive after the pass, the variables still hold them, and
    the pass that follows, whatever it finds, starts by issuing the same
    destroy calls again on these handles. *)
Theorem X13_retry_destroys_again (env : Env) (inp1 inp2 : FrameInput) (s : State)
        (sh : ShaderInfo) :
  registry_ok env ->
  needs_reload s = true ->
  shader_at (shaders env) (current_shader s) = Some sh ->
  load_spv (fs inp1) (vert_path sh) = None \/ load_spv (fs inp1) (frag_path sh) = None ->
  exists s1,
    iteration env inp1 s = Again s1 /\
    pipeline s1 = pipeline s /\ vm s1 = vm s /\ fm s1 = fm s /\
    (forall h, h <> VK_NULL_HANDLE ->
               h = pipeline s \/ h = vm s \/ h = fm s -> ~ In h (live s1)) /\
    exists evs,
      trace (state_of (iteration env inp2 s1)) =
      (trace s1 ++ destroy_events s ++ evs)%list.
Proof.
  intros Hreg Hneed Hsh Hload.
  assert (Hi : index_ok env s) by (eapply shader_at_some_range; exact Hsh).
  destruct (destroy_old_spec (arrive inp1 s))
    as (_ & _ & _ & Hc & Hr & Hp & Hv & Hf & _).
  cbv zeta in Hc, Hr, Hp, Hv, Hf.
  eexists. split; [exact (iteration_failed_load env inp1 s sh Hneed Hsh Hload)|].
  set (s1 := emit (EvSleep 1)
               (printf (MsgFailedToLoad (name sh)) (destroy_old (arrive inp1 s)))).
  assert (Hp1 : pipeline s1 = pipeline s) by exact Hp.
  assert (Hv1 : vm s1 = vm s) by exact Hv.
  assert (Hf1 : fm s1 = fm s) by exact Hf.
  split; [exact Hp1|]. split; [exact Hv1|]. split; [exact Hf1|]. split.
  - intros h Hne Hh. exact (destroy_old_dead (arrive inp1 s) h Hne Hh).
  - assert (Hi1 : index_ok env s1).
    { unfold index_ok. change (current_shader s1)
        with (current_shader (destroy_old (arrive inp1 s))).
      rewrite Hc. exact Hi. }
    assert (Hn1 : needs_reload s1 = true).
    { unfold needs_reload in *. rewrite Hp1.
      change (reload_requested s1)
        with (reload_requested (destroy_old (arrive inp1 s))).
      rewrite Hr. exact Hneed. }
    destruct (iteration_retry_prefix env inp2 s1 Hreg Hi1 Hn1) as (evs & He).
    exists evs. rewrite He. unfold destroy_events. rewrite Hp1, Hv1, Hf1. reflexivity.
Qed.

(* ================================================================== *)
(** * [open_keyboard] *)

Lemma open_keyboard_from_S (devs : InputDevices) (n i : nat) :
  open_keyboard_from devs (S n) i =
  (let fd := dev_open devs (event_path i) in
   if 0 <=? fd then
     if strstr (dev_name devs fd) "keyboard" || strstr (dev_name devs fd) "Keyboard"
     then (fd, [])
     else (fst (open_keyboard_from devs n (S i)),
           fd :: snd (open_keyboard_from devs n (S i)))
   else open_keyboard_from devs n (S i)).
Proof.
  cbn [open_keyboard_from]. cbv zeta.
  change (snprintf 64 ("/dev/input/event" ++ digit i)) with (event_path i).
  destruct (0 <=? dev_open devs (event_path i)); [|reflexivity].
  destruct (strstr _ "keyboard" || strstr _ "Keyboard"); [reflexivity|].
  destruct (open_keyboard_from devs n (S i)); reflexivity.
Qed.

(** The loop from device [i] on. *)
Lemma open_keyboard_from_spec (devs : InputDevices) (n : nat) :
  forall i,
    (fst (open_keyboard_from devs n i) = -1 /\
     (forall j, (i <= j < i + n)%nat -> is_keyboard devs j = false) /\
     snd (open_keyboard_from devs n i) = opened_from devs i n) \/
    (exists k, (i <= k < i + n)%nat /\
       is_keyboard devs k = true /\
       (forall j, (i <= j < k)%nat -> is_keyboard devs j = false) /\
       fst (open_keyboard_from devs n i) = dev_open devs (event_path k) /\
       0 <= fst (open_keyboard_from devs n i) /\
       snd (open_keyboard_from devs n i) = opened_from devs i (k - i)).
Proof.
  induction n as [|n IH]; intros i.
  - left. cbn [open_keyboard_from fst snd]. split; [reflexivity|].
    split; [intros j Hj; lia|reflexivity].
  - rewrite open_keyboard_from_S. cbv zeta.
    assert (Hcons : forall m, opened_from devs i (S m) =
              (if 0 <=? dev_open devs (event_path i)
               then dev_open devs (event_path i) :: opened_from devs (S i) m
               else opened_from devs (S i) m)).
    { intros m. unfold opened_from. cbn [seq map filter]. reflexivity. }
    destruct (0 <=? dev_open devs (event_path i)) eqn:Eo.
    + destruct (strstr (dev_name devs (dev_open devs (event_path i))) "keyboard"
                || strstr (dev_name devs (dev_open devs (event_path i))) "Keyboard") eqn:Ek.
      * right. exists i. split; [lia|]. split.
        { unfold is_keyboard. cbv zeta. rewrite Eo, Ek. reflexivity. }
        split; [intros j Hj; lia|]. cbn [fst snd].
        split; [reflexivity|]. split; [apply Z.leb_le; exact Eo|].
        rewrite Nat.sub_diag. reflexivity.
      * assert (Hno : is_keyboard devs i = false)
          by (unfold is_keyboard; cbv zeta; rewrite Eo, Ek; reflexivity).
        cbn [fst snd].
        destruct (IH (S i)) as [(Hf & Hall & Hs)|(k & Hk & Hyes & Hfirst & Hf & Hpos & Hs)].
        -- left. split; [exact Hf|]. split.
           ++ intros j Hj. destruct (Nat.eq_dec j i) as [->|Hne]; [exact Hno|].
              apply Hall. lia.
           ++ rewrite Hcons, Hs. reflexivity.
        -- right. exists k. split; [lia|]. split; [exact Hyes|]. split.
           ++ intros j Hj. destruct (Nat.eq_dec j i) as [->|Hne]; [exact Hno|].
              apply Hfirst. lia.
           ++ split; [exact Hf|]. split; [exact Hpos|].
              replace (k - i)%nat with (S (k - S i)) by lia.
              rewrite Hcons, Hs. reflexivity.
    + assert (Hno : is_keyboard devs i = false)
        by (unfold is_keyboard; cbv zeta; rewrite Eo; reflexivity).
      destruct (IH (S i)) as [(Hf & Hall & Hs)|(k & Hk & Hyes & Hfirst & Hf & Hpos & Hs)].
      * left. split; [exact Hf|]. split.
        -- intros j Hj. destruct (Nat.eq_dec j i) as [->|Hne]; [exact Hno|].
           apply Hall. lia.
        -- rewrite Hcons, Hs. reflexivity.
      * right. exists k. split; [lia|]. split; [exact Hyes|]. split.
        -- intros j Hj. destruct (Nat.eq_dec j i) as [->|Hne]; [exact Hno|].
           apply Hfirst. lia.
        -- split; [exact Hf|]. split; [exact Hpos|].
           replace (k - i)%nat with (S (k - S i)) by lia.
           rewrite Hcons, Hs. reflexivity.
Qed.

(** X14.  [open_keyboard] returns the descriptor of the first of
    /dev/input/event0 to event9 that can be opened and whose device name
    contains "keyboard" or "Keyboard", and -1 when there is none.  In both
    cases it has closed exactly the descriptors it opened on the way and
    does not return, in the order of opening: no descriptor is left
    open. *)
Theorem X14_open_keyboard (devs : InputDevices) :
  let fd := fst (open_keyboard devs) in
  let closed := snd (open_keyboard devs) in
  (fd = -1 /\
   (forall j, (j < 10)%nat -> is_keyboard devs j = false) /\
   closed = opened_from devs 0 10) \/
  (exists k, (k < 10)%nat /\
     is_keyboard devs k = true /\
     (forall j, (j < k)%nat -> is_keyboard devs j = false) /\
     fd = dev_open devs (event_path k) /\ 0 <= fd /\
     closed = opened_from devs 0 k).
Proof.
  cbv zeta. unfold open_keyboard.
  destruct (open_keyboard_from_spec devs 10 0)
    as [(Hf & Hall & Hs)|(k & Hk & Hyes & Hfirst & Hf & Hpos & Hs)].
  - left. split; [exact Hf|]. split; [|exact Hs].
    intros j Hj. apply Hall. lia.
  - right. exists k. split; [lia|]. split; [exact Hyes|]. split.
    + intros j Hj. apply Hfirst. lia.
    + split; [exact Hf|]. split; [exact Hpos|].
      rewrite Nat.sub_0_r in Hs. exact Hs.
Qed.

(* ================================================================== *)
(** * The connector and the display size *)

Lemma pick_connector_spec (cs : list (option drmModeConnector)) :
  match pick_connector cs with
  | Some conn =>
      exists pre rest,
        cs = (pre ++ Some conn :: rest)%list /\
        connection conn = DRM_MODE_CONNECTED /\
        forall c, In (Some c) pre -> connection c <> DRM_MODE_CONNECTED
  | None => forall c, In (Some c) cs -> connection c <> DRM_MODE_CONNECTED
  end.
Proof.
  induction cs as [|[c0|] rest IH]; cbn [pick_connector].
  - intros c [].
  - destruct (connection c0 =? DRM_MODE_CONNECTED) eqn:E.
    + apply Z.eqb_eq in E. exists [], rest.
      split; [reflexivity|]. split; [exact E|intros c []].
    + apply Z.eqb_neq in E. destruct (pick_connector rest) as [conn|].
      * destruct IH as (pre & rest' & Hcs & Hc & Hpre).
        exists (Some c0 :: pre), rest'. split; [rewrite Hcs; reflexivity|].
        split; [exact Hc|]. intros c [Hx|Hin]; [injection Hx as <-; exact E|exact (Hpre c Hin)].
      * intros c [Hx|Hin]; [injection Hx as <-; exact E|exact (IH c Hin)].
  - destruct (pick_connector rest) as [conn|].
    + destruct IH as (pre & rest' & Hcs & Hc & Hpre).
      exists (None :: pre), rest'. split; [rewrite Hcs; reflexivity|].
      split; [exact Hc|]. intros c [Hx|Hin]; [discriminate|exact (Hpre c Hin)].
    + intros c [Hx|Hin]; [discriminate|exact (IH c Hin)].
Qed.

(** X15.  The display size comes from the first mode of the first
    connector that exists and is connected, null and disconnected
    connectors before it being skipped.  Both dimensions are below 65536,
    so their conversion to float for the viewport is exact.  Nothing is
    defined when no connector is connected (the loop leaves a null
    pointer, which is then dereferenced) or when the chosen connector has
    no mode. *)
Theorem X15_display_size (cs : list (option drmModeConnector)) :
  match display_size cs with
  | Some (w, h) =>
      (exists pre conn rest mode ms,
         cs = (pre ++ Some conn :: rest)%list /\
         (forall c, In (Some c) pre -> connection c <> DRM_MODE_CONNECTED) /\
         connection conn = DRM_MODE_CONNECTED /\
         modes conn = mode :: ms /\
         w = hdisplay mode mod 65536 /\ h = vdisplay mode mod 65536) /\
      0 <= w < 65536 /\ 0 <= h < 65536 /\
      float_to_Z (F32.of_Z w) = Some w /\ float_to_Z (F32.of_Z h) = Some h
  | None =>
      (forall c, In (Some c) cs -> connection c <> DRM_MODE_CONNECTED) \/
      (exists pre conn rest,
         cs = (pre ++ Some conn :: rest)%list /\
         (forall c, In (Some c) pre -> connection c <> DRM_MODE_CONNECTED) /\
         connection conn = DRM_MODE_CONNECTED /\ modes conn = [])
  end.
Proof.
  unfold display_size. pose proof (pick_connector_spec cs) as Hp.
  destruct (pick_connector cs) as [conn|]; [|left; exact Hp].
  destruct Hp as (pre & rest & Hcs & Hc & Hpre).
  destruct (modes conn) as [|mode ms] eqn:Em.
  - right. exists pre, conn, rest. repeat split; assumption.
  - unfold wrap_u. change (2 ^ 16) with 65536.
    assert (Hw : 0 <= hdisplay mode mod 65536 < 65536) by (apply Z.mod_pos_bound; lia).
    assert (Hh : 0 <= vdisplay mode mod 65536 < 65536) by (apply Z.mod_pos_bound; lia).
    split.
    + exists pre, conn, rest, mode, ms. repeat split; assumption.
    + split; [exact Hw|]. split; [exact Hh|].
      split; apply float_of_uint16_exact; assumption.
Qed.

(* ================================================================== *)
(** * The order of the search directories *)

Lemma accepted_in_unique (fsys : FileSystem) (dir : string) (a b : ShaderInfo) :
  accepted_in fsys dir a -> accepted_in fsys dir b -> name a = name b -> a = b.
Proof.
  intros (_ & _ & _ & _ & _ & _ & _ & Hva & Hfa & _)
         (_ & _ & _ & _ & _ & _ & _ & Hvb & Hfb & _) Hn.
  destruct a as [na va fa], b as [nb vb fb]. cbn in *. subst nb.
  rewrite Hva, Hvb, Hfa, Hfb. reflexivity.
Qed.

(** The first entry with a name lies in the first segment that holds
    one. *)
Lemma find_in_prefix (a1 rest : list ShaderInfo) (info : ShaderInfo) :
  In info a1 ->
  exists info',
    shader_at (a1 ++ rest) (find_shader_by_name (a1 ++ rest) (name info)) = Some info' /\
    In info' a1 /\ name info' = name info.
Proof.
  intros Hin. unfold find_shader_by_name.
  destruct (In_nth_error a1 info Hin) as (k & Hk).
  assert (Hklt : (k < List.length a1)%nat)
    by (apply nth_error_Some; rewrite Hk; discriminate).
  destruct (find_from_spec (name info) (a1 ++ rest)%list 0)
    as [(_ & Hall)|(Hr & sh & Hnth & Hnm & Hfirst)].
  - exfalso. apply (Hall info); [apply in_or_app; left; exact Hin|reflexivity].
  - cbv zeta in *. rewrite Z.sub_0_r in Hnth.
    set (r := find_from (a1 ++ rest) (name info) 0) in *.
    assert (Hrk : r <= Z.of_nat k).
    { destruct (Z_le_gt_dec r (Z.of_nat k)) as [Hle|Hgt]; [exact Hle|].
      exfalso. apply (Hfirst (Z.of_nat k) info); [lia| |reflexivity].
      rewrite Z.sub_0_r, Nat2Z.id, nth_error_app1 by exact Hklt. exact Hk. }
    exists sh. unfold shader_at.
    replace (r <? 0) with false by (symmetry; apply Z.ltb_ge; lia).
    split; [exact Hnth|]. split; [|exact Hnm].
    rewrite nth_error_app1 in Hnth by lia.
    exact (nth_error_In _ _ Hnth).
Qed.

(** X16.  The registry lists the programs of the current directory
    first, then those of ./shaders, then those of
    /root/metalshade/shaders, a program that several directories hold
    being listed once for each.  Selection by name takes the first entry,
    so, as long as the registry is not full, a program of the current
    directory is the one that its name selects, whatever the other two
    directories hold under that name. *)
Theorem X16_search_order (fsys : FileSystem) :
  (exists a1 a2 a3,
     scan_all_shaders fsys = (a1 ++ a2 ++ a3)%list /\
     (forall info, In info a1 -> accepted_in fsys "." info) /\
     (forall info, In info a2 -> accepted_in fsys "./shaders" info) /\
     (forall info, In info a3 -> accepted_in fsys "/root/metalshade/shaders" info)) /\
  (forall info,
     shader_count (scan_all_shaders fsys) < MAX_SHADERS ->
     accepted_in fsys "." info ->
     shader_at (scan_all_shaders fsys)
               (find_shader_by_name (scan_all_shaders fsys) (name info)) = Some info).
Proof.
  unfold scan_all_shaders, search_dirs. cbn [fold_left].
  destruct (scan_shaders_spec fsys "." []) as ((a1 & H1 & Ha1) & _ & Hc1).
  destruct (scan_shaders_spec fsys "./shaders" (scan_shaders fsys "." []))
    as ((a2 & H2 & Ha2) & _ & _).
  destruct (scan_shaders_spec fsys "/root/metalshade/shaders"
              (scan_shaders fsys "./shaders" (scan_shaders fsys "." [])))
    as ((a3 & H3 & Ha3) & _ & _).
  cbv zeta in *. cbn [app] in H1.
  assert (Hall : scan_shaders fsys "/root/metalshade/shaders"
                   (scan_shaders fsys "./shaders" (scan_shaders fsys "." []))
                 = (a1 ++ a2 ++ a3)%list).
  { rewrite H3, H2, H1, <- app_assoc. reflexivity. }
  split.
  - exists a1, a2, a3. split; [exact Hall|]. split; [exact Ha1|]. split; [exact Ha2|exact Ha3].
  - intros info Hlt Hacc. rewrite Hall in Hlt |- *.
    assert (Hin : In info a1).
    { rewrite <- H1. apply Hc1; [|exact Hacc].
      rewrite H1. pose proof (shader_count_app a1 (a2 ++ a3)) as Hm. lia. }
    destruct (find_in_prefix a1 (a2 ++ a3) info Hin) as (info' & Hat & Hin' & Hnm).
    rewrite Hat. f_equal.
    exact (accepted_in_unique fsys "." info' info (Ha1 info' Hin') Hacc Hnm).
Qed.

(* ================================================================== *)
(** * Device objects over the run *)



Lemma objects_ok_same (base : list handle) (s s' : State) :
  pipeline s' = pipeline s -> vm s' = vm s -> fm s' = fm s ->
  live s' = live s -> next_handle s' = next_handle s ->
  (needs_reload s = true -> live s = base -> needs_reload s' = true) ->
  objects_ok base s -> objects_ok base s'.
Proof.
  intros Hp Hv Hf Hl Hn Hneed (Hbase & H1 & H2 & H3 & Hlive).
  unfold objects_ok. rewrite Hp, Hv, Hf, Hl, Hn.
  split; [exact Hbase|]. split; [exact H1|]. split; [exact H2|]. split; [exact H3|].
  destruct Hlive as [(Hlb & Hnr)|Halive]; [left|right; exact Halive].
  split; [exact Hlb|exact (Hneed Hnr Hlb)].
Qed.



(* ================================================================== *)
(** * Concrete instances of the properties of the setup helpers and of the
      loop *)

Lemma X1_witness :
  Z.of_nat (List.length demo_mem_types) <= 31 /\
  exists r, find_mem demo_mem_types 7 6 = Some r /\ r <> UINT32_MAX /\
            suits demo_mem_types 0 7 6 r.
Proof.
  assert (H1 : Z.of_nat (List.length demo_mem_types) <= 31) by (vm_compute; discriminate).
  split; [exact H1|].
  destruct (X1_find_mem_least demo_mem_types 7 6 H1) as (r & Hr & [(Hm & _)|(_ & Hne & Hs & _)]).
  - exfalso. rewrite Hm in Hr. vm_compute in Hr. discriminate.
  - exists r. split; [exact Hr|]. split; [exact Hne|exact Hs].
Defined.

Lemma X2_witness :
  generate_texture blank ((0 * 256 + 40) * 4 + 0) = Byte.xc8 /\
  generate_texture blank ((0 * 256 + 40) * 4 + 3) = Byte.xff.
Proof.
  destruct (X2_generate_texture_checkerboard blank) as (H1 & _ & H3 & _).
  split.
  - rewrite (H1 40 0 0); [reflexivity|lia|lia|lia].
  - exact (proj1 (H3 40 0 ltac:(lia) ltac:(lia))).
Defined.

Lemma X3_witness :
  1024 <= 2048 /\ 256 * 2048 <= 2 ^ 64 /\
  upload_texture 2048 blank (generate_texture blank) (3 * 2048 + 4 * 40 + 1) = Byte.xb4.
Proof.
  assert (H1 : 1024 <= 2048) by lia.
  assert (H2 : 256 * 2048 <= 2 ^ 64) by (vm_compute; discriminate).
  split; [exact H1|]. split; [exact H2|].
  destruct (X3_texture_upload 2048 blank blank H1 H2) as (Hpix & _).
  rewrite (Hpix 40 3 1); [reflexivity|lia|lia|lia].
Defined.

Lemma X4_witness :
  (forall n, String.get n "plasma" <> Some "/"%char) /\
  get_basename ("/root/metalshade/shaders" ++ "/" ++ "plasma") = "plasma".
Proof.
  assert (H1 : forall n, String.get n "plasma" <> Some "/"%char).
  { intros n. do 7 (destruct n as [|n]; [discriminate|]). discriminate. }
  split; [exact H1|].
  destruct (X4_get_basename "plasma") as (_ & _ & _ & _ & H5).
  exact (H5 "/root/metalshade/shaders" H1).
Defined.

Lemma X5_witness :
  exists sh, shader_at (shaders demo_env) (find_shader_by_name (shaders demo_env) "b") = Some sh /\
             name sh = "b".
Proof.
  destruct (X5_find_shader_by_name (shaders demo_env) "b") as [(H & _)|(_ & sh & H1 & H2 & _)].
  - exfalso. vm_compute in H. discriminate.
  - exists sh. split; [exact H1|exact H2].
Defined.

Lemma X6_witness :
  shaders demo_env = scan_all_shaders demo_fs /\
  exists cur out,
    main_select ["metalshader"; "shaders/b"] demo_fs
    = StartSelected (shaders demo_env) cur out /\
    registry_ok demo_env /\
    index_ok demo_env (initial_state cur (mkTimespec 90 0) blank blank [100; 101] 1000).
Proof.
  assert (He : shaders demo_env = scan_all_shaders demo_fs) by (vm_compute; reflexivity).
  split; [exact He|].
  pose proof (X6_main_select ["metalshader"; "shaders/b"] demo_fs) as H.
  cbv zeta in H.
  destruct (main_select ["metalshader"; "shaders/b"] demo_fs) as [code out|reg cur out] eqn:E.
  - exfalso. vm_compute in E. discriminate.
  - destruct H as (Hreg & _ & Hinv). exists cur, out. rewrite He, <- Hreg.
    split; [reflexivity|].
    exact (Hinv demo_env (mkTimespec 90 0) blank blank [100; 101] 1000%positive
                (eq_trans He (eq_sym Hreg))).
Defined.

Lemma X7_witness :
  find_display_port no_files (set_port_path "/dev/vport2p1" demo_start)
  = (Some "/dev/vport2p1", set_port_path "/dev/vport2p1" demo_start).
Proof.
  pose proof (X7_find_display_port demo_ports_fs demo_start) as H.
  assert (E : find_display_port demo_ports_fs demo_start
              = (Some "/dev/vport2p1", set_port_path "/dev/vport2p1" demo_start))
    by (vm_compute; reflexivity).
  rewrite E in H. destruct H as (_ & _ & Hc & _). exact (Hc no_files).
Defined.

Lemma X8_witness :
  registry_ok demo_env /\ existsb is_exit_press demo_queue = false /\
  index_ok demo_env demo_start /\
  exists s', drain demo_env no_files demo_queue demo_start = Next s' /\
             current_shader s' = 1 /\ reload_requested s' = 1.
Proof.
  assert (H2 : existsb is_exit_press demo_queue = false) by (vm_compute; reflexivity).
  split; [exact demo_registry_ok|]. split; [exact H2|].
  split; [exact demo_start_index_ok|].
  destruct (X8_poll_net_steps demo_env no_files demo_queue demo_registry_ok H2
              demo_start demo_start_index_ok) as (s' & Hd & Hc & Hr).
  exists s'. split; [exact Hd|]. split; [exact Hc|exact Hr].
Defined.

Lemma X9_witness :
  exists s',
    on_event demo_env demo_ports_fs (press KEY_F) demo_start = Next s' /\
    trace s' = [EvPrintf MsgToggling;
                EvPortWrite "/dev/vport2p1" ("FULLSCREEN" ++ newline)] /\
    current_shader s' = 0.
Proof.
  destruct (X9_display_toggle_key demo_env demo_ports_fs demo_start)
    as (s' & e & Hon & Hc & _ & _ & _ & Ht & Hm).
  assert (E : fst (find_display_port demo_ports_fs demo_start) = Some "/dev/vport2p1")
    by (vm_compute; reflexivity).
  rewrite E in Hm. destruct Hm as (_ & He).
  exists s'. split; [exact Hon|]. split; [|exact Hc].
  rewrite Ht, He. reflexivity.
Defined.


Lemma nokbd_registry_ok : registry_ok nokbd_env.
Proof. unfold registry_ok, shader_count, MAX_SHADERS. cbn. lia. Defined.

Lemma nokbd_index_ok : index_ok nokbd_env demo_start.
Proof. unfold index_ok, shader_count. cbn. lia. Defined.

Lemma X11_witness :
  registry_ok nokbd_env /\ kbd_fd nokbd_env < 0 /\ index_ok nokbd_env demo_start /\
  current_shader (state_of (main_loop nokbd_env [cx1_first; cx3_in1] demo_start)) = 0 /\
  reload_requested (state_of (main_loop nokbd_env [cx1_first; cx3_in1] demo_start)) = 0.
Proof.
  assert (H2 : kbd_fd nokbd_env < 0) by (vm_compute; reflexivity).
  split; [exact nokbd_registry_ok|]. split; [exact H2|]. split; [exact nokbd_index_ok|].
  destruct (X11_no_keyboard nokbd_env [cx1_first; cx3_in1] nokbd_registry_ok H2
              demo_start nokbd_index_ok) as (Hc & _ & _ & Hr).
  split; [exact Hc|exact (proj1 (Hr eq_refl))].
Defined.

Lemma X12_witness :
  registry_ok demo_env /\ index_ok demo_env demo_start /\
  iteration demo_env cx3_in1 demo_start = Next cx3_s1 /\
  exists pre,
    trace cx3_s1 =
      (trace demo_start ++ pre ++ frame_events demo_env (pipeline cx3_s1) cx3_in1 ++
       fps_line demo_env (elapsed (start cx3_s1) (clock_frame cx3_in1)) cx3_s1)%list /\
    frames cx3_s1 = int_add (if needs_reload demo_start then 0 else frames demo_start) 1.
Proof.
  assert (Hit : iteration demo_env cx3_in1 demo_start = Next cx3_s1)
    by (vm_compute; reflexivity).
  split; [exact demo_registry_ok|]. split; [exact demo_start_index_ok|].
  split; [exact Hit|].
  destruct (X12_pass_protocol demo_env cx3_in1 demo_start cx3_s1
              demo_registry_ok demo_start_index_ok Hit) as (pre & Ht & _ & Hf).
  exists pre. split; [exact Ht|exact Hf].
Defined.

Lemma X13_witness :
  registry_ok demo_env /\ needs_reload cx1_active = true /\
  shader_at (shaders demo_env) (current_shader cx1_active) = Some (demo_shader "b") /\
  load_spv (fs cx1_missing) (vert_path (demo_shader "b")) = None /\
  exists s1,
    iteration demo_env cx1_missing cx1_active = Again s1 /\
    pipeline s1 = pipeline cx1_active /\
    ~ In (pipeline cx1_active) (live s1) /\
    exists evs,
      trace (state_of (iteration demo_env cx1_missing s1)) =
      (trace s1 ++ destroy_events cx1_active ++ evs)%list.
Proof.
  assert (H2 : needs_reload cx1_active = true) by (vm_compute; reflexivity).
  assert (H3 : shader_at (shaders demo_env) (current_shader cx1_active)
               = Some (demo_shader "b")) by (vm_compute; reflexivity).
  assert (H4 : load_spv (fs cx1_missing) (vert_path (demo_shader "b")) = None)
    by (vm_compute; reflexivity).
  split; [exact demo_registry_ok|]. split; [exact H2|]. split; [exact H3|].
  split; [exact H4|].
  destruct (X13_retry_destroys_again demo_env cx1_missing cx1_missing cx1_active
              (demo_shader "b") demo_registry_ok H2 H3 (or_introl H4))
    as (s1 & Hit & Hp & _ & _ & Hdead & Hev).
  exists s1. split; [exact Hit|]. split; [exact Hp|]. split; [|exact Hev].
  apply Hdead; [vm_compute; discriminate|left; reflexivity].
Defined.

Lemma X14_witness :
  exists k, (k < 10)%nat /\ is_keyboard demo_devs k = true /\
            fst (open_keyboard demo_devs) = dev_open demo_devs (event_path k) /\
            snd (open_keyboard demo_devs) = opened_from demo_devs 0 k.
Proof.
  destruct (X14_open_keyboard demo_devs) as [(Hf & _)|(k & Hk & Hy & _ & Hf & _ & Hs)].
  - exfalso. vm_compute in Hf. discriminate.
  - exists k. split; [exact Hk|]. split; [exact Hy|]. split; [exact Hf|exact Hs].
Defined.

Lemma X15_witness :
  display_size demo_connectors = Some (1920, 1080) /\
  float_to_Z (F32.of_Z 1920) = Some 1920 /\ float_to_Z (F32.of_Z 1080) = Some 1080.
Proof.
  assert (E : display_size demo_connectors = Some (1920, 1080)) by (vm_compute; reflexivity).
  split; [exact E|].
  pose proof (X15_display_size demo_connectors) as H. rewrite E in H.
  destruct H as (_ & _ & _ & H1 & H2). split; [exact H1|exact H2].
Defined.

Lemma X16_witness :
  shader_count (scan_all_shaders demo_fs) < MAX_SHADERS /\
  accepted_in demo_fs "." (demo_shader "a") /\
  shader_at (scan_all_shaders demo_fs)
            (find_shader_by_name (scan_all_shaders demo_fs) (name (demo_shader "a")))
  = Some (demo_shader "a").
Proof.
  assert (H1 : shader_count (scan_all_shaders demo_fs) < MAX_SHADERS)
    by (vm_compute; reflexivity).
  split; [exact H1|]. split; [exact demo_accepted_a|].
  exact (proj2 (X16_search_order demo_fs) (demo_shader "a") H1 demo_accepted_a).
Defined.



